(** * Overture_lists: the relational store and the division query engine

    A shallow embedding of [src/src/database_storage.py] (class
    [DatabaseStorage]), of [src/src/crm_mapping_storage.py]
    ([CRMMappingStorage.add_mapping]) and of [src/src/query_engine.py]
    ([OvertureQueryEngine]).

    SQLite tables are lists of rows in insertion (rowid) order.  A Python
    exception is an [Err] result; the store after it is returned too, so
    "nothing was written" is a statement to prove, not an assumption.
    Timestamps ([created_at], [updated_at]) are not modelled. *)

From Stdlib Require Import List Ascii String ZArith Lia Bool Permutation Sorted.
Import ListNotations.
Open Scope string_scope.
Open Scope Z_scope.
Open Scope list_scope.

(* ------------------------------------------------------------------ *)
(** ** Python results and the store monad *)

Inductive py_error : Type :=
| ValueError (msg : string)
| IntegrityError (msg : string).

Inductive result (A : Type) : Type :=
| Ok (a : A)
| Err (e : py_error).
Arguments Ok {A} a.
Arguments Err {A} e.

(** Python's [str(int)] for the ids printed in error messages. *)
Definition digit_str (d : Z) : string :=
  String (Ascii.ascii_of_nat (48 + Z.to_nat d)) EmptyString.

Fixpoint pos_str_aux (fuel : nat) (n : Z) (acc : string) : string :=
  match fuel with
  | O => acc
  | S f =>
      let acc' := String.append (digit_str (n mod 10)) acc in
      if n <? 10 then acc' else pos_str_aux f (n / 10) acc'
  end.

Definition str_of_Z (n : Z) : string :=
  if n <? 0 then String.append "-" (pos_str_aux 64 (- n) "")
  else pos_str_aux 64 n "".

(** [item_ids : List[Union[int, str]]]: division ids for a division list,
    CRM system ids for a client list.  SQLite's type-affinity conversion
    of numeric strings is not modelled. *)
Inductive item : Type :=
| IInt (z : Z)
| IStr (s : string).

Definition item_eqb (a b : item) : bool :=
  match a, b with
  | IInt x, IInt y => x =? y
  | IStr x, IStr y => String.eqb x y
  | _, _ => false
  end.

(** Rows of the tables created by [sql/schema.sql]. *)
Record division_row : Type := mk_division {
  d_id : Z;
  d_system_id : string;
  d_name : string;
  d_subtype : string;
  d_country : string;
  d_geometry_json : string
}.

(** The [created_at] and [updated_at] timestamps of [lists] (and of the
    other tables) are not modelled: no property here reads them. *)
Record list_row : Type := mk_list {
  l_id : Z;
  l_name : string;
  l_type : string;
  l_notes : string;
  l_hash : string
}.

Record mapping_row : Type := mk_mapping {
  m_id : Z;
  m_system_id : string;
  m_division_id : Z;
  m_account_name : string;
  m_custom_admin_level : option string;
  m_division_name : option string;
  m_overture_subtype : option string;
  m_country : option string;
  m_geometry_json : option string
}.

Record relationship_row : Type := mk_relationship {
  r_id : Z;
  r_parent_division_id : Z;
  r_child_division_id : Z;
  r_relationship_type : string
}.

Record store : Type := mk_store {
  divisions : list division_row;
  lists : list list_row;
  list_divisions : list (Z * item);     (* (list_id, division_id) *)
  list_clients : list (Z * item);       (* (list_id, system_id) *)
  crm_mappings : list mapping_row;
  relationships : list relationship_row
}.

Definition M (A : Type) : Type := store -> result A * store.

Definition ret {A} (a : A) : M A := fun s => (Ok a, s).
Definition raise {A} (e : py_error) : M A := fun s => (Err e, s).
Definition bind {A B} (m : M A) (k : A -> M B) : M B :=
  fun s => match m s with
           | (Ok a, s') => k a s'
           | (Err e, s') => (Err e, s')
           end.
Definition get : M store := fun s => (Ok s, s).
Definition put (s : store) : M unit := fun _ => (Ok tt, s).

Notation "x <- m ;; k" := (bind m (fun x => k))
  (at level 61, m at next level, right associativity).
Notation "m ;;; k" := (bind m (fun _ => k))
  (at level 61, right associativity).

(** [with DatabaseStorage() as db: ...]: [__enter__] returns the storage;
    [__exit__] commits when the block ends normally and rolls back when it
    raises, then lets the exception through ([return False]).  [sqlite3]
    opens a transaction before the first write of the block, and
    [_init_db] has committed before it, so a rollback restores the store
    the block started from. *)
Definition with_db {A} (body : M A) : M A :=
  fun s => match body s with
           | (Ok a, s') => (Ok a, s')
           | (Err e, _) => (Err e, s)
           end.

(** Setters for one table at a time. *)
Definition set_divisions (s : store) (t : list division_row) : store :=
  mk_store t (lists s) (list_divisions s) (list_clients s) (crm_mappings s)
    (relationships s).
Definition set_lists (s : store) (t : list list_row) : store :=
  mk_store (divisions s) t (list_divisions s) (list_clients s) (crm_mappings s)
    (relationships s).
Definition set_list_divisions (s : store) (t : list (Z * item)) : store :=
  mk_store (divisions s) (lists s) t (list_clients s) (crm_mappings s)
    (relationships s).
Definition set_list_clients (s : store) (t : list (Z * item)) : store :=
  mk_store (divisions s) (lists s) (list_divisions s) t (crm_mappings s)
    (relationships s).
Definition set_crm_mappings (s : store) (t : list mapping_row) : store :=
  mk_store (divisions s) (lists s) (list_divisions s) (list_clients s) t
    (relationships s).
Definition set_relationships (s : store) (t : list relationship_row) : store :=
  mk_store (divisions s) (lists s) (list_divisions s) (list_clients s)
    (crm_mappings s) t.

(** SQLite's rowid for an [INTEGER PRIMARY KEY]: one more than the largest
    id in the table ([cursor.lastrowid] after the insert). *)
Definition next_rowid (ids : list Z) : Z := fold_right Z.max 0 ids + 1.

(** [json.dumps]: the geometry dict is taken already serialised; [None]
    dumps to ["null"]. *)
Definition json_dumps (g : option string) : string :=
  match g with Some j => j | None => "null" end.

(** [json.dumps(geometry) if geometry else None]: [None] and the empty
    dict (serialised ["{}"]) are falsy, and give [None]. *)
Definition dumps_if_truthy (geometry : option string) : option string :=
  match geometry with
  | Some j => if String.eqb j "{}" then None else Some j
  | None => None
  end.

(* ------------------------------------------------------------------ *)
(** ** Division operations *)

(** The dict a reader returns for a row: the columns, and the key
    [geometry] set to [json.loads(geometry_json)] when [geometry_json] is
    truthy (a non-empty string); [None] here means the key is absent.  As
    for [json_dumps], a JSON value is represented by its serialisation. *)
Definition json_field (j : string) : option string :=
  if String.eqb j "" then None else Some j.

Definition division_dict (d : division_row) : division_row * option string :=
  (d, json_field (d_geometry_json d)).

(** [DatabaseStorage.get_division_by_system_id]: [SELECT * FROM divisions
    WHERE system_id = ?] with [fetch_one=True], as a dict. *)
Definition get_division_by_system_id (system_id : string)
    : M (option (division_row * option string)) :=
  s <- get ;;
  ret (option_map division_dict
         (find (fun d => String.eqb (d_system_id d) system_id) (divisions s))).

(** [DatabaseStorage.get_division]: [SELECT * FROM divisions WHERE id = ?]
    with [fetch_one=True]. *)
Definition get_division (division_id : Z) : M (option (division_row * option string)) :=
  s <- get ;;
  ret (option_map division_dict (find (fun d => d_id d =? division_id) (divisions s))).

(** [DatabaseStorage.save_division]. *)
Definition save_division (system_id name subtype country : string)
    (geometry : option string) : M Z :=
  existing <- get_division_by_system_id system_id ;;
  match existing with
  | Some (d, _) => ret (d_id d)
  | None =>
      s <- get ;;
      let new_id := next_rowid (map d_id (divisions s)) in
      put (set_divisions s (divisions s ++
             [mk_division new_id system_id name subtype country (json_dumps geometry)])) ;;;
      ret new_id
  end.

Definition count_system_id (x : string) (ds : list division_row) : nat :=
  List.length (filter (fun d => String.eqb (d_system_id d) x) ds).

(** A row of [divisions] has this id: what a foreign key on
    [divisions(id)] checks. *)
Definition division_exists (division_id : Z) (s : store) : bool :=
  existsb (fun d => d_id d =? division_id) (divisions s).

(** With [PRAGMA foreign_keys = ON] (set by [__init__]), a statement that
    writes a row whose foreign key names no row of the parent table fails,
    and [sqlite3] raises [IntegrityError]. *)
Definition fk_error : py_error := IntegrityError "FOREIGN KEY constraint failed".

(* ------------------------------------------------------------------ *)
(** ** Relationship operations *)

(** Modelled from the spec: the [relationships] table of the missing
    [sql/schema.sql] has the triple (parent, child, type) unique, which is
    what makes [INSERT OR IGNORE] skip a duplicate edge; its parent and
    child reference [divisions(id)] ("a directed, typed edge between two
    cached Divisions"; "Deleting a Division cascades to delete all
    Relationships referencing it"). *)
Definition relationship_exists (p c : Z) (t : string) (rs : list relationship_row) : bool :=
  existsb (fun r => (r_parent_division_id r =? p) && (r_child_division_id r =? c)
                    && String.eqb (r_relationship_type r) t) rs.

(** [DatabaseStorage.add_relationship].  [OR IGNORE] skips the row that
    would break the uniqueness of the triple; it does not apply to
    foreign keys, so an edge that is not a duplicate and names an uncached
    division fails. *)
Definition add_relationship (parent_division_id child_division_id : Z)
    (relationship_type : string) : M unit :=
  if parent_division_id =? child_division_id then
    raise (ValueError "Parent and child division cannot be the same")
  else
    s <- get ;;
    if relationship_exists parent_division_id child_division_id relationship_type
         (relationships s)
    then ret tt
    else if negb (division_exists parent_division_id s && division_exists child_division_id s)
    then raise fk_error
    else put (set_relationships s (relationships s ++
           [mk_relationship (next_rowid (map r_id (relationships s)))
              parent_division_id child_division_id relationship_type])).

(** [DatabaseStorage.delete_relationship]: [DELETE FROM relationships
    WHERE parent_division_id = ? AND child_division_id = ? AND
    relationship_type = ?]. *)
Definition delete_relationship (parent_division_id child_division_id : Z)
    (relationship_type : string) : M unit :=
  s <- get ;;
  put (set_relationships s
         (filter (fun r => negb ((r_parent_division_id r =? parent_division_id)
                                 && (r_child_division_id r =? child_division_id)
                                 && String.eqb (r_relationship_type r) relationship_type))
            (relationships s))).

Definition empty_store : store := mk_store [] [] [] [] [] [].

(* ------------------------------------------------------------------ *)
(** ** List operations *)

(** What [get_list_items] returns: division rows (dicts) for a division
    list, the stored [system_id] values for a client list. *)
Inductive pyobj : Type :=
| PyDivision (d : division_row)
| PyItem (i : item).

(** Python truthiness of an optional id (the result of
    [check_duplicate_list], the argument of [get_relationships]): [None]
    and [0] are both falsy. *)
Definition truthy_id (o : option Z) : option Z :=
  match o with
  | Some e => if e =? 0 then None else Some e
  | None => None
  end.

Section RelationshipRead.

(** The row order of a query without [ORDER BY], as in [ListRead]. *)
Variable scan : forall A : Type, list A -> list A.

(** [DatabaseStorage.get_relationships]: [if division_id:] the rows where
    it is parent or child, otherwise every row. *)
Definition get_relationships (division_id : option Z) : M (list relationship_row) :=
  s <- get ;;
  match truthy_id division_id with
  | Some d =>
      ret (scan _ (filter (fun r => (r_parent_division_id r =? d) || (r_child_division_id r =? d))
                     (relationships s)))
  | None => ret (scan _ (relationships s))
  end.

End RelationshipRead.

(** [SELECT * FROM lists WHERE id = ?] with [fetch_one=True]. *)
Definition get_list (list_id : Z) : M (option list_row) :=
  s <- get ;;
  ret (find (fun l => l_id l =? list_id) (lists s)).

(** [DatabaseStorage.check_duplicate_list]. *)
Definition check_duplicate_list (hash_val : string) : M (option Z) :=
  s <- get ;;
  ret (option_map l_id (find (fun l => String.eqb (l_hash l) hash_val) (lists s))).

Definition list_not_found (list_id : Z) : py_error :=
  ValueError (String.concat "" ["List "; str_of_Z list_id; " not found"]).

Definition duplicate_list_error (name list_type : string) (existing : Z) : py_error :=
  ValueError (String.concat "" ["List '"; name; "' of type '"; list_type;
                                "' already exists (ID: "; str_of_Z existing; ")"]).

(** Modelled from the spec and the tests: the junction tables of the
    missing [sql/schema.sql] have foreign keys on their items, the
    [division_id] of [list_divisions] on [divisions(id)] ("linking a List
    to ... a cached Division") and the [system_id] of [list_clients] on
    the [system_id] of [crm_mappings] ("First create CRM mappings
    (required by FOREIGN KEY)", [test_create_client_list]).  The check an
    inserted junction row passes; the table is chosen as the code does it,
    [list_divisions] for the type ["division"], [list_clients] otherwise.
    The foreign keys are immediate (checked at the end of each statement):
    the schema declares no [DEFERRABLE]. *)
Definition item_ref_ok (s : store) (list_type : string) (i : item) : bool :=
  if String.eqb list_type "division" then
    match i with
    | IInt d => division_exists d s
    | IStr _ => false
    end
  else
    match i with
    | IStr x => existsb (fun m => String.eqb (m_system_id m) x) (crm_mappings s)
    | IInt _ => false
    end.

(** [self.conn.executemany("INSERT INTO list_divisions (list_id,
    division_id) VALUES (?, ?)", [(list_id, item_id) for item_id in
    item_ids])], or the same on [list_clients]: the statement runs once
    per item, in order; the first row that breaks its foreign key raises,
    and the rows inserted before it stay in the open transaction. *)
Fixpoint executemany_insert_items (list_type : string) (list_id : Z)
    (item_ids : list item) : M unit :=
  match item_ids with
  | [] => ret tt
  | i :: rest =>
      s <- get ;;
      if item_ref_ok s list_type i then
        put (if String.eqb list_type "division"
             then set_list_divisions s (list_divisions s ++ [(list_id, i)])
             else set_list_clients s (list_clients s ++ [(list_id, i)])) ;;;
        executemany_insert_items list_type list_id rest
      else raise fk_error
  end.

Section ListHash.

(** [hashlib.md5(...).hexdigest()]: any function of the content string. *)
Variable md5 : string -> string.

(** [DatabaseStorage._compute_hash]. *)
Definition _compute_hash (name list_type : string) : string :=
  md5 (String.concat "" [name; "|"; list_type]).

(** [DatabaseStorage.create_list]: the [lists] row is inserted before
    the items, so an item that breaks its foreign key raises after the
    row and the items before it are written (undone by the rollback of
    [with DatabaseStorage()], see [with_db]). *)
Definition create_list (name list_type : string) (item_ids : list item)
    (notes : string) : M Z :=
  match item_ids with
  | [] => raise (ValueError "List must contain at least one item")
  | _ :: _ =>
    if negb (String.eqb list_type "division" || String.eqb list_type "client") then
      raise (ValueError "list_type must be 'division' or 'client'")
    else
      let hash_val := _compute_hash name list_type in
      existing <- check_duplicate_list hash_val ;;
      match truthy_id existing with
      | Some e => raise (duplicate_list_error name list_type e)
      | None =>
          s <- get ;;
          let list_id := next_rowid (map l_id (lists s)) in
          put (set_lists s (lists s ++ [mk_list list_id name list_type notes hash_val])) ;;;
          executemany_insert_items list_type list_id item_ids ;;;
          ret list_id
      end
  end.

(** [DatabaseStorage.update_list]: the row's new name, hash and notes,
    written by [UPDATE lists SET ... WHERE id = ?]. *)
Definition update_list_row (list_id : Z) (name' hash' notes' : option string)
    (r : list_row) : list_row :=
  if l_id r =? list_id then
    mk_list (l_id r)
      (match name' with Some n => n | None => l_name r end)
      (l_type r)
      (match notes' with Some n => n | None => l_notes r end)
      (match hash' with Some h => h | None => l_hash r end)
  else r.

Definition update_list (list_id : Z) (name notes : option string) : M unit :=
  list_data <- get_list list_id ;;
  match list_data with
  | None => raise (list_not_found list_id)
  | Some l =>
      renamed <-
        match name with
        | Some n =>
            if String.eqb n (l_name l) then ret None
            else
              let new_hash := _compute_hash n (l_type l) in
              existing <- check_duplicate_list new_hash ;;
              match truthy_id existing with
              | Some e =>
                  if e =? list_id then ret (Some (n, new_hash))
                  else raise (duplicate_list_error n (l_type l) e)
              | None => ret (Some (n, new_hash))
              end
        | None => ret None
        end ;;
      match renamed, notes with
      | None, None => ret tt
      | _, _ =>
          s <- get ;;
          put (set_lists s (map (update_list_row list_id (option_map fst renamed)
                                  (option_map snd renamed) notes) (lists s)))
      end
  end.

End ListHash.

(** [DatabaseStorage.update_list_items]: delete the list's junction rows,
    then insert the new ones in the order given; an item that breaks its
    foreign key raises after the delete and the items before it.  The
    final [UPDATE lists SET updated_at = CURRENT_TIMESTAMP] writes only
    the timestamp, a column the model leaves out (see [list_row]). *)
Definition update_list_items (list_id : Z) (item_ids : list item) : M unit :=
  match item_ids with
  | [] => raise (ValueError "List must contain at least one item")
  | _ :: _ =>
    list_data <- get_list list_id ;;
    match list_data with
    | None => raise (list_not_found list_id)
    | Some l =>
        let list_type := l_type l in
        s <- get ;;
        put (if String.eqb list_type "division"
             then set_list_divisions s
                    (filter (fun p => negb (fst p =? list_id)) (list_divisions s))
             else set_list_clients s
                    (filter (fun p => negb (fst p =? list_id)) (list_clients s))) ;;;
        executemany_insert_items list_type list_id item_ids
    end
  end.

(** Modelled from the spec: [DatabaseStorage.delete_list] runs
    [DELETE FROM lists WHERE id = ?]; the list's junction rows go with it
    ("deleteList (cascades items)"; the code relies on it: "CASCADE
    handled by foreign keys"), by the [ON DELETE CASCADE] of the missing
    [sql/schema.sql]. *)
Definition delete_list (list_id : Z) : M unit :=
  s <- get ;;
  put (mk_store (divisions s) (filter (fun l => negb (l_id l =? list_id)) (lists s))
         (filter (fun p => negb (fst p =? list_id)) (list_divisions s))
         (filter (fun p => negb (fst p =? list_id)) (list_clients s))
         (crm_mappings s) (relationships s)).

(** Python truthiness of an optional string: [None] and [""] are falsy. *)
Definition truthy_str (o : option string) : option string :=
  match o with
  | Some t => if String.eqb t "" then None else Some t
  | None => None
  end.

Section ListRead.

(** The order in which SQLite hands back the rows of a query that has no
    [ORDER BY]: SQL leaves it to the engine (query plan, indexes), so it is
    a parameter; the theorems assume only that it is a permutation. *)
Variable scan : forall A : Type, list A -> list A.

(** [SELECT d.* FROM divisions d JOIN list_divisions ld
       ON d.id = ld.division_id WHERE ld.list_id = ?]. *)
Definition join_list_divisions (s : store) (list_id : Z) : list pyobj :=
  flat_map (fun p =>
              if fst p =? list_id then
                map PyDivision (filter (fun d => item_eqb (snd p) (IInt (d_id d))) (divisions s))
              else [])
           (list_divisions s).

(** [SELECT system_id FROM list_clients WHERE list_id = ?]. *)
Definition select_list_clients (s : store) (list_id : Z) : list pyobj :=
  flat_map (fun p => if fst p =? list_id then [PyItem (snd p)] else []) (list_clients s).

(** [DatabaseStorage.get_list_items]. *)
Definition get_list_items (list_id : Z) : M (list pyobj) :=
  list_data <- get_list list_id ;;
  match list_data with
  | None => ret []
  | Some l =>
      s <- get ;;
      if String.eqb (l_type l) "division" then ret (scan _ (join_list_divisions s list_id))
      else ret (scan _ (select_list_clients s list_id))
  end.


(** [DatabaseStorage.get_all_lists]: [if list_type:] the lists of that
    type, otherwise all lists, [ORDER BY created_at DESC].  [created_at]
    is not modelled, so the order is the engine's, as above. *)
Definition get_all_lists (list_type : option string) : M (list list_row) :=
  s <- get ;;
  match truthy_str list_type with
  | Some t => ret (scan _ (filter (fun l => String.eqb (l_type l) t) (lists s)))
  | None => ret (scan _ (lists s))
  end.

End ListRead.

(** The "Save List" button of [pages/List_Builder.py] (lines 151-171),
    after its checks that the name and the boundaries are not empty: one
    [with DatabaseStorage() as db:] block that caches every boundary with
    [save_division] and then creates a division list of their ids.  A
    boundary is the dict of the page's current list, with the defaults of
    its [.get] calls applied. *)
Record boundary : Type := mk_boundary {
  b_division_id : string;
  b_name : string;
  b_subtype : string;
  b_country : string;
  b_geometry : option string
}.

Fixpoint save_divisions (boundaries : list boundary) : M (list item) :=
  match boundaries with
  | [] => ret []
  | b :: bs =>
      division_id <- save_division (b_division_id b) (b_name b) (b_subtype b)
                       (b_country b) (b_geometry b) ;;
      division_ids <- save_divisions bs ;;
      ret (IInt division_id :: division_ids)
  end.

Definition save_list_block (md5 : string -> string) (list_name description : string)
    (boundaries : list boundary) : M Z :=
  with_db (division_ids <- save_divisions boundaries ;;
           create_list md5 list_name "division" division_ids description).

(* ------------------------------------------------------------------ *)
(** ** CRM mapping operations *)

(** Modelled from the spec: the [crm_mappings] table of the missing
    [sql/schema.sql].  [system_id] is unique (the code's
    [ON CONFLICT(system_id)] needs it); [division_id] is unique and
    references [divisions(id)] ("both system_id and the referenced
    Division must be unique across all Mappings"; "Deleting a Division
    cascades to delete its Mapping").  A violated constraint aborts the
    statement with [sqlite3.IntegrityError]. *)
Definition division_taken_by_other (system_id : string) (division_id : Z)
    (ms : list mapping_row) : bool :=
  existsb (fun m => (m_division_id m =? division_id)
                    && negb (String.eqb (m_system_id m) system_id)) ms.

(** [DatabaseStorage.save_mapping]: [INSERT ... ON CONFLICT(system_id)
    DO UPDATE SET division_id = excluded.division_id, ...].  SQLite checks
    the conflict target first; on a conflict there the existing row is
    updated, otherwise the row is inserted; the other unique constraint
    is then checked on the written row. *)
Definition save_mapping (system_id : string) (division_id : Z)
    (account_name : string)
    (custom_admin_level division_name overture_subtype country : option string)
    (geometry : option string) : M unit :=
  let geometry_json := dumps_if_truthy geometry in
  let row := mk_mapping 0 system_id division_id account_name custom_admin_level
               division_name overture_subtype country geometry_json in
  s <- get ;;
  if negb (division_exists division_id s) then
    raise (IntegrityError "FOREIGN KEY constraint failed")
  else if division_taken_by_other system_id division_id (crm_mappings s) then
    raise (IntegrityError "UNIQUE constraint failed: crm_mappings.division_id")
  else
    match find (fun m => String.eqb (m_system_id m) system_id) (crm_mappings s) with
    | Some _ =>
        put (set_crm_mappings s
               (map (fun m => if String.eqb (m_system_id m) system_id
                              then mk_mapping (m_id m) system_id division_id account_name
                                     custom_admin_level division_name overture_subtype
                                     country geometry_json
                              else m) (crm_mappings s)))
    | None =>
        put (set_crm_mappings s
               (crm_mappings s ++
                  [mk_mapping (next_rowid (map m_id (crm_mappings s))) (m_system_id row)
                     (m_division_id row) (m_account_name row) (m_custom_admin_level row)
                     (m_division_name row) (m_overture_subtype row) (m_country row)
                     (m_geometry_json row)]))
    end.

(** The dict of a mapping row, with [geometry] parsed when
    [geometry_json] is truthy (see [division_dict]). *)
Definition mapping_dict (m : mapping_row) : mapping_row * option string :=
  (m, match m_geometry_json m with Some j => json_field j | None => None end).

(** [DatabaseStorage.get_mapping_by_system_id]. *)
Definition get_mapping_by_system_id (system_id : string)
    : M (option (mapping_row * option string)) :=
  s <- get ;;
  ret (option_map mapping_dict
         (find (fun m => String.eqb (m_system_id m) system_id) (crm_mappings s))).

(** [DatabaseStorage.get_mapping_by_division_id]. *)
Definition get_mapping_by_division_id (division_id : Z)
    : M (option (mapping_row * option string)) :=
  s <- get ;;
  ret (option_map mapping_dict
         (find (fun m => m_division_id m =? division_id) (crm_mappings s))).

(** [DatabaseStorage.delete_mapping].  The foreign key of [list_clients]
    (see [item_ref_ok]) has no [ON DELETE] action that the sources show;
    under SQLite's default ([NO ACTION]) the [DELETE] of a mapping that a
    client-list item still names fails. *)
Definition delete_mapping (system_id : string) : M unit :=
  s <- get ;;
  if existsb (fun p => item_eqb (snd p) (IStr system_id)) (list_clients s)
     && existsb (fun m => String.eqb (m_system_id m) system_id) (crm_mappings s)
  then raise fk_error
  else
    put (set_crm_mappings s
           (filter (fun m => negb (String.eqb (m_system_id m) system_id)) (crm_mappings s))).

(** [CRMMappingStorage] ([src/src/crm_mapping_storage.py]): its own
    [mappings] table, created by [_init_database] with [system_id TEXT NOT
    NULL UNIQUE] and [division_id TEXT NOT NULL UNIQUE]. *)
Module CRMMappingStorage.

Record mapping : Type := mk {
  mp_id : Z;
  mp_system_id : string;
  mp_account_name : string;
  mp_custom_admin_level : string;
  mp_division_id : string;
  mp_division_name : string;
  mp_overture_subtype : string;
  mp_country : string;
  mp_geometry : option string
}.

(** [CRMMappingStorage.add_mapping]: a plain [INSERT]; on
    [sqlite3.IntegrityError] the transaction is rolled back and the error
    re-raised.  [id INTEGER PRIMARY KEY AUTOINCREMENT]: the new id is one
    more than the largest id the table has ever used, kept in
    [sqlite_sequence] ([seq]), so the ids of deleted rows are not reused;
    the rollback leaves [seq] as it was.  The result is the returned value
    and the table with its [seq]. *)
Definition add_mapping (system_id account_name custom_admin_level division_id
    division_name overture_subtype country : string) (geometry : option string)
    (seq : Z) (table : list mapping) : result bool * (Z * list mapping) :=
  let geometry_str := dumps_if_truthy geometry in
  if existsb (fun m => String.eqb m.(mp_system_id) system_id) table then
    (Err (IntegrityError "UNIQUE constraint failed: mappings.system_id"), (seq, table))
  else if existsb (fun m => String.eqb m.(mp_division_id) division_id) table then
    (Err (IntegrityError "UNIQUE constraint failed: mappings.division_id"), (seq, table))
  else
    let new_id := Z.max seq (fold_right Z.max 0 (map mp_id table)) + 1 in
    (Ok true, (new_id, table ++ [mk new_id system_id account_name
                                   custom_admin_level division_id division_name
                                   overture_subtype country geometry_str])).

Section Reads.

(** [json.loads] of a stored geometry: the parsed value (represented by
    its text), or [None] where it raises [JSONDecodeError]. *)
Variable json_loads : string -> option string.

(** The order of [ORDER BY created_at DESC]; [created_at] is not
    modelled. *)
Variable by_created_desc : list mapping -> list mapping.

(** [mapping = dict(row); if mapping['geometry']: try: json.loads ...
    except (JSONDecodeError, TypeError): None]. *)
Definition parse_row (m : mapping) : mapping :=
  match m.(mp_geometry) with
  | Some g =>
      if String.eqb g "" then m
      else mk m.(mp_id) m.(mp_system_id) m.(mp_account_name) m.(mp_custom_admin_level)
             m.(mp_division_id) m.(mp_division_name) m.(mp_overture_subtype)
             m.(mp_country) (json_loads g)
  | None => m
  end.

(** [CRMMappingStorage.get_all_mappings]. *)
Definition get_all_mappings (table : list mapping) : list mapping :=
  map parse_row (by_created_desc table).

(** [CRMMappingStorage.get_mapping_by_system_id]. *)
Definition get_mapping_by_system_id (system_id : string) (table : list mapping)
    : option mapping :=
  option_map parse_row (find (fun m => String.eqb m.(mp_system_id) system_id) table).

(** [CRMMappingStorage.get_mapping_by_division_id]. *)
Definition get_mapping_by_division_id (division_id : string) (table : list mapping)
    : option mapping :=
  option_map parse_row (find (fun m => String.eqb m.(mp_division_id) division_id) table).

(** A mapping as [export_to_json_format] writes it: no [id], no
    timestamps. *)
Record exported : Type := mk_exported {
  ex_system_id : string;
  ex_account_name : string;
  ex_custom_admin_level : string;
  ex_division_id : string;
  ex_division_name : string;
  ex_overture_subtype : string;
  ex_country : string;
  ex_geometry : option string
}.

(** [CRMMappingStorage.export_to_json_format]. *)
Definition export_to_json_format (table : list mapping) : list exported :=
  map (fun m => mk_exported m.(mp_system_id) m.(mp_account_name) m.(mp_custom_admin_level)
                  m.(mp_division_id) m.(mp_division_name) m.(mp_overture_subtype)
                  m.(mp_country) m.(mp_geometry))
      (get_all_mappings table).

End Reads.

(** [CRMMappingStorage.delete_mapping]: [cursor.rowcount > 0] after
    [DELETE FROM mappings WHERE id = ?]. *)
Definition delete_mapping (mapping_id : Z) (table : list mapping) : bool * list mapping :=
  let kept := filter (fun m => negb (m.(mp_id) =? mapping_id)) table in
  (Nat.ltb 0 (List.length table - List.length kept), kept).

(** [CRMMappingStorage.delete_mapping_by_system_id]. *)
Definition delete_mapping_by_system_id (system_id : string) (table : list mapping)
    : bool * list mapping :=
  let kept := filter (fun m => negb (String.eqb m.(mp_system_id) system_id)) table in
  (Nat.ltb 0 (List.length table - List.length kept), kept).

(** [CRMMappingStorage.get_count]: [SELECT COUNT( * ) FROM mappings]. *)
Definition get_count (table : list mapping) : nat := List.length table.

(** [CRMMappingStorage.clear_all_mappings]. *)
Definition clear_all_mappings (table : list mapping) : bool * list mapping := (true, []).

End CRMMappingStorage.

(* ------------------------------------------------------------------ *)
(** ** Organisational descendants *)

(** Children of [p] along edges of type [t]: the rows of [relationships]
    joined on [parent_division_id] with [relationship_type = ?]. *)
Definition children_of (rels : list relationship_row) (t : string) (p : Z) : list Z :=
  map r_child_division_id
    (filter (fun r => (r_parent_division_id r =? p) && String.eqb (r_relationship_type r) t)
       rels).

(** The recursive member of [WITH RECURSIVE org_descendants]: the rows at
    [depth] produce the rows at [depth + 1] while [od.depth < depth_limit];
    [UNION ALL] keeps every row, so a division reached along two paths
    appears twice.  The recursion ends because the depth guard bounds it. *)
Fixpoint org_levels_fuel (fuel : nat) (rels : list relationship_row) (t : string)
    (depth_limit depth : Z) (level : list Z) : list Z :=
  match fuel with
  | O => []
  | S f =>
      if depth <? depth_limit then
        let next := flat_map (children_of rels t) level in
        next ++ org_levels_fuel f rels t depth_limit (depth + 1) next
      else []
  end.

(** The guard [depth < depth_limit] admits [depth_limit - depth] more
    levels, the measure that makes the recursion terminate. *)
Definition org_levels (rels : list relationship_row) (t : string)
    (depth_limit depth : Z) (level : list Z) : list Z :=
  org_levels_fuel (Z.to_nat (depth_limit - depth)) rels t depth_limit depth level.

(** [SELECT DISTINCT]: each id once, at its first occurrence. *)
Fixpoint distinct_aux (seen : list Z) (l : list Z) : list Z :=
  match l with
  | [] => []
  | x :: r => if existsb (Z.eqb x) seen then distinct_aux seen r
              else x :: distinct_aux (x :: seen) r
  end.

Definition distinct (l : list Z) : list Z := distinct_aux [] l.

(** [depth_limit = 999 if max_depth is None else max_depth]. *)
Definition org_depth_limit (max_depth : option Z) : Z :=
  match max_depth with None => 999 | Some d => d end.

(** [DatabaseStorage.get_organizational_descendants].  The order of the
    [SELECT DISTINCT] output is not fixed by SQL; every property proved
    below is about membership and multiplicity only. *)
Definition get_organizational_descendants (division_id : Z) (relationship_type : string)
    (max_depth : option Z) : M (list Z) :=
  let depth_limit := org_depth_limit max_depth in
  s <- get ;;
  let base := children_of (relationships s) relationship_type division_id in
  ret (distinct (base ++ org_levels (relationships s) relationship_type depth_limit 1 base)).

(* ------------------------------------------------------------------ *)
(** ** The division query engine ([src/src/query_engine.py]) *)

Module QueryEngine.

(** A record of the Overture divisions Parquet data; [NULL] is [None]. *)
Record division_record : Type := mk_record {
  id : string;
  names_primary : option string;
  subtype : option string;
  country : option string;
  parent_division_id : option string;
  class : option string;
  geometry_geojson : option string
}.

(** What [read_parquet(path)] finds at a path: the records, or a failure
    (missing, unreachable or malformed files). *)
Inductive dataset : Type :=
| Readable (rows : list division_record)
| Unreadable (msg : string).

Definition files : Type := string -> dataset.

(** A row of the DataFrames the queries return: columns [division_id],
    [name], [subtype], [country], [parent_division_id]. *)
Record df_row : Type := mk_df {
  division_id : string;
  name : option string;
  df_subtype : option string;
  df_country : option string;
  df_parent_division_id : option string
}.

Definition to_df (r : division_record) : df_row :=
  mk_df (id r) (names_primary r) (subtype r) (country r) (parent_division_id r).

(** [OvertureQueryEngine]: the path of the data, and the selection state
    of [__init__] ([self.country], [self.selection_path]).  The DuckDB
    connection is not modelled. *)
Record engine : Type := mk_engine {
  parquet_path : string;
  eng_country : option string;
  selection_path : list df_row
}.

(** A query's outcome: the returned value and the messages shown with
    [st.error].  The bodies below compute it from the data; what a call
    of the decorated method returns goes through [st.cache_data] (see
    [cache_data]). *)
Definition outcome (A : Type) : Type := (A * list string)%type.

(** [try: conn.execute(query) ... except Exception as e: st.error(...);
    return default]. *)
Definition run_query {A} (e : engine) (fs : files) (what : string) (default : A)
    (q : list division_record -> A) : outcome A :=
  match fs (parquet_path e) with
  | Readable rows => (q rows, [])
  | Unreadable msg => (default, [String.concat "" ["Error fetching "; what; ": "; msg]])
  end.

Definition opt_eqb (a : option string) (b : string) : bool :=
  match a with Some x => String.eqb x b | None => false end.

(** [ORDER BY name]: ascending, [NULL]s last (DuckDB's default); a stable
    insertion sort. *)
Definition name_le (a b : option string) : bool :=
  match a, b with
  | Some x, Some y => String.leb x y
  | Some _, None => true
  | None, Some _ => false
  | None, None => true
  end.

Fixpoint insert_by_name (r : df_row) (l : list df_row) : list df_row :=
  match l with
  | [] => [r]
  | x :: t => if name_le (name x) (name r) then x :: insert_by_name r t else r :: x :: t
  end.

Fixpoint order_by_name (l : list df_row) : list df_row :=
  match l with
  | [] => []
  | x :: t => insert_by_name x (order_by_name t)
  end.

Fixpoint insert_string (x : string) (l : list string) : list string :=
  match l with
  | [] => [x]
  | y :: t => if String.leb y x then y :: insert_string x t else x :: y :: t
  end.

Fixpoint distinct_strings (l : list string) : list string :=
  match l with
  | [] => []
  | x :: t => if existsb (String.eqb x) t then distinct_strings t else x :: distinct_strings t
  end.

(** [SELECT DISTINCT ... ORDER BY]. *)
Definition sorted_distinct (l : list string) : list string :=
  fold_right insert_string [] (distinct_strings l).

Definition somes (l : list (option string)) : list string :=
  flat_map (fun o => match o with Some x => [x] | None => [] end) l.

Definition is_land (r : division_record) : bool := opt_eqb (class r) "land".

(** [get_countries]. *)
Definition get_countries (e : engine) (fs : files) : outcome (list string) :=
  run_query e fs "countries" []
    (fun rows => sorted_distinct (somes (map country rows))).

(** [get_subtypes]. *)
Definition get_subtypes (e : engine) (fs : files) (c : string) : outcome (list string) :=
  run_query e fs "subtypes" []
    (fun rows => sorted_distinct
                   (somes (map subtype (filter (fun r => opt_eqb (country r) c && is_land r) rows)))).

(** [get_top_level_divisions]: [parent_division_id IS NULL], [LIMIT 1000]. *)
Definition get_top_level_divisions (e : engine) (fs : files) (c : string) : outcome (list df_row) :=
  run_query e fs "top-level divisions" []
    (fun rows => firstn 1000 (order_by_name (map to_df
       (filter (fun r => opt_eqb (country r) c && is_land r
                         && match parent_division_id r with None => true | Some _ => false end)
          rows)))).

(** [get_child_divisions]: [parent_division_id = ?], [LIMIT 1000]. *)
Definition get_child_divisions (e : engine) (fs : files) (parent : string) : outcome (list df_row) :=
  run_query e fs "child divisions" []
    (fun rows => firstn 1000 (order_by_name (map to_df
       (filter (fun r => opt_eqb (parent_division_id r) parent && is_land r) rows)))).

(** [get_geometry]: the GeoJSON and name of the first record with that id,
    [None] when absent (or on an error). *)
Definition get_geometry (e : engine) (fs : files) (gers_id : string)
    : outcome (option (string * option string)) :=
  run_query e fs "geometry" None
    (fun rows => match find (fun r => String.eqb (id r) gers_id) rows with
                 | Some r => match geometry_geojson r with
                             | Some g => Some (g, names_primary r)
                             | None => None
                             end
                 | None => None
                 end).

(** [set_country], [add_to_path], [clear_path], [reset]. *)
Definition set_country (e : engine) (c : string) : engine :=
  if opt_eqb (eng_country e) c then e else mk_engine (parquet_path e) (Some c) [].

Definition add_to_path (e : engine) (d : df_row) : engine :=
  mk_engine (parquet_path e) (eng_country e) (selection_path e ++ [d]).

Definition clear_path (e : engine) : engine := mk_engine (parquet_path e) (eng_country e) [].

Definition reset (e : engine) : engine := mk_engine (parquet_path e) None [].

Definition empty_df_row : df_row := mk_df "" None None None None.

(** SQL [LIKE] without an [ESCAPE] clause: [%] matches any run of
    characters, [_] any one character, every other character itself. *)
Fixpoint like (pattern s : string) {struct pattern} : bool :=
  match pattern with
  | EmptyString => String.eqb s ""
  | String c p' =>
      if Ascii.eqb c "%"%char then
        (fix any (s : string) : bool :=
           like p' s || match s with EmptyString => false | String _ s' => any s' end) s
      else
        match s with
        | EmptyString => false
        | String d s' => (Ascii.eqb c "_"%char || Ascii.eqb c d) && like p' s'
        end
  end.

Section Search.

(** DuckDB's [LOWER]. *)
Variable lower : string -> string.

(** [search_boundaries]: [country = ?], [class = 'land'],
    [LOWER(names.primary) LIKE LOWER(?)] with the parameter
    [f"%{search_term}%"] ([NULL] names never match), [ORDER BY name],
    [LIMIT 100]. *)
Definition search_boundaries (e : engine) (fs : files) (c search_term : string)
    : outcome (list df_row) :=
  let search_pattern := String.concat "" ["%"; search_term; "%"] in
  match fs (parquet_path e) with
  | Readable rows =>
      (firstn 100 (order_by_name (map to_df
         (filter (fun r => opt_eqb (country r) c && is_land r
                           && match names_primary r with
                              | Some n => like (lower search_pattern) (lower n)
                              | None => false
                              end) rows))), [])
  | Unreadable msg => ([], [String.concat "" ["Error searching boundaries: "; msg]])
  end.

End Search.

(** [@st.cache_data(ttl=3600)], on every query method above.  Streamlit
    keeps one table per decorated function, global to the process and
    shared by every engine and session.  Its key is the value of the
    arguments, without [_self]: a parameter whose name starts with an
    underscore is not hashed, so neither [parquet_path] nor the selection
    state is part of the key.  An entry holds the outcome of the call (a
    value returned after a caught error included) and the time it was
    stored, and is served for [ttl] seconds. *)
Definition ttl : Z := 3600.

Definition cache (K A : Type) : Type := list (K * (Z * outcome A)).

(** The outcome stored for [k] less than [ttl] seconds before [now], the
    newest first. *)
Definition cache_lookup {K A} (eqk : K -> K -> bool) (now : Z) (k : K) (t : cache K A)
    : option (outcome A) :=
  option_map (fun en => snd (snd en))
    (find (fun en => eqk (fst en) k && (now - fst (snd en) <? ttl)) t).

(** The tables of the seven decorated methods. *)
Record caches : Type := mk_caches {
  c_countries : cache unit (list string);
  c_subtypes : cache string (list string);
  c_top_level : cache string (list df_row);
  c_child : cache string (list df_row);
  c_by_filters : cache (string * list string) (list df_row);
  c_geometry : cache string (option (string * option string));
  c_search : cache (string * string) (list df_row)
}.

Definition no_caches : caches := mk_caches [] [] [] [] [] [] [].

Definition set_c_countries (cs : caches) (t : cache unit (list string)) : caches :=
  mk_caches t (c_subtypes cs) (c_top_level cs) (c_child cs) (c_by_filters cs)
    (c_geometry cs) (c_search cs).
Definition set_c_subtypes (cs : caches) (t : cache string (list string)) : caches :=
  mk_caches (c_countries cs) t (c_top_level cs) (c_child cs) (c_by_filters cs)
    (c_geometry cs) (c_search cs).
Definition set_c_top_level (cs : caches) (t : cache string (list df_row)) : caches :=
  mk_caches (c_countries cs) (c_subtypes cs) t (c_child cs) (c_by_filters cs)
    (c_geometry cs) (c_search cs).
Definition set_c_child (cs : caches) (t : cache string (list df_row)) : caches :=
  mk_caches (c_countries cs) (c_subtypes cs) (c_top_level cs) t (c_by_filters cs)
    (c_geometry cs) (c_search cs).
Definition set_c_by_filters (cs : caches) (t : cache (string * list string) (list df_row))
    : caches :=
  mk_caches (c_countries cs) (c_subtypes cs) (c_top_level cs) (c_child cs) t
    (c_geometry cs) (c_search cs).
Definition set_c_geometry (cs : caches) (t : cache string (option (string * option string)))
    : caches :=
  mk_caches (c_countries cs) (c_subtypes cs) (c_top_level cs) (c_child cs) (c_by_filters cs)
    t (c_search cs).
Definition set_c_search (cs : caches) (t : cache (string * string) (list df_row)) : caches :=
  mk_caches (c_countries cs) (c_subtypes cs) (c_top_level cs) (c_child cs) (c_by_filters cs)
    (c_geometry cs) t.

(** Equality of the keys. *)
Definition unit_eqb (a b : unit) : bool := true.

Fixpoint strings_eqb (a b : list string) : bool :=
  match a, b with
  | [], [] => true
  | x :: a', y :: b' => String.eqb x y && strings_eqb a' b'
  | _, _ => false
  end.

Definition pair_eqb (a b : string * string) : bool :=
  String.eqb (fst a) (fst b) && String.eqb (snd a) (snd b).

Definition filters_eqb (a b : string * list string) : bool :=
  String.eqb (fst a) (fst b) && strings_eqb (snd a) (snd b).

Section Cached.

(** What a cache hit shows of the [st.error] messages of the stored
    call: Streamlit replays the elements a cached function drew, in the
    versions that do so; the requirements pin no version, so it is a
    parameter. *)
Variable replayed : list string -> list string.

(** A call of a decorated method at time [now]: on a hit the stored value
    is returned and the body does not run; on a miss the body runs
    (possibly calling other decorated methods) and its outcome is stored
    under the key. *)
Definition cache_data {K A} (eqk : K -> K -> bool) (now : Z) (k : K)
    (tbl : caches -> cache K A) (upd : caches -> cache K A -> caches)
    (body : caches -> outcome A * caches) (cs : caches) : outcome A * caches :=
  match cache_lookup eqk now k (tbl cs) with
  | Some (v, msgs) => ((v, replayed msgs), cs)
  | None =>
      let (o, cs') := body cs in
      (o, upd cs' ((k, (now, o)) :: tbl cs'))
  end.

(** The decorated methods, as [self.get_countries()] etc. call them. *)
Definition st_get_countries (e : engine) (fs : files) (now : Z) (cs : caches)
    : outcome (list string) * caches :=
  cache_data unit_eqb now tt c_countries set_c_countries
    (fun cs => (get_countries e fs, cs)) cs.

Definition st_get_subtypes (e : engine) (fs : files) (now : Z) (c : string) (cs : caches)
    : outcome (list string) * caches :=
  cache_data String.eqb now c c_subtypes set_c_subtypes
    (fun cs => (get_subtypes e fs c, cs)) cs.

Definition st_get_top_level_divisions (e : engine) (fs : files) (now : Z) (c : string)
    (cs : caches) : outcome (list df_row) * caches :=
  cache_data String.eqb now c c_top_level set_c_top_level
    (fun cs => (get_top_level_divisions e fs c, cs)) cs.

Definition st_get_child_divisions (e : engine) (fs : files) (now : Z) (parent : string)
    (cs : caches) : outcome (list df_row) * caches :=
  cache_data String.eqb now parent c_child set_c_child
    (fun cs => (get_child_divisions e fs parent, cs)) cs.

(** [get_all_divisions_by_filters]: for an empty path it returns
    [_self.get_top_level_divisions(country)], a call of the decorated
    method; otherwise the children of the last id of the path, without
    [LIMIT]. *)
Definition get_all_divisions_by_filters (e : engine) (fs : files) (now : Z) (c : string)
    (division_ids : list string) (cs : caches) : outcome (list df_row) * caches :=
  match division_ids with
  | [] => st_get_top_level_divisions e fs now c cs
  | _ :: _ =>
      let last_division_id := last division_ids "" in
      (run_query e fs "divisions" []
         (fun rows => order_by_name (map to_df
            (filter (fun r => opt_eqb (parent_division_id r) last_division_id && is_land r)
               rows))), cs)
  end.

Definition st_get_all_divisions_by_filters (e : engine) (fs : files) (now : Z) (c : string)
    (division_ids : list string) (cs : caches) : outcome (list df_row) * caches :=
  cache_data filters_eqb now (c, division_ids) c_by_filters set_c_by_filters
    (get_all_divisions_by_filters e fs now c division_ids) cs.

Definition st_get_geometry (e : engine) (fs : files) (now : Z) (gers_id : string)
    (cs : caches) : outcome (option (string * option string)) * caches :=
  cache_data String.eqb now gers_id c_geometry set_c_geometry
    (fun cs => (get_geometry e fs gers_id, cs)) cs.

Definition st_search_boundaries (lower : string -> string) (e : engine) (fs : files)
    (now : Z) (c search_term : string) (cs : caches) : outcome (list df_row) * caches :=
  cache_data pair_eqb now (c, search_term) c_search set_c_search
    (fun cs => (search_boundaries lower e fs c search_term, cs)) cs.

(** [query_at_current_level]: reads the selection state, takes no
    argument, and is not itself cached; it calls the decorated
    [get_top_level_divisions] and [get_child_divisions]. *)
Definition query_at_current_level (e : engine) (fs : files) (now : Z) (cs : caches)
    : outcome (list df_row) * caches :=
  match eng_country e with
  | None => (([], []), cs)
  | Some c =>
      match selection_path e with
      | [] => st_get_top_level_divisions e fs now c cs
      | _ :: _ =>
          st_get_child_divisions e fs now
            (division_id (last (selection_path e) empty_df_row)) cs
      end
  end.

End Cached.

End QueryEngine.

(* ------------------------------------------------------------------ *)
(** ** Auxiliary definitions and concrete stores used by the properties *)

Definition store_us : store :=
  mk_store [mk_division 1 "US" "United States" "country" "US" "null"] [] [] [] [] [].

(** The invariant [create_list] and [update_list] keep on the [lists]
    table: ids are distinct and positive (rowids), hashes are distinct, and
    each row's hash is [_compute_hash] of its own name and type. *)
Definition lists_ok (md5 : string -> string) (ls : list list_row) : Prop :=
  NoDup (map l_id ls) /\ NoDup (map l_hash ls) /\
  Forall (fun r => 0 < l_id r /\ l_hash r = _compute_hash md5 (l_name r) (l_type r)) ls.

Definition md5_id (x : string) : string := x.


(** The items [executemany_insert_items] writes: those before the first
    one that breaks its foreign key. *)
Fixpoint ok_prefix {A} (f : A -> bool) (l : list A) : list A :=
  match l with
  | [] => []
  | x :: t => if f x then x :: ok_prefix f t else []
  end.

(** The store with items appended to the junction table of a list type. *)
Definition add_items (s : store) (list_type : string) (list_id : Z) (l : list item) : store :=
  if String.eqb list_type "division"
  then set_list_divisions s (list_divisions s ++ map (fun i => (list_id, i)) l)
  else set_list_clients s (list_clients s ++ map (fun i => (list_id, i)) l).

(** The junction rows reference existing lists (the foreign keys of
    [list_divisions] and [list_clients] on [lists(id)], kept by the
    cascade of [delete_list]). *)
Definition items_ok (s : store) : Prop :=
  Forall (fun p => In (fst p) (map l_id (lists s))) (list_divisions s) /\
  Forall (fun p => In (fst p) (map l_id (lists s))) (list_clients s).

Definition store_west : store :=
  mk_store [] [mk_list 1 "West Coast" "division" "" (_compute_hash md5_id "West Coast" "division")]
    [(1, IInt 2); (1, IInt 3)] [] [] [].

(** What reading a list back resolves its items to: the cached division
    rows whose id is the item, for a division list; the item itself, for a
    client list. *)
Definition resolve_items (s : store) (list_type : string) (ids : list item) : list pyobj :=
  if String.eqb list_type "division" then
    flat_map (fun i => map PyDivision (filter (fun d => item_eqb i (IInt (d_id d))) (divisions s))) ids
  else map PyItem ids.

Definition div_row (i : Z) (n : string) : division_row :=
  mk_division i n n "region" "US" "null".

Definition mapped (x : string) (d : Z) : mapping_row :=
  mk_mapping d x d x None None None None None.

(** Divisions d1..d4 and CRM accounts c1..c4 mapped to them; list 1 is a
    division list of [d1, d2, d3], list 2 a client list of [c1, c2, c3]. *)
Definition store_lists : store :=
  mk_store [div_row 1 "d1"; div_row 2 "d2"; div_row 3 "d3"; div_row 4 "d4"]
    [mk_list 1 "West" "division" "" "h1"; mk_list 2 "Accounts" "client" "" "h2"]
    [(1, IInt 1); (1, IInt 2); (1, IInt 3)]
    [(2, IStr "c1"); (2, IStr "c2"); (2, IStr "c3")]
    [mapped "c1" 1; mapped "c2" 2; mapped "c3" 3; mapped "c4" 4] [].

Definition is_record (o : pyobj) : bool :=
  match o with PyDivision _ => true | PyItem _ => false end.

Definition store_mapped : store :=
  mk_store [div_row 1 "A"; div_row 2 "B"] [] [] []
    [mk_mapping 1 "X" 1 "Acme" None None None None None] [].

(** [walk rels t k x y]: a path of [k] edges of type [t] from [x] to [y]. *)
Fixpoint walk (rels : list relationship_row) (t : string) (k : nat) (x y : Z) : Prop :=
  match k with
  | O => x = y
  | S k' => exists z, In z (children_of rels t x) /\ walk rels t k' z y
  end.

(** The rows [k] levels below [level]. *)
Fixpoint iter_children (rels : list relationship_row) (t : string) (k : nat)
    (level : list Z) : list Z :=
  match k with
  | O => level
  | S k' => iter_children rels t k' (flat_map (children_of rels t) level)
  end.

(** Two division lists, "West" (id 1) and "East" (id 2), hashed with
    [md5_id]. *)
Definition store_two : store :=
  mk_store [div_row 1 "d1"; div_row 2 "d2"; div_row 5 "d5"]
    [mk_list 1 "West" "division" "" (_compute_hash md5_id "West" "division");
     mk_list 2 "East" "division" "" (_compute_hash md5_id "East" "division")]
    [(1, IInt 1); (2, IInt 2)] [] [] [].

Definition rel (p c : Z) : relationship_row := mk_relationship 0 p c "reports_to".

(** Divisions 1 -> 2 -> 3 along [reports_to]. *)
Definition store_chain : store :=
  mk_store [] [] [] [] [] [mk_relationship 1 1 2 "reports_to"; mk_relationship 2 2 3 "reports_to"].

Definition ov_record (i : string) (n : string) (st : string) (p : option string)
    : QueryEngine.division_record :=
  QueryEngine.mk_record i (Some n) (Some st) (Some "US") p (Some "land") None.

(** [US] (country), [US-CA] (region, parent [US]), [US-CA-LA] (county,
    parent [US-CA]). *)
Definition us_rows : list QueryEngine.division_record :=
  [ov_record "US" "United States" "country" None;
   ov_record "US-CA" "California" "region" (Some "US");
   ov_record "US-CA-LA" "Los Angeles" "county" (Some "US-CA")].

Definition us_files : QueryEngine.files := fun _ => QueryEngine.Readable us_rows.

Definition us_engine : QueryEngine.engine := QueryEngine.mk_engine "divisions.parquet" None [].



(* ================================================================== *)
(** * Properties *)

Example save_division_twice :
  let '(r1, s1) := save_division "US" "United States" "country" "US" None empty_store in
  let '(r2, s2) := save_division "US" "USA" "country" "US" None s1 in
  r1 = Ok 1 /\ r2 = Ok 1 /\ List.length (divisions s2) = 1%nat.
Proof. vm_compute. auto. Qed.


(** ** The division cache *)

Lemma find_none_filter {A} (f : A -> bool) (l : list A) :
  find f l = None -> filter f l = [].
Proof.
  induction l as [|a l IH]; simpl; [reflexivity|].
  destruct (f a); [discriminate | exact IH].
Qed.

Lemma find_some_filter_length {A} (f : A -> bool) (l : list A) (a : A) :
  find f l = Some a -> (1 <= List.length (filter f l))%nat.
Proof.
  induction l as [|b l IH]; simpl; [discriminate|].
  destruct (f b); simpl; [lia | exact IH].
Qed.

Lemma find_app_none {A} (f : A -> bool) (l1 l2 : list A) :
  find f l1 = None -> find f (l1 ++ l2) = find f l2.
Proof.
  induction l1 as [|a l1 IH]; simpl; [reflexivity|].
  destruct (f a); [discriminate | exact IH].
Qed.

Lemma save_division_cached (x name subtype country : string) (geometry : option string)
    (s : store) (d : division_row) :
  find (fun d => String.eqb (d_system_id d) x) (divisions s) = Some d ->
  save_division x name subtype country geometry s = (Ok (d_id d), s).
Proof.
  intros Hf. cbv beta iota delta [save_division bind get_division_by_system_id get ret].
  rewrite Hf. reflexivity.
Qed.

Lemma save_division_fresh (x name subtype country : string) (geometry : option string)
    (s : store) :
  find (fun d => String.eqb (d_system_id d) x) (divisions s) = None ->
  save_division x name subtype country geometry s =
    (Ok (next_rowid (map d_id (divisions s))),
     set_divisions s (divisions s ++
       [mk_division (next_rowid (map d_id (divisions s))) x name subtype country
          (json_dumps geometry)])).
Proof.
  intros Hf. cbv beta iota delta [save_division bind get_division_by_system_id get ret put].
  rewrite Hf. reflexivity.
Qed.

(** C6: two [save_division] calls with the same [system_id] return the
    same id, and afterwards exactly one division row carries that
    [system_id] (the store holds at most one such row before the calls,
    which every [save_division] preserves: see
    [save_division_keeps_unique]). *)
Theorem save_division_idempotent (x : string)
    (name1 subtype1 country1 : string) (geometry1 : option string)
    (name2 subtype2 country2 : string) (geometry2 : option string) (s : store)
    (Huniq : (count_system_id x (divisions s) <= 1)%nat) :
  let '(r1, s1) := save_division x name1 subtype1 country1 geometry1 s in
  let '(r2, s2) := save_division x name2 subtype2 country2 geometry2 s1 in
  exists i, r1 = Ok i /\ r2 = Ok i /\ count_system_id x (divisions s2) = 1%nat.
Proof.
  destruct (find (fun d => String.eqb (d_system_id d) x) (divisions s)) as [d|] eqn:Hf.
  - rewrite (save_division_cached _ _ _ _ _ _ _ Hf).
    rewrite (save_division_cached _ _ _ _ _ _ _ Hf).
    exists (d_id d); split; [reflexivity | split; [reflexivity|]].
    pose proof (find_some_filter_length _ _ _ Hf). unfold count_system_id in *. lia.
  - rewrite (save_division_fresh _ _ _ _ _ _ Hf).
    set (nid := next_rowid (map d_id (divisions s))).
    set (row := mk_division nid x name1 subtype1 country1 (json_dumps geometry1)).
    assert (Hf' : find (fun d => String.eqb (d_system_id d) x)
                    (divisions (set_divisions s (divisions s ++ [row]))) = Some row).
    { simpl. rewrite (find_app_none _ _ _ Hf). simpl. rewrite String.eqb_refl. reflexivity. }
    rewrite (save_division_cached _ _ _ _ _ _ _ Hf').
    exists nid; split; [reflexivity | split; [reflexivity|]].
    unfold count_system_id. simpl. rewrite filter_app, (find_none_filter _ _ Hf).
    simpl. rewrite String.eqb_refl. reflexivity.
Qed.

Lemma save_division_idempotent_witness :
  (count_system_id "US" (divisions empty_store) <= 1)%nat /\
  (let '(r1, s1) := save_division "US" "United States" "country" "US" None empty_store in
   let '(r2, s2) := save_division "US" "USA" "country" "US" None s1 in
   exists i, r1 = Ok i /\ r2 = Ok i /\ count_system_id "US" (divisions s2) = 1%nat).
Proof.
  split; [vm_compute; lia|].
  apply (save_division_idempotent "US" "United States" "country" "US" None
           "USA" "country" "US" None empty_store).
  vm_compute; lia.
Defined.

(** [save_division] never creates a second row for a [system_id]. *)
Lemma save_division_keeps_unique (x y name subtype country : string)
    (geometry : option string) (s : store) :
  (count_system_id y (divisions s) <= 1)%nat ->
  (count_system_id y (divisions (snd (save_division x name subtype country geometry s))) <= 1)%nat.
Proof.
  intros H.
  destruct (find (fun d => String.eqb (d_system_id d) x) (divisions s)) as [d|] eqn:Hf.
  - rewrite (save_division_cached _ _ _ _ _ _ _ Hf). exact H.
  - rewrite (save_division_fresh _ _ _ _ _ _ Hf). simpl.
    unfold count_system_id in *. rewrite filter_app, length_app. simpl.
    destruct (String.eqb x y) eqn:Exy; simpl; [|lia].
    apply String.eqb_eq in Exy; subst y.
    rewrite (find_none_filter _ _ Hf). simpl. lia.
Qed.

(** C10: a [save_division] for an already cached [system_id] writes
    nothing (the store, hence every field of the cached row, is unchanged,
    whatever name, subtype, country or geometry is passed) and returns the
    id of the cached row. *)
Theorem save_division_no_refresh (x name subtype country : string)
    (geometry : option string) (s : store) (d : division_row)
    (Hin : In d (divisions s)) (Hx : d_system_id d = x) :
  exists d0, find (fun d => String.eqb (d_system_id d) x) (divisions s) = Some d0 /\
             save_division x name subtype country geometry s = (Ok (d_id d0), s).
Proof.
  destruct (find (fun d => String.eqb (d_system_id d) x) (divisions s)) as [d0|] eqn:Hf.
  - exists d0. split; [reflexivity|]. apply save_division_cached; exact Hf.
  - exfalso. pose proof (find_none_filter _ _ Hf) as E.
    assert (In d (filter (fun d => String.eqb (d_system_id d) x) (divisions s))).
    { apply filter_In. split; [exact Hin|]. subst x. apply String.eqb_refl. }
    rewrite E in H. contradiction.
Qed.

Lemma save_division_no_refresh_witness :
  In (mk_division 1 "US" "United States" "country" "US" "null") (divisions store_us) /\
  exists d0, find (fun d => String.eqb (d_system_id d) "US") (divisions store_us) = Some d0 /\
             save_division "US" "USA" "region" "CA" (Some "{}") store_us = (Ok (d_id d0), store_us).
Proof.
  split; [simpl; left; reflexivity|].
  apply (save_division_no_refresh "US" "USA" "region" "CA" (Some "{}") store_us
           (mk_division 1 "US" "United States" "country" "US" "null")).
  - simpl; left; reflexivity.
  - reflexivity.
Defined.

(** ** Relationships *)

(** C7: [add_relationship a a t] raises and leaves the store (in
    particular the relationships table) as it was. *)
Theorem add_relationship_self_rejected (a : Z) (t : string) (s : store) :
  add_relationship a a t s =
    (Err (ValueError "Parent and child division cannot be the same"), s).
Proof. unfold add_relationship, raise. rewrite Z.eqb_refl. reflexivity. Qed.

(** ** Lists *)

Lemma find_unique_key {A} (k : A -> string) (ls : list A) (r : A) :
  NoDup (map k ls) -> In r ls -> find (fun x => String.eqb (k x) (k r)) ls = Some r.
Proof.
  induction ls as [|a t IH]; simpl; intros Hnd Hin; [contradiction|].
  inversion Hnd as [|? ? Hnot Hnd']; subst.
  destruct Hin as [<-|Hin]; [rewrite String.eqb_refl; reflexivity|].
  destruct (String.eqb (k a) (k r)) eqn:E.
  - apply String.eqb_eq in E. exfalso. apply Hnot. rewrite E. apply in_map. exact Hin.
  - apply IH; assumption.
Qed.

(** C4: when the store holds a list [r] with name [name] and type
    [list_type], a second [create_list name list_type ...] raises and writes
    nothing; unless it already fails on an empty item list or an invalid
    type, the error is the duplicate-list error naming [r]'s id. *)
Theorem create_list_rejects_duplicate (md5 : string -> string) (s : store)
    (r : list_row) (name list_type : string) (item_ids : list item) (notes : string)
    (Hok : lists_ok md5 (lists s)) (Hin : In r (lists s))
    (Hname : l_name r = name) (Htype : l_type r = list_type) :
  let '(res, s') := create_list md5 name list_type item_ids notes s in
  s' = s /\ (exists e, res = Err e) /\
  (item_ids <> [] -> (list_type = "division" \/ list_type = "client") ->
   res = Err (duplicate_list_error name list_type (l_id r))).
Proof.
  destruct Hok as (_ & Hhash & Hrows).
  assert (Hr : 0 < l_id r /\ l_hash r = _compute_hash md5 (l_name r) (l_type r))
    by (rewrite Forall_forall in Hrows; apply Hrows; exact Hin).
  destruct Hr as [Hpos Hh]. rewrite Hname, Htype in Hh.
  destruct item_ids as [|i l].
  - cbn. split; [reflexivity|]. split; [eexists; reflexivity|].
    intros Hne; contradiction Hne; reflexivity.
  - destruct (String.eqb list_type "division" || String.eqb list_type "client") eqn:Hv.
    + cbv beta iota delta [create_list bind get ret raise check_duplicate_list].
      rewrite Hv. cbn [negb].
      rewrite <- Hh. rewrite (find_unique_key l_hash (lists s) r Hhash Hin).
      cbn [option_map truthy_id].
      destruct (l_id r =? 0) eqn:E0; [apply Z.eqb_eq in E0; lia|].
      split; [reflexivity|]. split; [eexists; reflexivity|]. reflexivity.
    + cbv beta iota delta [create_list bind get ret raise check_duplicate_list].
      rewrite Hv. cbn [negb].
      split; [reflexivity|]. split; [eexists; reflexivity|].
      intros _ [->| ->]; discriminate.
Qed.

Lemma create_list_rejects_duplicate_witness :
  lists_ok md5_id (lists store_west) /\
  (let '(res, s') := create_list md5_id "West Coast" "division" [IInt 4] "" store_west in
   s' = store_west /\ (exists e, res = Err e) /\
   ([IInt 4] <> [] -> ("division" = "division" \/ "division" = "client") ->
    res = Err (duplicate_list_error "West Coast" "division" 1))).
Proof.
  assert (Hok : lists_ok md5_id (lists store_west)).
  { split; [repeat constructor; simpl; tauto|]. split; [repeat constructor; simpl; tauto|].
    repeat constructor. }
  split; [exact Hok|].
  exact (create_list_rejects_duplicate md5_id store_west
           (mk_list 1 "West Coast" "division" "" (_compute_hash md5_id "West Coast" "division"))
           "West Coast" "division" [IInt 4] "" Hok (or_introl eq_refl) eq_refl eq_refl).
Defined.

(** ** Foreign keys of the junction tables *)

Lemma add_items_nil (s : store) (list_type : string) (list_id : Z) :
  add_items s list_type list_id [] = s.
Proof.
  unfold add_items. cbn.
  destruct (String.eqb list_type "division"); rewrite app_nil_r; destruct s; reflexivity.
Qed.

Lemma executemany_insert_items_spec (list_type : string) (list_id : Z) (ids : list item)
    (s : store) :
  executemany_insert_items list_type list_id ids s =
  (if forallb (item_ref_ok s list_type) ids then Ok tt else Err fk_error,
   add_items s list_type list_id (ok_prefix (item_ref_ok s list_type) ids)).
Proof.
  revert s. induction ids as [|i t IH]; intros s.
  - rewrite add_items_nil. reflexivity.
  - cbn [executemany_insert_items forallb ok_prefix].
    cbv beta iota delta [bind get put ret raise].
    destruct (item_ref_ok s list_type i) eqn:Ei; cbn [andb];
      [|rewrite add_items_nil; reflexivity].
    destruct (String.eqb list_type "division") eqn:Et; rewrite IH;
      (replace (item_ref_ok _ list_type) with (item_ref_ok s list_type)
         by (unfold item_ref_ok; reflexivity));
      unfold add_items; rewrite Et;
      destruct (forallb (item_ref_ok s list_type) t);
      cbn [list_divisions list_clients set_list_divisions set_list_clients map];
      rewrite <- app_assoc; reflexivity.
Qed.

Lemma ok_prefix_all {A} (f : A -> bool) (l : list A) :
  forallb f l = true -> ok_prefix f l = l.
Proof.
  induction l as [|x t IH]; cbn; [reflexivity|].
  destruct (f x); cbn; [intros H; rewrite IH by exact H; reflexivity|discriminate].
Qed.

Lemma add_items_frame (s : store) (list_type : string) (list_id : Z) (l : list item) :
  divisions (add_items s list_type list_id l) = divisions s /\
  lists (add_items s list_type list_id l) = lists s /\
  crm_mappings (add_items s list_type list_id l) = crm_mappings s /\
  relationships (add_items s list_type list_id l) = relationships s.
Proof. unfold add_items. destruct (String.eqb list_type "division"); repeat split. Qed.

Lemma item_ref_ok_set_lists (s : store) (t : list list_row) :
  item_ref_ok (set_lists s t) = item_ref_ok s.
Proof. reflexivity. Qed.

Lemma next_rowid_fresh (ids : list Z) :
  0 < next_rowid ids /\ Forall (fun x => x < next_rowid ids) ids.
Proof.
  unfold next_rowid. induction ids as [|a t [IH1 IH2]]; simpl; [split; [lia|constructor]|].
  split; [lia|]. constructor; [lia|].
  eapply Forall_impl; [|exact IH2]. intros x Hx. simpl in Hx. lia.
Qed.

Lemma find_none_not_in {A} (k : A -> string) (h : string) (ls : list A) :
  find (fun x => String.eqb (k x) h) ls = None -> ~ In h (map k ls).
Proof.
  induction ls as [|a t IH]; simpl; [tauto|].
  destruct (String.eqb (k a) h) eqn:E; [discriminate|].
  intros Hf [Heq|Hin]; [subst; rewrite String.eqb_refl in E; discriminate|].
  exact (IH Hf Hin).
Qed.

Lemma NoDup_app_single {A} (l : list A) (x : A) :
  NoDup l -> ~ In x l -> NoDup (l ++ [x]).
Proof.
  intros Hnd Hx. apply NoDup_app; [exact Hnd| repeat constructor; simpl; tauto|].
  intros y Hy [<-|[]]. exact (Hx Hy).
Qed.

(** [create_list] keeps [lists_ok]: the hypothesis of
    [create_list_rejects_duplicate] holds on every store built by the
    code's list operations. *)
Lemma create_list_keeps_lists_ok (md5 : string -> string) (s : store)
    (name list_type : string) (item_ids : list item) (notes : string) :
  lists_ok md5 (lists s) ->
  lists_ok md5 (lists (snd (create_list md5 name list_type item_ids notes s))).
Proof.
  intros Hok. destruct item_ids as [|i l]; [exact Hok|].
  cbv beta iota zeta delta [create_list bind get ret raise check_duplicate_list put].
  destruct (negb (String.eqb list_type "division" || String.eqb list_type "client"));
    [exact Hok|].
  destruct Hok as (Hid & Hhash & Hrows).
  destruct (find (fun l0 => String.eqb (l_hash l0) (_compute_hash md5 name list_type))
              (lists s)) as [r|] eqn:Hf.
  - assert (Hr : In r (lists s)) by (apply find_some in Hf; tauto).
    rewrite Forall_forall in Hrows. destruct (Hrows r Hr) as [Hpos _].
    cbn [option_map truthy_id]. destruct (l_id r =? 0) eqn:E0;
      [apply Z.eqb_eq in E0; lia|].
    simpl. split; [exact Hid|]. split; [exact Hhash|]. rewrite Forall_forall; exact Hrows.
  - cbn [option_map truthy_id].
    destruct (next_rowid_fresh (map l_id (lists s))) as [Hpos Hlt].
    rewrite executemany_insert_items_spec.
    match goal with |- context [add_items ?s1 ?t ?i ?l] =>
      assert (Hl : lists (add_items s1 t i l) = lists s1)
        by exact (proj1 (proj2 (add_items_frame s1 t i l))) end.
    match goal with |- context [if ?b then Ok tt else Err fk_error] => destruct b end;
      cbn [snd]; rewrite Hl; cbn [lists set_lists];
      (split; [|split]);
      [ rewrite map_app; apply NoDup_app_single; [exact Hid|];
        intros Hin; rewrite Forall_forall in Hlt; specialize (Hlt _ Hin); simpl in Hlt; lia
      | rewrite map_app; apply NoDup_app_single; [exact Hhash|];
        exact (find_none_not_in l_hash _ _ Hf)
      | apply Forall_app; split; [exact Hrows|]; constructor; [|constructor];
        split; [exact Hpos|reflexivity]
      | rewrite map_app; apply NoDup_app_single; [exact Hid|];
        intros Hin; rewrite Forall_forall in Hlt; specialize (Hlt _ Hin); simpl in Hlt; lia
      | rewrite map_app; apply NoDup_app_single; [exact Hhash|];
        exact (find_none_not_in l_hash _ _ Hf)
      | apply Forall_app; split; [exact Hrows|]; constructor; [|constructor];
        split; [exact Hpos|reflexivity] ].
Qed.

Lemma flat_map_other_lists {B} (f : Z * item -> list B) (list_id : Z) (L : list (Z * item)) :
  (forall p, (fst p =? list_id) = false -> f p = []) ->
  flat_map f (filter (fun p => negb (fst p =? list_id)) L) = [].
Proof.
  intros Hf. induction L as [|p t IH]; simpl; [reflexivity|].
  destruct (fst p =? list_id) eqn:E; simpl; [exact IH|].
  rewrite (Hf p E). exact IH.
Qed.

Lemma flat_map_new_items {B} (f : Z * item -> list B) (list_id : Z) (ids : list item) :
  flat_map f (map (fun i => (list_id, i)) ids) = flat_map (fun i => f (list_id, i)) ids.
Proof. induction ids as [|i t IH]; simpl; [reflexivity|]. rewrite IH. reflexivity. Qed.

(** Reading a list back after its junction rows were replaced by [P]: the
    store [update_list_items] writes, whatever prefix of the new items
    got in. *)
Lemma replace_then_get_list_items (scan : forall A : Type, list A -> list A)
    (Hscan : forall A (l : list A), Permutation (scan A l) l)
    (s : store) (list_id : Z) (l : list_row) (P : list item)
    (Hfind : find (fun r => l_id r =? list_id) (lists s) = Some l) :
  let s1 := if String.eqb (l_type l) "division"
            then set_list_divisions s (filter (fun p => negb (fst p =? list_id)) (list_divisions s))
            else set_list_clients s (filter (fun p => negb (fst p =? list_id)) (list_clients s)) in
  exists res, fst (get_list_items scan list_id (add_items s1 (l_type l) list_id P)) = Ok res /\
              Permutation res (resolve_items s (l_type l) P).
Proof.
  cbv zeta. unfold add_items.
  destruct (String.eqb (l_type l) "division") eqn:Ht.
  - eexists; split.
    + cbv beta iota zeta delta [get_list_items bind get ret get_list].
      cbn [lists set_list_divisions set_list_clients fst].
      rewrite Hfind, Ht. reflexivity.
    + rewrite Hscan. unfold join_list_divisions, resolve_items. rewrite Ht.
      cbn [list_divisions set_list_divisions divisions].
      rewrite flat_map_app, flat_map_other_lists
        by (intros p E; rewrite E; reflexivity).
      rewrite flat_map_new_items. cbn [fst]. rewrite Z.eqb_refl. reflexivity.
  - eexists; split.
    + cbv beta iota zeta delta [get_list_items bind get ret get_list].
      cbn [lists set_list_divisions set_list_clients fst].
      rewrite Hfind, Ht. reflexivity.
    + rewrite Hscan. unfold select_list_clients, resolve_items. rewrite Ht.
      cbn [list_clients set_list_clients].
      rewrite flat_map_app, flat_map_other_lists
        by (intros p E; rewrite E; reflexivity).
      rewrite flat_map_new_items. cbn [fst]. rewrite Z.eqb_refl.
      clear. induction P as [|i t IH]; simpl; [reflexivity|]. rewrite IH. reflexivity.
Qed.

(** C3 (as the code does it): [update_list_items list_id ids] on an
    existing list with a non-empty [ids].  When every new item names an
    existing row (a cached division for a division list, a CRM mapping for
    a client list), it succeeds, and [get_list_items] returns the new
    items and nothing else, as a permutation of [ids] in the order the
    engine scans them (the query has no [ORDER BY]): the cached division
    rows of the ids for a division list, the raw [system_id]s for a client
    list.  Otherwise the first item that names no row raises the
    foreign-key [IntegrityError] after the old items were deleted: on the
    same connection the list then reads back as the new items before that
    one only, until the [with DatabaseStorage()] block rolls the whole call
    back. *)
Theorem update_then_get_list_items (scan : forall A : Type, list A -> list A)
    (Hscan : forall A (l : list A), Permutation (scan A l) l)
    (s : store) (list_id : Z) (l : list_row) (ids : list item)
    (Hfind : find (fun r => l_id r =? list_id) (lists s) = Some l)
    (Hne : ids <> []) :
  let ok := item_ref_ok s (l_type l) in
  let '(r, s') := update_list_items list_id ids s in
  (Forall (fun i => ok i = true) ids ->
   r = Ok tt /\
   exists res, fst (get_list_items scan list_id s') = Ok res /\
               Permutation res (resolve_items s (l_type l) ids)) /\
  (forallb ok ids = false ->
   r = Err fk_error /\
   (exists res, fst (get_list_items scan list_id s') = Ok res /\
                Permutation res (resolve_items s (l_type l) (ok_prefix ok ids))) /\
   with_db (update_list_items list_id ids) s = (Err fk_error, s)).
Proof.
  pose proof (replace_then_get_list_items scan Hscan s list_id l
                (ok_prefix (item_ref_ok s (l_type l)) ids) Hfind) as HG.
  cbv zeta in *.
  destruct ids as [|i0 ids']; [contradiction Hne; reflexivity|].
  unfold with_db.
  cbv beta iota zeta delta [update_list_items bind get ret raise put get_list].
  rewrite Hfind. rewrite executemany_insert_items_spec.
  replace (item_ref_ok (if String.eqb (l_type l) "division" then _ else _) (l_type l))
    with (item_ref_ok s (l_type l))
    by (destruct (String.eqb (l_type l) "division"); reflexivity).
  destruct (forallb (item_ref_ok s (l_type l)) (i0 :: ids')) eqn:Hall; split.
  - intros _. split; [reflexivity|]. rewrite ok_prefix_all in HG |- * by exact Hall.
    exact HG.
  - intros H; discriminate H.
  - intros Hf. rewrite Forall_forall, <- forallb_forall in Hf. congruence.
  - intros _. split; [reflexivity|]. split; [exact HG|reflexivity].
Qed.

Lemma update_then_get_list_items_witness :
  (forall A (l : list A), Permutation ((fun A (l : list A) => l) A l) l) /\
  find (fun r => l_id r =? 1) (lists store_lists) = Some (mk_list 1 "West" "division" "" "h1") /\
  [IInt 1; IInt 4] <> [] /\
  Forall (fun i => item_ref_ok store_lists "division" i = true) [IInt 1; IInt 4] /\
  (let ok := item_ref_ok store_lists "division" in
   let '(r, s') := update_list_items 1 [IInt 1; IInt 4] store_lists in
   (Forall (fun i => ok i = true) [IInt 1; IInt 4] ->
    r = Ok tt /\
    exists res, fst (get_list_items (fun A (l : list A) => l) 1 s') = Ok res /\
                Permutation res (resolve_items store_lists "division" [IInt 1; IInt 4])) /\
   (forallb ok [IInt 1; IInt 4] = false ->
    r = Err fk_error /\
    (exists res, fst (get_list_items (fun A (l : list A) => l) 1 s') = Ok res /\
                 Permutation res (resolve_items store_lists "division"
                                    (ok_prefix ok [IInt 1; IInt 4]))) /\
    with_db (update_list_items 1 [IInt 1; IInt 4]) store_lists = (Err fk_error, store_lists))).
Proof.
  split; [intros A l; apply Permutation_refl|].
  split; [reflexivity|]. split; [discriminate|].
  split; [repeat constructor|].
  exact (update_then_get_list_items (fun A (l : list A) => l)
           (fun A l => Permutation_refl l) store_lists 1
           (mk_list 1 "West" "division" "" "h1") [IInt 1; IInt 4] eq_refl
           ltac:(discriminate)).
Defined.

(** C3 as stated fails.  [rev] is an order SQL allows for the unordered
    query, and with it the division list updated to [d1, d4] reads back as
    [d4, d1]; the client list updated to [c1, c4] (both mapped) reads back
    as the two bare [system_id] strings, not as resolved records. *)
Lemma update_then_get_list_items_counterexample :
  (forall A (l : list A), Permutation (@rev A l) l) /\
  fst (update_list_items 1 [IInt 1; IInt 4] store_lists) = Ok tt /\
  fst (get_list_items (@rev) 1 (snd (update_list_items 1 [IInt 1; IInt 4] store_lists)))
    = Ok [PyDivision (div_row 4 "d4"); PyDivision (div_row 1 "d1")] /\
  fst (get_list_items (@rev) 1 (snd (update_list_items 1 [IInt 1; IInt 4] store_lists)))
    <> Ok [PyDivision (div_row 1 "d1"); PyDivision (div_row 4 "d4")] /\
  fst (update_list_items 2 [IStr "c1"; IStr "c4"] store_lists) = Ok tt /\
  fst (get_list_items (fun A (l : list A) => l) 2
         (snd (update_list_items 2 [IStr "c1"; IStr "c4"] store_lists)))
    = Ok [PyItem (IStr "c1"); PyItem (IStr "c4")] /\
  existsb is_record [PyItem (IStr "c1"); PyItem (IStr "c4")] = false.
Proof.
  split; [intros A l; apply Permutation_sym, Permutation_rev|].
  split; [vm_compute; reflexivity|].
  split; [vm_compute; reflexivity|].
  split; [vm_compute; discriminate|].
  split; [vm_compute; reflexivity|].
  split; vm_compute; reflexivity.
Qed.

(** ** CRM mappings *)

Lemma division_taken_by_other_in (y x : string) (a : Z) (m : mapping_row) (ms : list mapping_row) :
  In m ms -> m_system_id m = x -> m_division_id m = a -> y <> x ->
  division_taken_by_other y a ms = true.
Proof.
  intros Hin Hx Ha Hyx. unfold division_taken_by_other. apply existsb_exists.
  exists m. split; [exact Hin|]. rewrite Ha, Z.eqb_refl. simpl.
  destruct (String.eqb (m_system_id m) y) eqn:E; [|reflexivity].
  apply String.eqb_eq in E. congruence.
Qed.

(** C1 (a bug of the code).  Let the store hold a mapping [m] of
    [system_id] [x] to division [a].  Saving a mapping of another
    [system_id] [y] to [a] raises a uniqueness [IntegrityError] and writes
    nothing, as the claim requires.  But saving [x] again with another
    division [b] does not fail: [save_mapping] is an upsert on [system_id],
    so when [b] is a cached division that no other mapping uses it succeeds
    and rewrites [x]'s row to point at [b] (the number of mapping rows is
    unchanged; when it raises it writes nothing).  The claim, the test
    [test_system_id_uniqueness] (which expects this call to raise) and
    [CRMMappingStorage.add_mapping] (which raises on a reused [system_id])
    all require a failure here. *)
Theorem save_mapping_one_to_one (s : store) (m : mapping_row) (x : string) (a : Z)
    (Hin : In m (crm_mappings s)) (Hx : m_system_id m = x) (Ha : m_division_id m = a) :
  (forall y acc lvl dn st c g, y <> x ->
     exists msg, save_mapping y a acc lvl dn st c g s = (Err (IntegrityError msg), s)) /\
  (forall b acc lvl dn st c g,
     let '(r, s') := save_mapping x b acc lvl dn st c g s in
     List.length (crm_mappings s') = List.length (crm_mappings s) /\
     (r <> Ok tt -> s' = s) /\
     (division_exists b s = true -> division_taken_by_other x b (crm_mappings s) = false ->
      r = Ok tt /\
      exists m', In m' (crm_mappings s') /\ m_system_id m' = x /\ m_division_id m' = b /\
                 m_account_name m' = acc)).
Proof.
  split.
  - intros y acc lvl dn st c g Hyx.
    cbv beta iota zeta delta [save_mapping bind get ret raise put].
    destruct (negb (division_exists a s)); [eexists; reflexivity|].
    rewrite (division_taken_by_other_in y x a m _ Hin Hx Ha Hyx).
    eexists; reflexivity.
  - intros b acc lvl dn st c g.
    cbv beta iota zeta delta [save_mapping bind get ret raise put].
    destruct (division_exists b s) eqn:Hb; cbn [negb].
    + destruct (division_taken_by_other x b (crm_mappings s)) eqn:Ht.
      * split; [reflexivity|]. split; [reflexivity|]. intros _ H; discriminate.
      * assert (Hf : exists m0, find (fun m => String.eqb (m_system_id m) x) (crm_mappings s)
                                = Some m0).
        { destruct (find (fun m => String.eqb (m_system_id m) x) (crm_mappings s)) eqn:Ef;
            [eexists; reflexivity|].
          exfalso. apply (find_none_not_in m_system_id x _ Ef). rewrite <- Hx.
          apply in_map; exact Hin. }
        destruct Hf as [m0 Hf]. rewrite Hf. cbn [set_crm_mappings crm_mappings].
        split; [apply length_map|]. split; [intros H; contradiction H; reflexivity|].
        intros _ _. split; [reflexivity|].
        exists (mk_mapping (m_id m) x b acc lvl dn st c (dumps_if_truthy g)).
        split; [|repeat split].
        apply in_map_iff. exists m. split; [|exact Hin].
        rewrite Hx, String.eqb_refl. reflexivity.
    + split; [reflexivity|]. split; [reflexivity|]. intros H; discriminate.
Qed.

Lemma save_mapping_one_to_one_witness :
  In (mk_mapping 1 "X" 1 "Acme" None None None None None) (crm_mappings store_mapped) /\
  (let '(r, s') := save_mapping "X" 2 "Acme" None None None None None store_mapped in
   List.length (crm_mappings s') = List.length (crm_mappings store_mapped) /\
   (r <> Ok tt -> s' = store_mapped) /\
   (division_exists 2 store_mapped = true ->
    division_taken_by_other "X" 2 (crm_mappings store_mapped) = false ->
    r = Ok tt /\
    exists m', In m' (crm_mappings s') /\ m_system_id m' = "X" /\ m_division_id m' = 2 /\
               m_account_name m' = "Acme")).
Proof.
  split; [simpl; left; reflexivity|].
  exact (proj2 (save_mapping_one_to_one store_mapped
                  (mk_mapping 1 "X" 1 "Acme" None None None None None) "X" 1
                  (or_introl eq_refl) eq_refl eq_refl)
           2 "Acme" None None None None None).
Defined.

(** The failing input of C1: with divisions A (id 1) and B (id 2) and the
    mapping X -> A, saving X -> B succeeds and rewrites the one row to
    X -> B instead of raising. *)
Lemma save_mapping_upsert_example :
  save_mapping "X" 2 "Acme" None None None None None store_mapped =
    (Ok tt, set_crm_mappings store_mapped [mk_mapping 1 "X" 2 "Acme" None None None None None]).
Proof. vm_compute. reflexivity. Qed.

(** The older [CRMMappingStorage.add_mapping] rejects both reuses: a
    second mapping with the same [system_id] or the same [division_id]
    raises and leaves the table as it was. *)
Lemma crm_mapping_storage_one_to_one (seq : Z) (table : list CRMMappingStorage.mapping)
    (m : CRMMappingStorage.mapping) (sid acc lvl did dn st c : string) (g : option string) :
  In m table ->
  (CRMMappingStorage.mp_system_id m = sid \/ CRMMappingStorage.mp_division_id m = did) ->
  exists msg, CRMMappingStorage.add_mapping sid acc lvl did dn st c g seq table
              = (Err (IntegrityError msg), (seq, table)).
Proof.
  intros Hin Hk. unfold CRMMappingStorage.add_mapping.
  destruct (existsb (fun m => String.eqb (CRMMappingStorage.mp_system_id m) sid) table) eqn:E1;
    [eexists; reflexivity|].
  destruct (existsb (fun m => String.eqb (CRMMappingStorage.mp_division_id m) did) table) eqn:E2;
    [eexists; reflexivity|].
  exfalso. destruct Hk as [Hk|Hk].
  - assert (existsb (fun m => String.eqb (CRMMappingStorage.mp_system_id m) sid) table = true)
      by (apply existsb_exists; exists m; rewrite Hk, String.eqb_refl; auto).
    congruence.
  - assert (existsb (fun m => String.eqb (CRMMappingStorage.mp_division_id m) did) table = true)
      by (apply existsb_exists; exists m; rewrite Hk, String.eqb_refl; auto).
    congruence.
Qed.

(** ** Organisational descendants *)

Lemma iter_children_walk (rels : list relationship_row) (t : string) (k : nat) :
  forall level y, In y (iter_children rels t k level) <-> exists x, In x level /\ walk rels t k x y.
Proof.
  induction k as [|k IH]; intros level y; simpl.
  - split; [intros H; exists y; auto | intros (x & Hx & ->); exact Hx].
  - rewrite IH. split.
    + intros (x' & Hx' & Hw). apply in_flat_map in Hx'. destruct Hx' as (x & Hx & Hc).
      exists x. split; [exact Hx|]. exists x'. auto.
    + intros (x & Hx & z & Hz & Hw). exists z. split; [|exact Hw].
      apply in_flat_map. exists x. auto.
Qed.

(** The depth guard, not the fuel, ends the recursion: any fuel at least
    [depth_limit - depth] gives the same rows. *)
Lemma org_levels_fuel_enough (rels : list relationship_row) (t : string) (lim : Z) :
  forall f depth level, (Z.to_nat (lim - depth) <= f)%nat ->
  org_levels_fuel f rels t lim depth level = org_levels rels t lim depth level.
Proof.
  unfold org_levels. induction f as [|f IH]; intros depth level Hf.
  - replace (Z.to_nat (lim - depth)) with O by lia. reflexivity.
  - simpl. destruct (depth <? lim) eqn:Hd.
    + apply Z.ltb_lt in Hd.
      replace (Z.to_nat (lim - depth)) with (S (Z.to_nat (lim - (depth + 1)))) by lia.
      simpl. rewrite (proj2 (Z.ltb_lt _ _) Hd). rewrite IH by lia. reflexivity.
    + apply Z.ltb_ge in Hd. replace (Z.to_nat (lim - depth)) with O by lia. reflexivity.
Qed.

Lemma org_levels_fuel_In (rels : list relationship_row) (t : string) (lim : Z) :
  forall f depth level y,
  In y (org_levels_fuel f rels t lim depth level) <->
  exists j, (1 <= j <= Nat.min f (Z.to_nat (lim - depth)))%nat /\
            In y (iter_children rels t j level).
Proof.
  induction f as [|f IH]; intros depth level y; simpl.
  - split; [tauto|]. intros (j & Hj & _). lia.
  - destruct (depth <? lim) eqn:Hd.
    + apply Z.ltb_lt in Hd.
      replace (Z.to_nat (lim - depth)) with (S (Z.to_nat (lim - (depth + 1)))) by lia.
      rewrite in_app_iff, IH. split.
      * intros [Hn | (j & Hj & Hy)].
        -- exists 1%nat. split; [lia|]. exact Hn.
        -- exists (S j). split; [lia|]. exact Hy.
      * intros (j & Hj & Hy). destruct j as [|[|j]]; [lia| left; exact Hy|].
        right. exists (S j). split; [lia|]. exact Hy.
    + apply Z.ltb_ge in Hd. replace (Z.to_nat (lim - depth)) with O by lia.
      split; [intros []|]. intros (j & Hj & _). lia.
Qed.

Lemma distinct_aux_spec (l : list Z) :
  forall seen, NoDup (distinct_aux seen l) /\
  (forall x, In x (distinct_aux seen l) <-> In x l /\ ~ In x seen).
Proof.
  induction l as [|a l IH]; intros seen; simpl.
  - split; [constructor|]. tauto.
  - destruct (existsb (Z.eqb a) seen) eqn:E.
    + apply existsb_exists in E. destruct E as (b & Hb & Hab). apply Z.eqb_eq in Hab; subst b.
      destruct (IH seen) as [Hnd Hin]. split; [exact Hnd|].
      intros x. rewrite Hin. split; [tauto|]. intros [[<-|Hx] Hns]; [contradiction|tauto].
    + assert (Hna : ~ In a seen).
      { intros Ha. assert (existsb (Z.eqb a) seen = true)
          by (apply existsb_exists; exists a; rewrite Z.eqb_refl; auto). congruence. }
      destruct (IH (a :: seen)) as [Hnd Hin]. split.
      * constructor; [|exact Hnd]. rewrite Hin. simpl. tauto.
      * intros x. simpl. rewrite Hin. simpl. split.
        -- intros [<-|[Hx Hns]]; [tauto|]. split; [tauto|]. tauto.
        -- intros [[<-|Hx] Hns]; [tauto|].
           destruct (Z.eq_dec a x) as [->|Hne]; [tauto|]. right. split; [exact Hx|]. tauto.
Qed.

(** [get_organizational_descendants] reads the store only, returns no
    id twice, and returns exactly the ids at the end of a path of [k]
    edges of the given type from the root, for [1 <= k <= max 1 limit],
    where the limit is [max_depth] or 999; on a cyclic graph too. *)
Lemma get_organizational_descendants_spec (s : store) (root : Z) (t : string)
    (max_depth : option Z) :
  exists l, get_organizational_descendants root t max_depth s = (Ok l, s) /\
    NoDup l /\
    forall y, In y l <->
      exists k, (1 <= k <= Z.to_nat (Z.max 1 (org_depth_limit max_depth)))%nat /\
                walk (relationships s) t k root y.
Proof.
  set (L := org_depth_limit max_depth).
  set (base := children_of (relationships s) t root).
  exists (distinct (base ++ org_levels (relationships s) t L 1 base)).
  split; [reflexivity|].
  destruct (distinct_aux_spec (base ++ org_levels (relationships s) t L 1 base) [])
    as [Hnd Hin].
  split; [exact Hnd|]. intros y. unfold distinct. rewrite Hin, in_app_iff.
  unfold org_levels. rewrite org_levels_fuel_In. rewrite Nat.min_id. split.
  - intros [[Hb | (j & Hj & Hy)] _].
    + exists 1%nat. split; [lia|]. exists y. split; [exact Hb|reflexivity].
    + exists (S j). split; [lia|]. apply iter_children_walk in Hy.
      destruct Hy as (x & Hx & Hw). exists x. auto.
  - intros (k & Hk & Hw). split; [|simpl; tauto].
    destruct k as [|[|j]]; [lia| |].
    + left. destruct Hw as (z & Hz & Hzy). simpl in Hzy. subst z. exact Hz.
    + right. exists (S j). split; [lia|]. apply iter_children_walk.
      destruct Hw as (z & Hz & Hw). exists z. auto.
Qed.

(** A two-cycle A -> B -> A with no bound: the traversal ends and returns
    each of B and A once. *)
Example org_descendants_cycle :
  fst (get_organizational_descendants 1 "reports_to" None
         (mk_store [] [] [] [] [] [rel 1 2; rel 2 1])) = Ok [2; 1].
Proof. vm_compute. reflexivity. Qed.

(** C5 fails at [max_depth = 0]: the base case of the recursive query is
    not guarded by the depth limit, so the direct child (depth 1) of the
    root is returned although the bound asks for depth 0. *)
Theorem org_descendants_depth_zero :
  fst (get_organizational_descendants 1 "reports_to" (Some 0)
         (mk_store [] [] [] [] [] [rel 1 2; rel 2 3])) = Ok [2] /\
  walk [rel 1 2; rel 2 3] "reports_to" 1 1 2.
Proof.
  split; [vm_compute; reflexivity|].
  exists 2. split; [simpl; left; reflexivity|reflexivity].
Qed.

(** ** The query engine *)

Lemma insert_by_name_perm (r : QueryEngine.df_row) (l : list QueryEngine.df_row) :
  Permutation (QueryEngine.insert_by_name r l) (r :: l).
Proof.
  induction l as [|x t IH]; simpl; [reflexivity|].
  destruct (QueryEngine.name_le (QueryEngine.name x) (QueryEngine.name r)); [|reflexivity].
  rewrite IH. apply perm_swap.
Qed.

Lemma order_by_name_perm (l : list QueryEngine.df_row) :
  Permutation (QueryEngine.order_by_name l) l.
Proof.
  induction l as [|x t IH]; simpl; [reflexivity|].
  rewrite insert_by_name_perm. apply perm_skip, IH.
Qed.

(** ** The [st.cache_data] layer *)

Lemma cache_data_miss {K A} (replayed : list string -> list string)
    (eqk : K -> K -> bool) (now : Z) (k : K) (tbl : QueryEngine.caches -> QueryEngine.cache K A)
    (upd : QueryEngine.caches -> QueryEngine.cache K A -> QueryEngine.caches)
    (body : QueryEngine.caches -> QueryEngine.outcome A * QueryEngine.caches)
    (cs : QueryEngine.caches) :
  QueryEngine.cache_lookup eqk now k (tbl cs) = None ->
  QueryEngine.cache_data replayed eqk now k tbl upd body cs =
    (fst (body cs), upd (snd (body cs)) ((k, (now, fst (body cs))) :: tbl (snd (body cs)))).
Proof. intros H. unfold QueryEngine.cache_data. rewrite H. destruct (body cs); reflexivity. Qed.












(** C9 (as the code does it): no decorated query method depends on the
    selection state ([country], [selection_path]): what a call returns,
    and the cache it leaves, are determined by its arguments, the time,
    the [st.cache_data] tables and the dataset found at the engine's
    [parquet_path].  Two engines whose paths hold the same data (in
    particular an engine and the same engine with its selection cleared)
    give the same results.  On a cache hit the data are not read at all:
    the stored value comes back whatever the engine and its data.
    [query_at_current_level] is the exception (see the counterexample). *)
Theorem queries_ignore_selection_state (replayed : list string -> list string)
    (e : QueryEngine.engine) (fs : QueryEngine.files) (now : Z) (cs : QueryEngine.caches) :
  (forall e' fs', fs' (QueryEngine.parquet_path e') = fs (QueryEngine.parquet_path e) ->
   QueryEngine.st_get_countries replayed e' fs' now cs
     = QueryEngine.st_get_countries replayed e fs now cs /\
   (forall c, QueryEngine.st_get_subtypes replayed e' fs' now c cs
              = QueryEngine.st_get_subtypes replayed e fs now c cs) /\
   (forall c, QueryEngine.st_get_top_level_divisions replayed e' fs' now c cs
              = QueryEngine.st_get_top_level_divisions replayed e fs now c cs) /\
   (forall p, QueryEngine.st_get_child_divisions replayed e' fs' now p cs
              = QueryEngine.st_get_child_divisions replayed e fs now p cs) /\
   (forall c ids, QueryEngine.st_get_all_divisions_by_filters replayed e' fs' now c ids cs
                  = QueryEngine.st_get_all_divisions_by_filters replayed e fs now c ids cs) /\
   (forall g, QueryEngine.st_get_geometry replayed e' fs' now g cs
              = QueryEngine.st_get_geometry replayed e fs now g cs) /\
   (forall lower c t, QueryEngine.st_search_boundaries replayed lower e' fs' now c t cs
                      = QueryEngine.st_search_boundaries replayed lower e fs now c t cs)) /\
  (forall e' fs',
   (QueryEngine.cache_lookup QueryEngine.unit_eqb now tt (QueryEngine.c_countries cs) <> None ->
    QueryEngine.st_get_countries replayed e' fs' now cs
      = QueryEngine.st_get_countries replayed e fs now cs) /\
   (forall c, QueryEngine.cache_lookup String.eqb now c (QueryEngine.c_subtypes cs) <> None ->
    QueryEngine.st_get_subtypes replayed e' fs' now c cs
      = QueryEngine.st_get_subtypes replayed e fs now c cs) /\
   (forall c, QueryEngine.cache_lookup String.eqb now c (QueryEngine.c_top_level cs) <> None ->
    QueryEngine.st_get_top_level_divisions replayed e' fs' now c cs
      = QueryEngine.st_get_top_level_divisions replayed e fs now c cs) /\
   (forall p, QueryEngine.cache_lookup String.eqb now p (QueryEngine.c_child cs) <> None ->
    QueryEngine.st_get_child_divisions replayed e' fs' now p cs
      = QueryEngine.st_get_child_divisions replayed e fs now p cs) /\
   (forall c ids, QueryEngine.cache_lookup QueryEngine.filters_eqb now (c, ids)
                    (QueryEngine.c_by_filters cs) <> None ->
    QueryEngine.st_get_all_divisions_by_filters replayed e' fs' now c ids cs
      = QueryEngine.st_get_all_divisions_by_filters replayed e fs now c ids cs) /\
   (forall g, QueryEngine.cache_lookup String.eqb now g (QueryEngine.c_geometry cs) <> None ->
    QueryEngine.st_get_geometry replayed e' fs' now g cs
      = QueryEngine.st_get_geometry replayed e fs now g cs) /\
   (forall lower c t, QueryEngine.cache_lookup QueryEngine.pair_eqb now (c, t)
                        (QueryEngine.c_search cs) <> None ->
    QueryEngine.st_search_boundaries replayed lower e' fs' now c t cs
      = QueryEngine.st_search_boundaries replayed lower e fs now c t cs)).
Proof.
  split.
  - intros e' fs' Hsame.
    unfold QueryEngine.st_get_countries, QueryEngine.st_get_subtypes,
      QueryEngine.st_get_top_level_divisions, QueryEngine.st_get_child_divisions,
      QueryEngine.st_get_all_divisions_by_filters, QueryEngine.get_all_divisions_by_filters,
      QueryEngine.st_get_top_level_divisions, QueryEngine.st_get_geometry,
      QueryEngine.st_search_boundaries, QueryEngine.search_boundaries,
      QueryEngine.get_countries, QueryEngine.get_subtypes, QueryEngine.get_top_level_divisions,
      QueryEngine.get_child_divisions, QueryEngine.get_geometry, QueryEngine.run_query.
    rewrite Hsame. repeat split.
  - intros e' fs'.
    repeat split; intros;
      unfold QueryEngine.st_get_countries, QueryEngine.st_get_subtypes,
        QueryEngine.st_get_top_level_divisions, QueryEngine.st_get_child_divisions,
        QueryEngine.st_get_all_divisions_by_filters, QueryEngine.st_get_geometry,
        QueryEngine.st_search_boundaries, QueryEngine.cache_data;
      match goal with
      | H : QueryEngine.cache_lookup _ _ _ _ <> None |- _ =>
          destruct (QueryEngine.cache_lookup _ _ _ _) as [[v msgs]|];
          [reflexivity|contradiction H; reflexivity]
      end.
Qed.

(** C9 as stated fails.  Two engines on the same data that differ only in
    their selection state give different results for
    [query_at_current_level], which takes no explicit argument.  And two
    engines over different data return the same countries: after the
    engine on [divisions.parquet] (which holds [US]) has called
    [get_countries], the engine on [other.parquet] (which holds nothing)
    gets [US] from the cache a minute later. *)
Lemma query_at_current_level_counterexample :
  let e1 := QueryEngine.mk_engine "divisions.parquet" None [] in
  let e2 := QueryEngine.set_country e1 "US" in
  let e3 := QueryEngine.add_to_path e2
              (QueryEngine.to_df (ov_record "US-CA" "California" "region" (Some "US"))) in
  let eB := QueryEngine.mk_engine "other.parquet" None [] in
  let fs := fun p => if String.eqb p "divisions.parquet" then QueryEngine.Readable us_rows
                     else QueryEngine.Readable [] in
  QueryEngine.parquet_path e1 = QueryEngine.parquet_path e2 /\
  QueryEngine.parquet_path e2 = QueryEngine.parquet_path e3 /\
  fst (QueryEngine.query_at_current_level (fun m => m) e1 us_files 0 QueryEngine.no_caches)
    = ([], []) /\
  fst (QueryEngine.query_at_current_level (fun m => m) e2 us_files 0 QueryEngine.no_caches)
    = ([QueryEngine.to_df (ov_record "US" "United States" "country" None)], []) /\
  fst (QueryEngine.query_at_current_level (fun m => m) e3 us_files 0 QueryEngine.no_caches)
    = ([QueryEngine.to_df (ov_record "US-CA-LA" "Los Angeles" "county" (Some "US-CA"))], []) /\
  fst (QueryEngine.get_countries eB fs) = [] /\
  fst (fst (QueryEngine.st_get_countries (fun m => m) eB fs 60
              (snd (QueryEngine.st_get_countries (fun m => m) e1 fs 0 QueryEngine.no_caches))))
    = ["US"].
Proof. repeat split; vm_compute; reflexivity. Qed.

Lemma NoDup_map_same {A B} (f : A -> B) (ls : list A) (x y : A) :
  NoDup (map f ls) -> In x ls -> In y ls -> f x = f y -> x = y.
Proof.
  induction ls as [|a t IH]; simpl; [tauto|]. intros Hnd Hx Hy Hf.
  inversion Hnd as [|? ? Hnot Hnd']; subst.
  destruct Hx as [<-|Hx], Hy as [<-|Hy]; auto.
  - exfalso. apply Hnot. rewrite Hf. apply in_map; exact Hy.
  - exfalso. apply Hnot. rewrite <- Hf. apply in_map; exact Hx.
Qed.

Lemma update_list_row_id (list_id : Z) n h notes (r : list_row) :
  l_id (update_list_row list_id n h notes r) = l_id r.
Proof. unfold update_list_row. destruct (l_id r =? list_id); reflexivity. Qed.

Lemma update_list_rows_hash_nodup (list_id : Z) n (h : string) notes (ls : list list_row) :
  NoDup (map l_hash ls) -> NoDup (map l_id ls) ->
  (forall r, In r ls -> l_id r <> list_id -> l_hash r <> h) ->
  NoDup (map l_hash (map (update_list_row list_id n (Some h) notes) ls)).
Proof.
  induction ls as [|a t IH]; simpl; intros Hh Hi Hr; [constructor|].
  inversion Hh as [|? ? Hnh Hh']; subst. inversion Hi as [|? ? Hni Hi']; subst.
  constructor; [|apply IH; auto].
  rewrite map_map. intros Hin. apply in_map_iff in Hin. destruct Hin as (r & Hr' & Hin).
  unfold update_list_row in *.
  destruct (l_id a =? list_id) eqn:Ea; simpl in Hr'.
  - apply Z.eqb_eq in Ea.
    assert (Hne : l_id r <> list_id)
      by (intros E; apply Hni; rewrite Ea, <- E; apply in_map; exact Hin).
    apply Z.eqb_neq in Hne as Hne'. rewrite Hne' in Hr'. simpl in Hr'.
    exact (Hr r (or_intror Hin) Hne Hr').
  - apply Z.eqb_neq in Ea.
    destruct (l_id r =? list_id); simpl in Hr'.
    + exact (Hr a (or_introl eq_refl) Ea (eq_sym Hr')).
    + apply Hnh. rewrite <- Hr'. apply in_map; exact Hin.
Qed.

Lemma update_list_rows_ok (md5 : string -> string) (list_id : Z) (l : list_row)
    (renamed : option (string * string)) notes (ls : list list_row) :
  lists_ok md5 ls -> In l ls -> l_id l = list_id ->
  (forall n h, renamed = Some (n, h) ->
     h = _compute_hash md5 n (l_type l) /\
     forall r, In r ls -> l_id r <> list_id -> l_hash r <> h) ->
  lists_ok md5 (map (update_list_row list_id (option_map fst renamed)
                       (option_map snd renamed) notes) ls).
Proof.
  intros (Hid & Hh & Hrows) Hl Hlid Hren.
  split; [rewrite map_map; erewrite map_ext by (intros; apply update_list_row_id);
          exact Hid|].
  split.
  - destruct renamed as [[n h]|]; simpl.
    + destruct (Hren n h eq_refl) as [_ Hoth]. apply update_list_rows_hash_nodup; auto.
    + rewrite map_map. erewrite map_ext; [exact Hh|].
      intros r. unfold update_list_row. destruct (l_id r =? list_id); reflexivity.
  - rewrite Forall_forall in *. intros r' Hin. apply in_map_iff in Hin.
    destruct Hin as (r & <- & Hin). destruct (Hrows r Hin) as [Hpos Hhash].
    unfold update_list_row. destruct (l_id r =? list_id) eqn:E; [|auto].
    apply Z.eqb_eq in E.
    assert (r = l) by (apply (NoDup_map_same l_id ls); congruence). subst r.
    simpl. split; [exact Hpos|].
    destruct renamed as [[n h]|]; simpl; [apply (Hren n h eq_refl)|exact Hhash].
Qed.

(** [update_list] keeps [lists_ok] too. *)
Lemma update_list_keeps_lists_ok (md5 : string -> string) (s : store) (list_id : Z)
    (name notes : option string) :
  lists_ok md5 (lists s) ->
  lists_ok md5 (lists (snd (update_list md5 list_id name notes s))).
Proof.
  intros Hok.
  cbv beta iota zeta delta [update_list bind get ret raise put get_list check_duplicate_list].
  destruct (find (fun l => l_id l =? list_id) (lists s)) as [l|] eqn:Hf; [|exact Hok].
  apply find_some in Hf. destruct Hf as [Hl Hlid]. apply Z.eqb_eq in Hlid.
  pose proof Hok as (Hid & Hh & Hrows).
  destruct name as [n|].
  2: destruct notes; cbn [snd lists set_lists]; [|exact Hok];
        apply (update_list_rows_ok md5 list_id l None); auto; discriminate.
  destruct (String.eqb n (l_name l)).
  { destruct notes; cbn [snd lists set_lists]; [|exact Hok].
    apply (update_list_rows_ok md5 list_id l None); auto; discriminate. }
  set (h := _compute_hash md5 n (l_type l)).
  assert (Hren : (forall r, In r (lists s) -> l_id r <> list_id -> l_hash r <> h) ->
                 lists_ok md5 (map (update_list_row list_id (option_map fst (Some (n, h)))
                                      (option_map snd (Some (n, h))) notes) (lists s))).
  { intros Hoth. apply (update_list_rows_ok md5 list_id l (Some (n, h))); auto.
    intros n' h' [= <- <-]. split; [reflexivity|exact Hoth]. }
  destruct (find (fun l0 => String.eqb (l_hash l0) h) (lists s)) as [r0|] eqn:Hf2;
    cbn [option_map truthy_id].
  - apply find_some in Hf2. destruct Hf2 as [Hr0 Hr0h]. apply String.eqb_eq in Hr0h.
    destruct (l_id r0 =? 0) eqn:E0.
    + exfalso. rewrite Forall_forall in Hrows. destruct (Hrows r0 Hr0) as [Hp _].
      apply Z.eqb_eq in E0. lia.
    + destruct (l_id r0 =? list_id) eqn:E1; [|exact Hok].
      destruct notes; cbn [snd lists set_lists]; apply Hren;
        intros r Hr Hne Heq; apply Hne; apply Z.eqb_eq in E1; rewrite <- E1;
        f_equal; apply (NoDup_map_same l_hash (lists s)); congruence.
  - destruct notes; cbn [snd lists set_lists]; apply Hren;
      intros r Hr _ Heq; apply (find_none_not_in l_hash _ _ Hf2);
      rewrite <- Heq; apply in_map; exact Hr.
Qed.

(* ================================================================== *)
(** * Further properties of the code *)

Lemma find_none_forall {A} (f : A -> bool) (l : list A) :
  (forall x, In x l -> f x = false) -> find f l = None.
Proof.
  induction l as [|a t IH]; simpl; intros H; [reflexivity|].
  rewrite (H a (or_introl eq_refl)). apply IH. auto.
Qed.

Lemma find_unique_Z {A} (k : A -> Z) (ls : list A) (r : A) :
  NoDup (map k ls) -> In r ls -> find (fun x => k x =? k r) ls = Some r.
Proof.
  induction ls as [|a t IH]; simpl; intros Hnd Hin; [contradiction|].
  inversion Hnd as [|? ? Hnot Hnd']; subst.
  destruct Hin as [<-|Hin]; [rewrite Z.eqb_refl; reflexivity|].
  destruct (k a =? k r) eqn:E.
  - apply Z.eqb_eq in E. exfalso. apply Hnot. rewrite E. apply in_map. exact Hin.
  - apply IH; assumption.
Qed.


Lemma flat_map_none {A B} (f : A -> list B) (l : list A) :
  (forall x, In x l -> f x = []) -> flat_map f l = [].
Proof.
  induction l as [|a t IH]; simpl; intros H; [reflexivity|].
  rewrite (H a (or_introl eq_refl)). apply IH. auto.
Qed.

Lemma set_lists_same (s : store) : set_lists s (lists s) = s.
Proof. destruct s; reflexivity. Qed.

Lemma set_relationships_same (s : store) : set_relationships s (relationships s) = s.
Proof. destruct s; reflexivity. Qed.

(** A fresh rowid is larger than every id of the table. *)
Lemma next_rowid_gt (ids : list Z) (x : Z) : In x ids -> x < next_rowid ids.
Proof.
  intros Hx. destruct (next_rowid_fresh ids) as [_ H].
  rewrite Forall_forall in H. exact (H x Hx).
Qed.

(** X1: [save_division] and the two readers agree.  The id it returns
    reads back with [get_division] as a row whose [system_id] is the one
    saved; [get_division_by_system_id] finds that same row.  Ids of the
    [divisions] table are distinct (its primary key). *)
Theorem save_division_get_division (s : store) (x name subtype country : string)
    (geometry : option string) :
  NoDup (map d_id (divisions s)) ->
  exists i s' d, save_division x name subtype country geometry s = (Ok i, s') /\
    fst (get_division i s') = Ok (Some (division_dict d)) /\
    d_id d = i /\ d_system_id d = x /\
    fst (get_division_by_system_id x s') = Ok (Some (division_dict d)).
Proof.
  intros Hnd.
  destruct (find (fun d => String.eqb (d_system_id d) x) (divisions s)) as [d|] eqn:Hf.
  - exists (d_id d), s, d. rewrite (save_division_cached _ _ _ _ _ _ _ Hf).
    pose proof (find_some _ _ Hf) as [Hin Hx]. apply String.eqb_eq in Hx.
    split; [reflexivity|].
    cbv beta iota delta [get_division get_division_by_system_id bind get ret fst].
    rewrite (find_unique_Z d_id _ d Hnd Hin), Hf. auto.
  - set (i := next_rowid (map d_id (divisions s))).
    set (nd := mk_division i x name subtype country (json_dumps geometry)).
    exists i, (set_divisions s (divisions s ++ [nd])), nd.
    rewrite (save_division_fresh _ _ _ _ _ _ Hf). split; [reflexivity|].
    cbv beta iota delta [get_division get_division_by_system_id bind get ret fst].
    cbn [divisions set_divisions].
    rewrite find_app_none.
    2: { apply find_none_forall. intros d Hd. apply Z.eqb_neq.
         pose proof (next_rowid_gt (map d_id (divisions s)) (d_id d) (in_map _ _ _ Hd)).
         fold i in H. lia. }
    rewrite (find_app_none _ _ _ Hf). cbn [find nd d_id d_system_id].
    rewrite Z.eqb_refl, String.eqb_refl. auto.
Qed.

Lemma save_division_get_division_witness :
  NoDup (map d_id (divisions store_us)) /\
  exists i s' d, save_division "FR" "France" "country" "FR" None store_us = (Ok i, s') /\
    fst (get_division i s') = Ok (Some (division_dict d)) /\
    d_id d = i /\ d_system_id d = "FR" /\
    fst (get_division_by_system_id "FR" s') = Ok (Some (division_dict d)).
Proof.
  assert (H : NoDup (map d_id (divisions store_us))) by (repeat constructor; simpl; tauto).
  split; [exact H|]. exact (save_division_get_division store_us "FR" "France" "country" "FR" None H).
Defined.

(** X2: a list made by [create_list] reads back.  [get_list] returns
    the row with the name, type, notes and hash given, and
    [get_list_items] the items given, resolved as [resolve_items] says, in
    the order the engine scans them.  The store's junction rows reference
    existing lists ([items_ok]). *)
Theorem create_list_then_read (md5 : string -> string)
    (scan : forall A : Type, list A -> list A)
    (Hscan : forall A (l : list A), Permutation (scan A l) l)
    (s : store) (name list_type : string) (item_ids : list item) (notes : string)
    (i : Z) (s' : store) :
  items_ok s ->
  create_list md5 name list_type item_ids notes s = (Ok i, s') ->
  fst (get_list i s') =
    Ok (Some (mk_list i name list_type notes (_compute_hash md5 name list_type))) /\
  exists res, fst (get_list_items scan i s') = Ok res /\
              Permutation res (resolve_items s list_type item_ids).
Proof.
  intros [Hd Hc] H.
  destruct item_ids as [|i0 ids']; [discriminate H|].
  cbv beta iota zeta delta [create_list bind get ret raise check_duplicate_list put] in H.
  destruct (negb (String.eqb list_type "division" || String.eqb list_type "client"))
    eqn:Hv; [discriminate H|].
  destruct (truthy_id _); [discriminate H|].
  set (nid := next_rowid (map l_id (lists s))) in H.
  set (row := mk_list nid name list_type notes (_compute_hash md5 name list_type)) in H.
  assert (Hfresh : forall z, In z (map l_id (lists s)) -> (z =? nid) = false).
  { intros z Hz. apply Z.eqb_neq. pose proof (next_rowid_gt _ _ Hz) as Hlt.
    fold nid in Hlt. lia. }
  assert (Hfind : find (fun r => l_id r =? nid) (lists s ++ [row]) = Some row).
  { rewrite find_app_none.
    - cbn [find row l_id]. rewrite Z.eqb_refl. reflexivity.
    - apply find_none_forall. intros r Hr. apply Hfresh, in_map, Hr. }
  rewrite executemany_insert_items_spec in H.
  destruct (forallb _ (i0 :: ids')) eqn:Hall; [|discriminate H].
  rewrite ok_prefix_all in H by exact Hall.
  unfold add_items in H.
  destruct (String.eqb list_type "division") eqn:Ht;
    injection H as <- <-; (split; [|eexists; split]).
  - cbv beta iota delta [get_list bind get ret fst].
    cbn [lists set_list_divisions set_lists]. rewrite Hfind. reflexivity.
  - cbv beta iota delta [get_list_items get_list bind get ret fst].
    cbn [lists set_list_divisions set_lists]. rewrite Hfind. cbn [row l_type].
    rewrite Ht. reflexivity.
  - rewrite Hscan. unfold join_list_divisions, resolve_items. rewrite Ht.
    cbn [list_divisions set_list_divisions set_lists divisions].
    change ((nid, i0) :: map (fun i => (nid, i)) ids') with (map (fun i => (nid, i)) (i0 :: ids')).
    rewrite flat_map_app, flat_map_new_items, (flat_map_none _ (list_divisions s)).
    + cbn [fst]. rewrite Z.eqb_refl. reflexivity.
    + intros p Hp. rewrite Forall_forall in Hd. rewrite (Hfresh _ (Hd p Hp)). reflexivity.
  - cbv beta iota delta [get_list bind get ret fst].
    cbn [lists set_list_clients set_lists]. rewrite Hfind. reflexivity.
  - cbv beta iota delta [get_list_items get_list bind get ret fst].
    cbn [lists set_list_clients set_lists]. rewrite Hfind. cbn [row l_type].
    rewrite Ht. reflexivity.
  - rewrite Hscan. unfold select_list_clients, resolve_items. rewrite Ht.
    cbn [list_clients set_list_clients set_lists].
    change ((nid, i0) :: map (fun i => (nid, i)) ids') with (map (fun i => (nid, i)) (i0 :: ids')).
    rewrite flat_map_app, flat_map_new_items, (flat_map_none _ (list_clients s)).
    + cbn [fst app]. rewrite Z.eqb_refl. clear. generalize (i0 :: ids'). intros ids.
      induction ids as [|i t IH]; simpl; [reflexivity|]. rewrite IH. reflexivity.
    + intros p Hp. rewrite Forall_forall in Hc. rewrite (Hfresh _ (Hc p Hp)). reflexivity.
Qed.

Lemma create_list_then_read_witness :
  items_ok store_lists /\
  create_list md5_id "East" "client" [IStr "c4"] "" store_lists =
    (Ok 3, snd (create_list md5_id "East" "client" [IStr "c4"] "" store_lists)) /\
  fst (get_list 3 (snd (create_list md5_id "East" "client" [IStr "c4"] "" store_lists))) =
    Ok (Some (mk_list 3 "East" "client" "" (_compute_hash md5_id "East" "client"))) /\
  exists res, fst (get_list_items (fun _ l => l) 3
                     (snd (create_list md5_id "East" "client" [IStr "c4"] "" store_lists)))
              = Ok res /\
              Permutation res (resolve_items store_lists "client" [IStr "c4"]).
Proof.
  assert (Hok : items_ok store_lists) by (split; repeat constructor; simpl; tauto).
  assert (Hc : create_list md5_id "East" "client" [IStr "c4"] "" store_lists =
    (Ok 3, snd (create_list md5_id "East" "client" [IStr "c4"] "" store_lists)))
    by reflexivity.
  split; [exact Hok|]. split; [exact Hc|].
  exact (create_list_then_read md5_id (fun _ l => l) (fun A l => Permutation_refl l)
           store_lists "East" "client" [IStr "c4"] "" 3 _ Hok Hc).
Defined.

Ltac err_unchanged H :=
  repeat (cbn beta iota zeta in H;
          match type of H with
          | context [match ?x with _ => _ end] =>
              lazymatch type of x with
              | prod _ _ => fail
              | _ => destruct x
              end
          end);
  congruence.

(** X3: a call that raises before its first write writes nothing.
    When [update_list], [add_relationship], [save_mapping] or
    [delete_mapping] raises, the store after the call is the store
    before it; so is it when [create_list] or [update_list_items] raises
    anything else than the foreign-key error of an item (the only error
    either raises after a write, see X27). *)
Theorem failed_calls_write_nothing (md5 : string -> string) (s : store) :
  (forall name list_type item_ids notes e s',
     create_list md5 name list_type item_ids notes s = (Err e, s') -> e <> fk_error ->
     s' = s) /\
  (forall list_id name notes e s',
     update_list md5 list_id name notes s = (Err e, s') -> s' = s) /\
  (forall list_id item_ids e s',
     update_list_items list_id item_ids s = (Err e, s') -> e <> fk_error -> s' = s) /\
  (forall p c t e s', add_relationship p c t s = (Err e, s') -> s' = s) /\
  (forall x a acc lvl dn st c g e s',
     save_mapping x a acc lvl dn st c g s = (Err e, s') -> s' = s) /\
  (forall x e s', delete_mapping x s = (Err e, s') -> s' = s).
Proof.
  repeat split; intros.
  - cbv beta iota zeta delta [create_list bind get ret raise check_duplicate_list put] in H.
    destruct item_ids as [|i0 ids]; [congruence|].
    destruct (negb _); [congruence|].
    destruct (truthy_id _); [congruence|].
    rewrite executemany_insert_items_spec in H.
    destruct (forallb _ _); cbn in H; congruence.
  - cbv beta iota zeta delta [update_list bind get ret raise check_duplicate_list put get_list] in H.
    err_unchanged H.
  - cbv beta iota zeta delta [update_list_items bind get ret raise put get_list] in H.
    destruct item_ids as [|i0 ids]; [congruence|].
    destruct (find _ _); [|congruence].
    rewrite executemany_insert_items_spec in H.
    destruct (forallb _ _); cbn in H; congruence.
  - cbv beta iota zeta delta [add_relationship bind get ret raise put] in H.
    err_unchanged H.
  - cbv beta iota zeta delta [save_mapping bind get ret raise put] in H.
    err_unchanged H.
  - cbv beta iota zeta delta [delete_mapping bind get ret raise put] in H.
    err_unchanged H.
Qed.

(** X27: the foreign-key error of [create_list] comes after writes.  The
    [lists] row and the items before the first unknown one are in the
    store when it raises; [with DatabaseStorage()] ([with_db]) rolls
    them back, so the caller sees the store unchanged. *)
Theorem create_list_fk_partial_write (md5 : string -> string) (s : store)
    (name list_type : string) (item_ids : list item) (notes : string) (s' : store) :
  create_list md5 name list_type item_ids notes s = (Err fk_error, s') ->
  let nid := next_rowid (map l_id (lists s)) in
  let s1 := set_lists s (lists s ++ [mk_list nid name list_type notes
                                       (_compute_hash md5 name list_type)]) in
  s' = add_items s1 list_type nid (ok_prefix (item_ref_ok s list_type) item_ids) /\
  forallb (item_ref_ok s list_type) item_ids = false /\
  with_db (create_list md5 name list_type item_ids notes) s = (Err fk_error, s).
Proof.
  intros H. cbv zeta.
  assert (Hw : with_db (create_list md5 name list_type item_ids notes) s = (Err fk_error, s))
    by (unfold with_db; rewrite H; reflexivity).
  cbv beta iota zeta delta [create_list bind get ret raise check_duplicate_list put] in H.
  destruct item_ids as [|i0 ids]; [discriminate H|].
  destruct (negb _); [discriminate H|].
  destruct (truthy_id _); [discriminate H|].
  rewrite executemany_insert_items_spec in H.
  rewrite item_ref_ok_set_lists in H.
  destruct (forallb _ _) eqn:Hall; cbn in H; [discriminate H|].
  injection H as <-. auto.
Qed.

Lemma create_list_fk_partial_write_witness :
  create_list md5_id "East" "client" [IStr "c1"; IStr "c9"] "" store_lists =
    (Err fk_error, snd (create_list md5_id "East" "client" [IStr "c1"; IStr "c9"] "" store_lists)) /\
  (let nid := next_rowid (map l_id (lists store_lists)) in
   let s1 := set_lists store_lists (lists store_lists ++ [mk_list nid "East" "client" ""
                                        (_compute_hash md5_id "East" "client")]) in
   snd (create_list md5_id "East" "client" [IStr "c1"; IStr "c9"] "" store_lists)
     = add_items s1 "client" nid
         (ok_prefix (item_ref_ok store_lists "client") [IStr "c1"; IStr "c9"]) /\
   forallb (item_ref_ok store_lists "client") [IStr "c1"; IStr "c9"] = false /\
   with_db (create_list md5_id "East" "client" [IStr "c1"; IStr "c9"] "") store_lists
     = (Err fk_error, store_lists)).
Proof.
  assert (H : create_list md5_id "East" "client" [IStr "c1"; IStr "c9"] "" store_lists =
    (Err fk_error, snd (create_list md5_id "East" "client" [IStr "c1"; IStr "c9"] "" store_lists)))
    by reflexivity.
  split; [exact H|].
  exact (create_list_fk_partial_write md5_id store_lists "East" "client" [IStr "c1"; IStr "c9"] ""
           _ H).
Defined.

Lemma Permutation_In_iff {A} (l l' : list A) (x : A) :
  Permutation l l' -> (In x l <-> In x l').
Proof. intros H. split; apply Permutation_in; [exact H | symmetry; exact H]. Qed.

(** X4: [get_all_lists] reads the store only.  With [list_type] [None]
    or the empty string (both falsy in Python) it returns every list;
    with any other string, exactly the lists of that type. *)
Theorem get_all_lists_members (scan : forall A : Type, list A -> list A)
    (Hscan : forall A (l : list A), Permutation (scan A l) l)
    (s : store) (list_type : option string) :
  exists res, get_all_lists scan list_type s = (Ok res, s) /\
    forall r, In r res <->
      In r (lists s) /\
      (list_type = None \/ list_type = Some "" \/ list_type = Some (l_type r)).
Proof.
  destruct list_type as [t|].
  - destruct (String.eqb t "") eqn:E.
    + apply String.eqb_eq in E. subst t.
      exists (scan _ (lists s)). split; [reflexivity|].
      intros r. rewrite (Permutation_In_iff _ _ r (Hscan _ _)). tauto.
    + exists (scan _ (filter (fun l => String.eqb (l_type l) t) (lists s))).
      split; [unfold get_all_lists, bind, get, ret; cbn [truthy_str]; rewrite E; reflexivity|].
      intros r. rewrite (Permutation_In_iff _ _ r (Hscan _ _)), filter_In, String.eqb_eq.
      apply String.eqb_neq in E. split.
      * intros [Hr Ht]. subst t. auto.
      * intros [Hr [Hn|[He|Ht]]]; [discriminate| congruence |].
        injection Ht as ->. auto.
  - exists (scan _ (lists s)). split; [reflexivity|].
    intros r. rewrite (Permutation_In_iff _ _ r (Hscan _ _)). tauto.
Qed.


Lemma update_list_row_same (list_id : Z) (r : list_row) :
  update_list_row list_id None None None r = r.
Proof. unfold update_list_row. destruct (l_id r =? list_id); [destruct r|]; reflexivity. Qed.


(** What a successful [update_list] did: the row [l] with that id
    exists, and the table was rewritten with [update_list_row], the new
    name and hash [ren] being set exactly when the name changed. *)
Lemma update_list_ok_inv (md5 : string -> string) (s s' : store) (list_id : Z)
    (name notes : option string) :
  update_list md5 list_id name notes s = (Ok tt, s') ->
  exists l ren, find (fun r => l_id r =? list_id) (lists s) = Some l /\
    s' = set_lists s (map (update_list_row list_id (option_map fst ren)
                             (option_map snd ren) notes) (lists s)) /\
    match name with
    | Some n => (n = l_name l /\ ren = None) \/
                (n <> l_name l /\ ren = Some (n, _compute_hash md5 n (l_type l)))
    | None => ren = None
    end.
Proof.
  intros H.
  cbv beta iota zeta delta [update_list bind get ret raise check_duplicate_list put get_list] in H.
  destruct (find (fun r => l_id r =? list_id) (lists s)) as [l|] eqn:Hf; [|discriminate H].
  exists l.
  assert (Hsame : s = set_lists s (map (update_list_row list_id
                                          (option_map fst (@None (string * string)))
                                          (option_map snd (@None (string * string))) None)
                                       (lists s))).
  { cbn [option_map]. erewrite map_ext by (intros; apply update_list_row_same).
    rewrite map_id, set_lists_same. reflexivity. }
  destruct name as [n|].
  - destruct (String.eqb n (l_name l)) eqn:En.
    + apply String.eqb_eq in En. exists None.
      destruct notes; injection H as <-; (split; [reflexivity|split; [|left; auto]]);
        [reflexivity | exact Hsame].
    + apply String.eqb_neq in En.
      exists (Some (n, _compute_hash md5 n (l_type l))).
      destruct (truthy_id _) as [e|].
      * destruct (e =? list_id); [|discriminate H].
        destruct notes; injection H as <-; (split; [reflexivity|split; [reflexivity|right; auto]]).
      * destruct notes; injection H as <-; (split; [reflexivity|split; [reflexivity|right; auto]]).
  - exists None.
    destruct notes; injection H as <-; (split; [reflexivity|split; [|reflexivity]]);
      [reflexivity | exact Hsame].
Qed.



(** X6: renaming a list to the name of another list of the same type
    raises the duplicate-list error naming that other list, and writes
    nothing.  The [lists] table satisfies [lists_ok]. *)
Theorem update_list_rename_collision (md5 : string -> string) (s : store) (list_id : Z)
    (l r : list_row) (notes : option string) :
  lists_ok md5 (lists s) ->
  find (fun x => l_id x =? list_id) (lists s) = Some l ->
  In r (lists s) -> l_id r <> list_id -> l_type r = l_type l ->
  update_list md5 list_id (Some (l_name r)) notes s =
    (Err (duplicate_list_error (l_name r) (l_type l) (l_id r)), s).
Proof.
  intros Hok Hf Hr Hne Ht.
  pose proof (find_some _ _ Hf) as [Hl Hid]. apply Z.eqb_eq in Hid.
  destruct Hok as (Hids & Hh & Hrows). rewrite Forall_forall in Hrows.
  destruct (Hrows r Hr) as [Hpos Hhr].
  cbv beta iota zeta delta [update_list bind get ret raise check_duplicate_list put get_list].
  rewrite Hf.
  destruct (String.eqb (l_name r) (l_name l)) eqn:En.
  - exfalso. apply String.eqb_eq in En. apply Hne. rewrite <- Hid. f_equal.
    apply (NoDup_map_same l_hash (lists s)); [exact Hh|exact Hr|exact Hl|].
    destruct (Hrows l Hl) as [_ Hhl]. rewrite Hhr, Hhl, En, Ht. reflexivity.
  - rewrite <- Ht, <- Hhr, (find_unique_key l_hash (lists s) r Hh Hr).
    cbn [option_map truthy_id].
    destruct (l_id r =? 0) eqn:E0; [apply Z.eqb_eq in E0; lia|].
    apply Z.eqb_neq in Hne. rewrite Hne, Ht. reflexivity.
Qed.

Lemma update_list_rename_collision_witness :
  update_list md5_id 1 (Some "East") None store_two =
    (Err (duplicate_list_error "East" "division" 2), store_two).
Proof.
  assert (Hok : lists_ok md5_id (lists store_two)).
  { split; [|split]; [repeat constructor; simpl; intuition discriminate
                     | repeat constructor; simpl; intuition discriminate
                     | repeat constructor; lia]. }
  exact (update_list_rename_collision md5_id store_two 1
           (mk_list 1 "West" "division" "" (_compute_hash md5_id "West" "division"))
           (mk_list 2 "East" "division" "" (_compute_hash md5_id "East" "division"))
           None Hok eq_refl (or_intror (or_introl eq_refl)) ltac:(discriminate) eq_refl).
Defined.

Lemma filter_keep_other (list_id other : Z) (ids : list item) (L : list (Z * item)) :
  other <> list_id ->
  filter (fun p => fst p =? other)
    (filter (fun p => negb (fst p =? list_id)) L ++ map (fun i => (list_id, i)) ids)
  = filter (fun p => fst p =? other) L.
Proof.
  intros Hne. assert (Hf : (list_id =? other) = false) by (apply Z.eqb_neq; auto).
  rewrite filter_app.
  assert (filter (fun p => fst p =? other) (map (fun i => (list_id, i)) ids) = []) as ->.
  { induction ids as [|a t IH]; simpl; [reflexivity|]. rewrite Hf. exact IH. }
  rewrite app_nil_r. induction L as [|p t IH]; simpl; [reflexivity|].
  destruct (fst p =? list_id) eqn:E1; simpl.
  - apply Z.eqb_eq in E1. rewrite E1, Hf. exact IH.
  - destruct (fst p =? other); [f_equal|]; exact IH.
Qed.

(** X7: [update_list_items] touches only the items of its own list:
    whatever it returns, the junction rows of every other list and the
    [divisions] table are as before, and so are the [lists] rows in the
    columns the model has (id, name, type, notes, hash: the call also
    sets the [updated_at] timestamp of its own list, a column left out
    of the model). *)
Theorem update_list_items_isolated (list_id other : Z) (ids : list item) (s s' : store)
    (res : result unit) :
  update_list_items list_id ids s = (res, s') -> other <> list_id ->
  filter (fun p => fst p =? other) (list_divisions s') =
    filter (fun p => fst p =? other) (list_divisions s) /\
  filter (fun p => fst p =? other) (list_clients s') =
    filter (fun p => fst p =? other) (list_clients s) /\
  lists s' = lists s /\ divisions s' = divisions s.
Proof.
  intros H Hne. destruct ids as [|i0 ids'].
  - injection H as _ <-. auto.
  - cbv beta iota zeta delta [update_list_items bind get ret raise put get_list] in H.
    destruct (find (fun r => l_id r =? list_id) (lists s)) as [l|]; [|injection H as _ <-; auto].
    rewrite executemany_insert_items_spec in H. injection H as _ <-. unfold add_items.
    destruct (String.eqb (l_type l) "division");
      cbn [list_divisions list_clients lists divisions set_list_divisions set_list_clients];
      (split; [|split; [|split]]); try reflexivity;
      exact (filter_keep_other list_id other _ _ Hne).
Qed.

Lemma update_list_items_isolated_witness :
  update_list_items 1 [IInt 4] store_lists =
    (Ok tt, snd (update_list_items 1 [IInt 4] store_lists)) /\ 2 <> 1 /\
  filter (fun p => fst p =? 2) (list_divisions (snd (update_list_items 1 [IInt 4] store_lists))) =
    filter (fun p => fst p =? 2) (list_divisions store_lists) /\
  filter (fun p => fst p =? 2) (list_clients (snd (update_list_items 1 [IInt 4] store_lists))) =
    filter (fun p => fst p =? 2) (list_clients store_lists) /\
  lists (snd (update_list_items 1 [IInt 4] store_lists)) = lists store_lists /\
  divisions (snd (update_list_items 1 [IInt 4] store_lists)) = divisions store_lists.
Proof.
  assert (H : update_list_items 1 [IInt 4] store_lists =
    (Ok tt, snd (update_list_items 1 [IInt 4] store_lists))) by reflexivity.
  assert (Hne : 2 <> 1) by lia.
  split; [exact H|]. split; [exact Hne|].
  exact (update_list_items_isolated 1 2 [IInt 4] store_lists _ (Ok tt) H Hne).
Defined.

Lemma find_filter_keep {A} (f g : A -> bool) (l : list A) :
  (forall x, f x = true -> g x = true) -> find f (filter g l) = find f l.
Proof.
  intros H. induction l as [|a t IH]; simpl; [reflexivity|].
  destruct (g a) eqn:Eg; simpl.
  - destruct (f a); [reflexivity|exact IH].
  - destruct (f a) eqn:Ef; [rewrite (H a Ef) in Eg; discriminate|exact IH].
Qed.

Lemma flat_map_filter_drop {A B} (f : A -> list B) (g : A -> bool) (l : list A) :
  (forall x, g x = false -> f x = []) -> flat_map f (filter g l) = flat_map f l.
Proof.
  intros H. induction l as [|a t IH]; simpl; [reflexivity|].
  destruct (g a) eqn:Eg; simpl; rewrite IH; [reflexivity|]. rewrite (H a Eg). reflexivity.
Qed.

(** X8: after [delete_list list_id], [get_list list_id] finds nothing
    and [get_list_items list_id] is empty; every other list reads back,
    with its items, as before. *)
Theorem delete_list_then_read (scan : forall A : Type, list A -> list A) (s : store)
    (list_id : Z) :
  fst (delete_list list_id s) = Ok tt /\
  fst (get_list list_id (snd (delete_list list_id s))) = Ok None /\
  fst (get_list_items scan list_id (snd (delete_list list_id s))) = Ok [] /\
  forall other, other <> list_id ->
    fst (get_list other (snd (delete_list list_id s))) = fst (get_list other s) /\
    fst (get_list_items scan other (snd (delete_list list_id s))) =
      fst (get_list_items scan other s).
Proof.
  assert (Hnone : find (fun l => l_id l =? list_id)
                    (filter (fun l => negb (l_id l =? list_id)) (lists s)) = None).
  { apply find_none_forall. intros x Hx. apply filter_In in Hx.
    destruct Hx as [_ Hx]. destruct (l_id x =? list_id); [discriminate|reflexivity]. }
  split; [reflexivity|]. split.
  { cbv beta iota delta [get_list delete_list bind get put ret fst snd].
    cbn [lists]. rewrite Hnone. reflexivity. }
  split.
  { cbv beta iota delta [get_list_items get_list delete_list bind get put ret fst snd].
    cbn [lists]. rewrite Hnone. reflexivity. }
  intros other Hne.
  assert (Hkeep : forall x : Z, (x =? other) = true -> negb (x =? list_id) = true).
  { intros x Hx. apply Z.eqb_eq in Hx. subst x. apply negb_true_iff, Z.eqb_neq. exact Hne. }
  assert (Hfind : find (fun l => l_id l =? other)
                    (filter (fun l => negb (l_id l =? list_id)) (lists s)) =
                  find (fun l => l_id l =? other) (lists s))
    by (apply find_filter_keep; intros x; apply Hkeep).
  split.
  - cbv beta iota delta [get_list delete_list bind get put ret fst snd].
    cbn [lists]. rewrite Hfind. reflexivity.
  - cbv beta iota delta [get_list_items get_list delete_list bind get put ret fst snd].
    cbn [lists]. rewrite Hfind.
    destruct (find (fun l => l_id l =? other) (lists s)) as [l|]; [|reflexivity].
    destruct (String.eqb (l_type l) "division").
    + unfold join_list_divisions. cbn [list_divisions divisions].
      rewrite flat_map_filter_drop; [reflexivity|].
      intros p Hp. destruct (fst p =? other) eqn:E; [|reflexivity].
      change (negb (fst p =? list_id) = false) in Hp. rewrite (Hkeep _ E) in Hp. discriminate.
    + unfold select_list_clients. cbn [list_clients].
      rewrite flat_map_filter_drop; [reflexivity|].
      intros p Hp. destruct (fst p =? other) eqn:E; [|reflexivity].
      change (negb (fst p =? list_id) = false) in Hp. rewrite (Hkeep _ E) in Hp. discriminate.
Qed.

(** X9: deleting a list frees its name: [create_list] with the same name
    and type, and a non-empty item list whose items all exist (cached
    divisions, or mapped CRM accounts, see [item_ref_ok]), then succeeds.
    The [lists] table satisfies [lists_ok], and the deleted list's type is
    a valid one. *)
Theorem delete_list_frees_name (md5 : string -> string) (s : store) (l : list_row)
    (item_ids : list item) (notes : string) :
  lists_ok md5 (lists s) -> In l (lists s) -> item_ids <> [] ->
  (l_type l = "division" \/ l_type l = "client") ->
  forallb (item_ref_ok s (l_type l)) item_ids = true ->
  exists i s'', create_list md5 (l_name l) (l_type l) item_ids notes
                  (snd (delete_list (l_id l) s)) = (Ok i, s'').
Proof.
  intros (Hids & Hh & Hrows) Hl Hne Ht Hall.
  rewrite Forall_forall in Hrows. destruct (Hrows l Hl) as [_ Hhl].
  destruct item_ids as [|i0 ids']; [contradiction Hne; reflexivity|].
  assert (Hnone : find (fun x => String.eqb (l_hash x) (_compute_hash md5 (l_name l) (l_type l)))
                    (filter (fun x => negb (l_id x =? l_id l)) (lists s)) = None).
  { apply find_none_forall. intros x Hx. apply filter_In in Hx. destruct Hx as [Hx Hid].
    apply String.eqb_neq. intros Heq. rewrite <- Hhl in Heq.
    assert (x = l) by (exact (NoDup_map_same l_hash _ _ _ Hh Hx Hl Heq)). subst x.
    rewrite Z.eqb_refl in Hid. discriminate. }
  cbv beta iota zeta delta [create_list bind get ret raise check_duplicate_list put
                            delete_list].
  replace (negb (String.eqb (l_type l) "division" || String.eqb (l_type l) "client"))
    with false by (destruct Ht as [-> | ->]; reflexivity).
  cbn [snd lists]. rewrite Hnone. cbn [option_map truthy_id].
  rewrite executemany_insert_items_spec.
  change (item_ref_ok _ (l_type l)) with (item_ref_ok s (l_type l)). rewrite Hall.
  eexists; eexists; reflexivity.
Qed.

Lemma delete_list_frees_name_witness :
  exists i s'', create_list md5_id "East" "division" [IInt 5] ""
                  (snd (delete_list 2 store_two)) = (Ok i, s'').
Proof.
  assert (Hok : lists_ok md5_id (lists store_two)).
  { split; [|split]; [repeat constructor; simpl; intuition discriminate
                     | repeat constructor; simpl; intuition discriminate
                     | repeat constructor; lia]. }
  exact (delete_list_frees_name md5_id store_two
           (mk_list 2 "East" "division" "" (_compute_hash md5_id "East" "division"))
           [IInt 5] "" Hok (or_intror (or_introl eq_refl)) ltac:(discriminate)
           (or_introl eq_refl) eq_refl).
Defined.

Lemma save_division_grows (x name subtype country : string) (geometry : option string)
    (s : store) :
  exists i s1, save_division x name subtype country geometry s = (Ok i, s1) /\
    (exists ext, divisions s1 = divisions s ++ ext) /\
    lists s1 = lists s /\ list_divisions s1 = list_divisions s /\
    list_clients s1 = list_clients s /\
    exists d, In d (divisions s1) /\ d_system_id d = x /\ d_id d = i.
Proof.
  destruct (find (fun d => String.eqb (d_system_id d) x) (divisions s)) as [d|] eqn:Hf.
  - exists (d_id d), s. rewrite (save_division_cached _ _ _ _ _ _ _ Hf).
    pose proof (find_some _ _ Hf) as [Hin Hx]. apply String.eqb_eq in Hx.
    split; [reflexivity|]. split; [exists []; rewrite app_nil_r; reflexivity|].
    repeat split; [reflexivity..|]. exists d. auto.
  - eexists; eexists. rewrite (save_division_fresh _ _ _ _ _ _ Hf). split; [reflexivity|].
    cbn [divisions lists list_divisions list_clients set_divisions].
    split; [eexists; reflexivity|]. repeat split; [reflexivity..|].
    eexists. split; [apply in_or_app; right; left; reflexivity|]. auto.
Qed.

Lemma save_divisions_spec (bs : list boundary) :
  forall s, exists ids s1, save_divisions bs s = (Ok ids, s1) /\
    (exists ext, divisions s1 = divisions s ++ ext) /\
    lists s1 = lists s /\ list_divisions s1 = list_divisions s /\
    list_clients s1 = list_clients s /\
    Forall2 (fun b it => exists d, (In d (divisions s1) /\ d_system_id d = b_division_id b)
                                   /\ it = IInt (d_id d)) bs ids.
Proof.
  induction bs as [|b bs IH]; intros s.
  - exists [], s. split; [reflexivity|]. split; [exists []; rewrite app_nil_r; reflexivity|].
    repeat split; [reflexivity..|]. constructor.
  - destruct (save_division_grows (b_division_id b) (b_name b) (b_subtype b) (b_country b)
                (b_geometry b) s)
      as (i & sm & Hsd & [e1 He1] & Hl1 & Hd1 & Hc1 & d & Hd & Hx & Hi).
    destruct (IH sm) as (ids & s1 & Hrest & [e2 He2] & Hl2 & Hd2 & Hc2 & HF).
    exists (IInt i :: ids), s1.
    split.
    { cbn [save_divisions]. cbv beta iota delta [bind ret]. rewrite Hsd, Hrest. reflexivity. }
    split; [exists (e1 ++ e2); rewrite He2, He1, app_assoc; reflexivity|].
    split; [congruence|]. split; [congruence|]. split; [congruence|].
    constructor; [|exact HF].
    exists d. split; [|rewrite Hi; reflexivity]. split; [|exact Hx].
    rewrite He2. apply in_or_app. left. exact Hd.
Qed.

Lemma create_list_division_ok (md5 : string -> string) (s s' : store) (name notes : string)
    (ids : list item) (i : Z) :
  create_list md5 name "division" ids notes s = (Ok i, s') ->
  i = next_rowid (map l_id (lists s)) /\ divisions s' = divisions s /\
  lists s' = lists s ++ [mk_list i name "division" notes (_compute_hash md5 name "division")] /\
  list_divisions s' = list_divisions s ++ map (fun x => (i, x)) ids.
Proof.
  intros H. destruct ids as [|i0 ids']; [discriminate H|].
  cbv beta iota zeta delta [create_list bind get ret raise check_duplicate_list put] in H.
  change (String.eqb "division" "division") with true in H. cbn [negb orb] in H.
  destruct (truthy_id _); [discriminate H|].
  rewrite executemany_insert_items_spec in H.
  destruct (forallb _ _) eqn:Hall; [|discriminate H].
  rewrite ok_prefix_all in H by exact Hall. unfold add_items in H.
  change (String.eqb "division" "division") with true in H.
  injection H as <- <-. split; [reflexivity|]. split; [reflexivity|]. split; reflexivity.
Qed.

Lemma Forall2_item_ids (P : boundary -> division_row -> Prop) (bs : list boundary)
    (ids : list item) :
  Forall2 (fun b it => exists d, P b d /\ it = IInt (d_id d)) bs ids ->
  exists ds, Forall2 P bs ds /\ ids = map (fun d => IInt (d_id d)) ds.
Proof.
  induction 1 as [|b it bs ids (d & Hd & ->) _ (ds & HF & ->)].
  - exists []. split; [constructor|reflexivity].
  - exists (d :: ds). split; [constructor; assumption|reflexivity].
Qed.

Lemma filter_all_false {A} (f : A -> bool) (l : list A) :
  (forall x, In x l -> f x = false) -> filter f l = [].
Proof.
  induction l as [|a t IH]; simpl; intros H; [reflexivity|].
  rewrite (H a (or_introl eq_refl)). apply IH. auto.
Qed.

(** X10: the "Save List" block of the List Builder page is atomic.  When
    a division list with the chosen name exists, it raises the
    duplicate-list error naming that list, and the store is the one it
    started from: the divisions its loop cached are rolled back with it.
    The [lists] table satisfies [lists_ok]. *)
Theorem save_list_block_duplicate (md5 : string -> string) (s : store) (r : list_row)
    (description : string) (boundaries : list boundary) :
  lists_ok md5 (lists s) -> In r (lists s) -> l_type r = "division" -> boundaries <> [] ->
  save_list_block md5 (l_name r) description boundaries s =
    (Err (duplicate_list_error (l_name r) "division" (l_id r)), s).
Proof.
  intros (Hids & Hh & Hrows) Hr Ht Hne.
  rewrite Forall_forall in Hrows. destruct (Hrows r Hr) as [Hpos Hhr].
  destruct (save_divisions_spec boundaries s) as (ids & s1 & Hsd & _ & Hl & _ & _ & HF).
  assert (Hc : create_list md5 (l_name r) "division" ids description s1 =
               (Err (duplicate_list_error (l_name r) "division" (l_id r)), s1)).
  { destruct ids as [|i0 ids'].
    { destruct boundaries; [contradiction Hne; reflexivity|]. inversion HF. }
    cbv beta iota zeta delta [create_list bind get ret raise check_duplicate_list].
    change (String.eqb "division" "division") with true. cbn [negb orb].
    assert (Hhr' : l_hash r = _compute_hash md5 (l_name r) "division")
      by (rewrite Hhr, Ht; reflexivity).
    rewrite Hl, <- Hhr'.
    rewrite (find_unique_key l_hash (lists s) r Hh Hr).
    cbn [option_map truthy_id].
    destruct (l_id r =? 0) eqn:E0; [apply Z.eqb_eq in E0; lia|]. reflexivity. }
  unfold save_list_block, with_db. cbv beta iota delta [bind]. rewrite Hsd, Hc. reflexivity.
Qed.

Lemma save_list_block_duplicate_witness :
  save_list_block md5_id "West" "" [mk_boundary "FR" "France" "country" "FR" None] store_two =
    (Err (duplicate_list_error "West" "division" 1), store_two).
Proof.
  assert (Hok : lists_ok md5_id (lists store_two)).
  { split; [|split]; [repeat constructor; simpl; intuition discriminate
                     | repeat constructor; simpl; intuition discriminate
                     | repeat constructor; lia]. }
  exact (save_list_block_duplicate md5_id store_two
           (mk_list 1 "West" "division" "" (_compute_hash md5_id "West" "division"))
           "" [mk_boundary "FR" "France" "country" "FR" None] Hok (or_introl eq_refl)
           eq_refl ltac:(discriminate)).
Defined.

(** X11: when the "Save List" block succeeds with list id [i], every
    boundary has a cached division with its [division_id] as
    [system_id], and the junction rows of list [i] are the ids of those
    divisions, one per boundary, in the boundaries' order.  The store's
    junction rows reference existing lists ([items_ok]). *)
Theorem save_list_block_items (md5 : string -> string) (s s' : store)
    (name description : string) (boundaries : list boundary) (i : Z) :
  items_ok s ->
  save_list_block md5 name description boundaries s = (Ok i, s') ->
  exists ds, Forall2 (fun b d => In d (divisions s') /\ d_system_id d = b_division_id b)
               boundaries ds /\
    map snd (filter (fun p => fst p =? i) (list_divisions s')) =
      map (fun d => IInt (d_id d)) ds.
Proof.
  intros [Hd _] H.
  destruct (save_divisions_spec boundaries s) as (ids & s1 & Hsd & _ & Hl & Hld & _ & HF).
  unfold save_list_block, with_db in H. cbv beta iota delta [bind] in H. rewrite Hsd in H.
  destruct (create_list md5 name "division" ids description s1) as [[i'|e] s2] eqn:Hc;
    [|discriminate H].
  injection H as <- <-.
  apply create_list_division_ok in Hc. destruct Hc as (-> & Hdiv & _ & Hld2).
  destruct (Forall2_item_ids _ _ _ HF) as (ds & HF2 & ->).
  exists ds. rewrite Hdiv. split; [exact HF2|].
  rewrite Hld2, Hld, filter_app, filter_all_false, app_nil_l.
  - clear. induction ds as [|d ds IH]; simpl; [reflexivity|].
    rewrite Z.eqb_refl. simpl. rewrite IH. reflexivity.
  - intros p Hp. rewrite Forall_forall in Hd. apply Z.eqb_neq.
    pose proof (next_rowid_gt _ _ (Hd p Hp)). rewrite Hl. lia.
Qed.

Lemma save_list_block_items_witness :
  items_ok empty_store /\
  save_list_block md5_id "West" "" [mk_boundary "FR" "France" "country" "FR" None] empty_store
    = (Ok 1, snd (save_list_block md5_id "West" ""
                    [mk_boundary "FR" "France" "country" "FR" None] empty_store)) /\
  exists ds, Forall2 (fun b d => In d (divisions (snd (save_list_block md5_id "West" ""
                    [mk_boundary "FR" "France" "country" "FR" None] empty_store))) /\
                                 d_system_id d = b_division_id b)
               [mk_boundary "FR" "France" "country" "FR" None] ds /\
    map snd (filter (fun p => fst p =? 1) (list_divisions (snd (save_list_block md5_id "West" ""
                    [mk_boundary "FR" "France" "country" "FR" None] empty_store)))) =
      map (fun d => IInt (d_id d)) ds.
Proof.
  assert (Hok : items_ok empty_store) by (split; constructor).
  assert (H : save_list_block md5_id "West" "" [mk_boundary "FR" "France" "country" "FR" None]
                empty_store
    = (Ok 1, snd (save_list_block md5_id "West" ""
                    [mk_boundary "FR" "France" "country" "FR" None] empty_store)))
    by reflexivity.
  split; [exact Hok|]. split; [exact H|].
  exact (save_list_block_items md5_id empty_store _ "West" ""
           [mk_boundary "FR" "France" "country" "FR" None] 1 Hok H).
Defined.

(** X12: [get_relationships] reads the store only.  A truthy id gives
    the relationships where it is parent or child; [None] and [0] (falsy
    in Python) give every relationship, also those not touching
    division 0. *)
Theorem get_relationships_members (scan : forall A : Type, list A -> list A)
    (Hscan : forall A (l : list A), Permutation (scan A l) l)
    (s : store) (division_id : option Z) :
  exists res, get_relationships scan division_id s = (Ok res, s) /\
    forall r, In r res <->
      In r (relationships s) /\
      (division_id = None \/ division_id = Some 0 \/
       exists d, division_id = Some d /\
                 (r_parent_division_id r = d \/ r_child_division_id r = d)).
Proof.
  destruct division_id as [d|].
  - destruct (d =? 0) eqn:E.
    + apply Z.eqb_eq in E. subst d.
      exists (scan _ (relationships s)). split; [reflexivity|].
      intros r. rewrite (Permutation_In_iff _ _ r (Hscan _ _)). tauto.
    + exists (scan _ (filter (fun r => (r_parent_division_id r =? d) || (r_child_division_id r =? d))
                     (relationships s))).
      split; [unfold get_relationships, bind, get, ret; cbn [truthy_id]; rewrite E; reflexivity|].
      intros r. rewrite (Permutation_In_iff _ _ r (Hscan _ _)), filter_In, orb_true_iff,
        !Z.eqb_eq.
      apply Z.eqb_neq in E. split.
      * intros [Hr Hd]. split; [exact Hr|]. right. right. exists d. auto.
      * intros [Hr [Hn|[H0|(d' & Hd' & Hpc)]]]; [discriminate| congruence |].
        injection Hd' as <-. auto.
  - exists (scan _ (relationships s)). split; [reflexivity|].
    intros r. rewrite (Permutation_In_iff _ _ r (Hscan _ _)). tauto.
Qed.

Lemma filter_negb_existsb {A} (f : A -> bool) (l : list A) :
  existsb f l = false -> filter (fun x => negb (f x)) l = l.
Proof.
  induction l as [|a t IH]; simpl; [reflexivity|]. intros H.
  apply orb_false_iff in H. destruct H as [Ha Ht]. rewrite Ha. simpl. f_equal. exact (IH Ht).
Qed.

(** X13: adding a relationship that was not there and deleting it again
    gives back the store one started from (when the addition succeeds:
    both divisions are cached, see [add_relationship]). *)
Theorem add_then_delete_relationship (p c : Z) (t : string) (s s1 : store) :
  relationship_exists p c t (relationships s) = false ->
  add_relationship p c t s = (Ok tt, s1) ->
  delete_relationship p c t s1 = (Ok tt, s).
Proof.
  intros Hex H. unfold add_relationship in H.
  destruct (p =? c); [discriminate H|].
  cbv beta iota delta [bind get ret put] in H. rewrite Hex in H.
  destruct (negb (_ && _)); [discriminate H|]. injection H as <-.
  cbv beta iota delta [delete_relationship bind get put].
  cbn [relationships set_relationships]. rewrite filter_app.
  unfold relationship_exists in Hex. rewrite (filter_negb_existsb _ _ Hex).
  cbn [filter r_parent_division_id r_child_division_id r_relationship_type].
  rewrite !Z.eqb_refl, String.eqb_refl. cbn [andb negb]. rewrite app_nil_r.
  destruct s; reflexivity.
Qed.

Lemma add_then_delete_relationship_witness :
  relationship_exists 1 2 "reports_to" (relationships store_two) = false /\
  add_relationship 1 2 "reports_to" store_two =
    (Ok tt, snd (add_relationship 1 2 "reports_to" store_two)) /\
  delete_relationship 1 2 "reports_to" (snd (add_relationship 1 2 "reports_to" store_two)) =
    (Ok tt, store_two).
Proof.
  assert (H1 : relationship_exists 1 2 "reports_to" (relationships store_two) = false)
    by reflexivity.
  assert (H2 : add_relationship 1 2 "reports_to" store_two =
    (Ok tt, snd (add_relationship 1 2 "reports_to" store_two))) by reflexivity.
  split; [exact H1|]. split; [exact H2|].
  exact (add_then_delete_relationship 1 2 "reports_to" store_two _ H1 H2).
Defined.

(** The ids [get_organizational_descendants] returns: no id twice, and
    exactly the ends of the paths of [1] to [max 1 limit] edges of the
    type from the root. *)
Lemma org_descendants_reach (s : store) (root : Z) (t : string) (max_depth : option Z) :
  exists l, get_organizational_descendants root t max_depth s = (Ok l, s) /\
    NoDup l /\
    forall y, In y l <->
      exists k, (1 <= k <= Z.to_nat (Z.max 1 (org_depth_limit max_depth)))%nat /\
                walk (relationships s) t k root y.
Proof.
  set (L := org_depth_limit max_depth).
  set (base := children_of (relationships s) t root).
  exists (distinct (base ++ org_levels (relationships s) t L 1 base)).
  split; [reflexivity|].
  destruct (distinct_aux_spec (base ++ org_levels (relationships s) t L 1 base) [])
    as [Hnd Hin].
  split; [exact Hnd|]. intros y. unfold distinct. rewrite Hin, in_app_iff.
  unfold org_levels. rewrite org_levels_fuel_In. rewrite Nat.min_id. split.
  - intros [[Hb | (j & Hj & Hy)] _].
    + exists 1%nat. split; [lia|]. exists y. split; [exact Hb|reflexivity].
    + exists (S j). split; [lia|]. apply iter_children_walk in Hy.
      destruct Hy as (x & Hx & Hw). exists x. auto.
  - intros (k & Hk & Hw). split; [|simpl; tauto].
    destruct k as [|[|j]]; [lia| |].
    + left. destruct Hw as (z & Hz & Hzy). simpl in Hzy. subst z. exact Hz.
    + right. exists (S j). split; [lia|]. apply iter_children_walk.
      destruct Hw as (z & Hz & Hw). exists z. auto.
Qed.

(** X14: after [add_relationship p c t] succeeds, [c] is among the
    descendants of [p] along [t], whatever [max_depth] is (also [0] or a
    negative one). *)
Theorem add_relationship_then_descendant (p c : Z) (t : string) (max_depth : option Z)
    (s s' : store) :
  add_relationship p c t s = (Ok tt, s') ->
  exists l, get_organizational_descendants p t max_depth s' = (Ok l, s') /\ In c l.
Proof.
  intros H.
  assert (Hc : In c (children_of (relationships s') t p)).
  { unfold add_relationship in H. destruct (p =? c); [discriminate H|].
    cbv beta iota delta [bind get ret put] in H.
    unfold children_of. apply in_map_iff.
    destruct (relationship_exists p c t (relationships s)) eqn:Hex;
      [injection H as <- | destruct (negb (_ && _)); [discriminate H|injection H as <-]].
    - unfold relationship_exists in Hex. apply existsb_exists in Hex.
      destruct Hex as (r & Hr & Hm). exists r.
      apply andb_true_iff in Hm. destruct Hm as [Hm Ht]. apply andb_true_iff in Hm.
      destruct Hm as [Hp Hc]. apply Z.eqb_eq in Hc. split; [exact Hc|].
      apply filter_In. split; [exact Hr|]. rewrite Hp, Ht. reflexivity.
    - exists (mk_relationship (next_rowid (map r_id (relationships s))) p c t).
      split; [|apply filter_In; split].
      + reflexivity.
      + cbn [relationships set_relationships]. apply in_or_app. right. left. reflexivity.
      + cbn [r_parent_division_id r_relationship_type].
        rewrite Z.eqb_refl, String.eqb_refl. reflexivity. }
  destruct (org_descendants_reach s' p t max_depth) as (l & Hl & _ & Hin).
  exists l. split; [exact Hl|]. apply Hin. exists 1%nat. split; [lia|].
  exists c. split; [exact Hc|reflexivity].
Qed.

Lemma add_relationship_then_descendant_witness :
  add_relationship 1 2 "reports_to" store_two =
    (Ok tt, snd (add_relationship 1 2 "reports_to" store_two)) /\
  exists l, get_organizational_descendants 1 "reports_to" (Some 0)
              (snd (add_relationship 1 2 "reports_to" store_two)) =
            (Ok l, snd (add_relationship 1 2 "reports_to" store_two)) /\ In 2 l.
Proof.
  assert (H : add_relationship 1 2 "reports_to" store_two =
    (Ok tt, snd (add_relationship 1 2 "reports_to" store_two))) by reflexivity.
  split; [exact H|].
  exact (add_relationship_then_descendant 1 2 "reports_to" (Some 0) store_two _ H).
Defined.

(** X15: a larger depth limit never loses a descendant: with
    [max_depth] limits [org_depth_limit md1 <= org_depth_limit md2]
    ([None] counting as 999), every id of the first call is in the
    second. *)
Theorem org_descendants_monotone (s : store) (root : Z) (t : string)
    (md1 md2 : option Z) (l1 l2 : list Z) :
  org_depth_limit md1 <= org_depth_limit md2 ->
  fst (get_organizational_descendants root t md1 s) = Ok l1 ->
  fst (get_organizational_descendants root t md2 s) = Ok l2 ->
  incl l1 l2.
Proof.
  intros Hle H1 H2 y Hy.
  destruct (org_descendants_reach s root t md1) as (l1' & E1 & _ & Hin1).
  destruct (org_descendants_reach s root t md2) as (l2' & E2 & _ & Hin2).
  rewrite E1 in H1. rewrite E2 in H2. cbn [fst] in H1, H2.
  injection H1 as <-. injection H2 as <-.
  apply Hin2. apply Hin1 in Hy. destruct Hy as (k & Hk & Hw).
  exists k. split; [lia|exact Hw].
Qed.

Lemma org_descendants_monotone_witness :
  org_depth_limit (Some 1) <= org_depth_limit None /\
  fst (get_organizational_descendants 1 "reports_to" (Some 1) store_chain) = Ok [2] /\
  fst (get_organizational_descendants 1 "reports_to" None store_chain) = Ok [2; 3] /\
  incl [2] [2; 3].
Proof.
  assert (H0 : org_depth_limit (Some 1) <= org_depth_limit None) by (simpl; lia).
  assert (H1 : fst (get_organizational_descendants 1 "reports_to" (Some 1) store_chain) = Ok [2])
    by (vm_compute; reflexivity).
  assert (H2 : fst (get_organizational_descendants 1 "reports_to" None store_chain) = Ok [2; 3])
    by (vm_compute; reflexivity).
  split; [exact H0|]. split; [exact H1|]. split; [exact H2|].
  exact (org_descendants_monotone store_chain 1 "reports_to" (Some 1) None [2] [2; 3] H0 H1 H2).
Defined.

Lemma existsb_false_forall {A} (f : A -> bool) (l : list A) :
  existsb f l = false -> forall x, In x l -> f x = false.
Proof.
  intros H x Hx. destruct (f x) eqn:Ef; [|reflexivity].
  assert (existsb f l = true) by (apply existsb_exists; exists x; auto). congruence.
Qed.



(** X17: when no client-list item names [system_id], [delete_mapping
    system_id] succeeds; after it the mapping of [system_id] is gone, and
    the lookup of every other system id answers as before.  When a
    client-list item names a mapped [system_id], the call raises the
    foreign-key error and writes nothing. *)
Theorem delete_mapping_then_get (system_id : string) (s : store) :
  (existsb (fun p => item_eqb (snd p) (IStr system_id)) (list_clients s) = false ->
   exists s', delete_mapping system_id s = (Ok tt, s') /\
    get_mapping_by_system_id system_id s' = (Ok None, s') /\
    forall other, other <> system_id ->
      fst (get_mapping_by_system_id other s') = fst (get_mapping_by_system_id other s)) /\
  (existsb (fun p => item_eqb (snd p) (IStr system_id)) (list_clients s) = true ->
   existsb (fun m => String.eqb (m_system_id m) system_id) (crm_mappings s) = true ->
   delete_mapping system_id s = (Err fk_error, s)).
Proof.
  split; cycle 1.
  { intros H1 H2. cbv beta iota delta [delete_mapping bind get put raise ret].
    rewrite H1, H2. reflexivity. }
  intros Hno.
  exists (set_crm_mappings s
            (filter (fun m => negb (String.eqb (m_system_id m) system_id)) (crm_mappings s))).
  split; [cbv beta iota delta [delete_mapping bind get put raise ret]; rewrite Hno; reflexivity|].
  unfold get_mapping_by_system_id. cbv beta iota delta [bind get ret].
  cbn [crm_mappings set_crm_mappings fst]. split.
  - rewrite find_none_forall; [reflexivity|]. intros x Hx.
    apply filter_In in Hx. destruct Hx as [_ Hx].
    destruct (String.eqb (m_system_id x) system_id); [discriminate Hx|reflexivity].
  - intros other Ho. rewrite find_filter_keep; [reflexivity|].
    intros x Hx. apply String.eqb_eq in Hx. rewrite Hx.
    apply String.eqb_neq in Ho. rewrite Ho. reflexivity.
Qed.

Lemma fold_max_ge (l : list Z) (x : Z) : In x l -> x <= fold_right Z.max 0 l.
Proof.
  induction l as [|a t IH]; cbn [In fold_right]; [tauto|].
  intros [<-|Hx]; [lia|]. specialize (IH Hx). lia.
Qed.

(** X18: [CRMMappingStorage.add_mapping] either inserts the mapping,
    which both lookups then return (through [parse_row]) and which adds
    one to [get_count], or fails with the table and the [AUTOINCREMENT]
    counter unchanged because a stored mapping already has the system id
    or the division id.  The geometry is stored as [json.dumps(geometry)
    if geometry else None] ([dumps_if_truthy]).  The id of an inserted
    mapping is larger than every id of the table and than the counter
    (an id is never reused), and becomes the new counter. *)
Theorem crm_add_mapping_then_get (json_loads : string -> option string)
    (sid acc lvl did dn st c : string) (g : option string) (seq : Z)
    (table : list CRMMappingStorage.mapping) :
  match CRMMappingStorage.add_mapping sid acc lvl did dn st c g seq table with
  | (Ok _, (seq', table')) =>
      exists id, seq < id /\ seq' = id /\
        (forall m, In m table -> CRMMappingStorage.mp_id m < id) /\
        let m := CRMMappingStorage.mk id sid acc lvl did dn st c (dumps_if_truthy g) in
        CRMMappingStorage.get_mapping_by_system_id json_loads sid table'
          = Some (CRMMappingStorage.parse_row json_loads m) /\
        CRMMappingStorage.get_mapping_by_division_id json_loads did table'
          = Some (CRMMappingStorage.parse_row json_loads m) /\
        CRMMappingStorage.get_count table' = S (CRMMappingStorage.get_count table)
  | (Err _, (seq', table')) =>
      seq' = seq /\ table' = table /\
      exists m, In m table /\
        (CRMMappingStorage.mp_system_id m = sid \/ CRMMappingStorage.mp_division_id m = did)
  end.
Proof.
  unfold CRMMappingStorage.add_mapping.
  destruct (existsb (fun m => String.eqb (CRMMappingStorage.mp_system_id m) sid) table) eqn:E1.
  - split; [reflexivity|]. split; [reflexivity|].
    apply existsb_exists in E1. destruct E1 as (m & Hm & Es).
    exists m. split; [exact Hm|]. left. apply String.eqb_eq. exact Es.
  - destruct (existsb (fun m => String.eqb (CRMMappingStorage.mp_division_id m) did) table)
      eqn:E2.
    + split; [reflexivity|]. split; [reflexivity|].
      apply existsb_exists in E2. destruct E2 as (m & Hm & Ed).
      exists m. split; [exact Hm|]. right. apply String.eqb_eq. exact Ed.
    + exists (Z.max seq (fold_right Z.max 0 (map CRMMappingStorage.mp_id table)) + 1).
      split; [lia|]. split; [reflexivity|]. split.
      { intros m Hm. pose proof (fold_max_ge _ _ (in_map CRMMappingStorage.mp_id _ _ Hm)).
        lia. }
      cbv zeta.
      unfold CRMMappingStorage.get_mapping_by_system_id,
        CRMMappingStorage.get_mapping_by_division_id, CRMMappingStorage.get_count.
      rewrite !find_app_none.
      * cbn [find CRMMappingStorage.mp_system_id CRMMappingStorage.mp_division_id].
        rewrite !String.eqb_refl. rewrite length_app. cbn [List.length option_map].
        repeat split; lia.
      * apply find_none_forall. exact (existsb_false_forall _ _ E2).
      * apply find_none_forall. exact (existsb_false_forall _ _ E1).
Qed.

Lemma length_filter_lt {A} (f : A -> bool) (l : list A) :
  (List.length (filter f l) < List.length l)%nat <-> exists x, In x l /\ f x = false.
Proof.
  induction l as [|a t IH]; simpl.
  - split; [lia|]. intros (x & [] & _).
  - assert (Hle : (List.length (filter f t) <= List.length t)%nat)
      by (clear; induction t as [|b t IH]; simpl; [lia|destruct (f b); simpl; lia]).
    destruct (f a) eqn:Ea; simpl.
    + rewrite <- Nat.succ_lt_mono, IH. split.
      * intros (x & Hx & Hf). exists x. auto.
      * intros (x & [<-|Hx] & Hf); [congruence|]. exists x. auto.
    + split; [intros _; exists a; auto|lia].
Qed.

Lemma rowcount_positive {A} (f : A -> bool) (l : list A) :
  Nat.ltb 0 (List.length l - List.length (filter f l)) = true <->
  exists x, In x l /\ f x = false.
Proof.
  rewrite <- length_filter_lt, Nat.ltb_lt.
  assert (Hle : (List.length (filter f l) <= List.length l)%nat)
    by (clear; induction l as [|b t IH]; simpl; [lia|destruct (f b); simpl; lia]).
  lia.
Qed.

(** X19: the deletes of [CRMMappingStorage] report whether they deleted
    something.  [delete_mapping id] returns [true] exactly when a
    mapping had that id, and keeps exactly the mappings with another id;
    [delete_mapping_by_system_id] returns [true] exactly when a mapping
    had that system id, after which that system id is not found and the
    other system ids read back as before. *)
Theorem crm_deletes_report (json_loads : string -> option string)
    (table : list CRMMappingStorage.mapping) (mapping_id : Z) (system_id : string) :
  (let '(ok, table') := CRMMappingStorage.delete_mapping mapping_id table in
   (ok = true <-> exists m, In m table /\ CRMMappingStorage.mp_id m = mapping_id) /\
   (forall m, In m table' <-> In m table /\ CRMMappingStorage.mp_id m <> mapping_id)) /\
  (let '(ok, table') := CRMMappingStorage.delete_mapping_by_system_id system_id table in
   (ok = true <-> exists m, In m table /\ CRMMappingStorage.mp_system_id m = system_id) /\
   CRMMappingStorage.get_mapping_by_system_id json_loads system_id table' = None /\
   forall other, other <> system_id ->
     CRMMappingStorage.get_mapping_by_system_id json_loads other table'
     = CRMMappingStorage.get_mapping_by_system_id json_loads other table).
Proof.
  unfold CRMMappingStorage.delete_mapping, CRMMappingStorage.delete_mapping_by_system_id.
  cbv zeta. split; split.
  - rewrite rowcount_positive. split; intros (m & Hm & Hf); exists m; split; auto.
    + destruct (CRMMappingStorage.mp_id m =? mapping_id) eqn:E; [|discriminate Hf].
      apply Z.eqb_eq. exact E.
    + rewrite Hf, Z.eqb_refl. reflexivity.
  - intros m. rewrite filter_In, negb_true_iff, Z.eqb_neq. reflexivity.
  - rewrite rowcount_positive. split; intros (m & Hm & Hf); exists m; split; auto.
    + destruct (String.eqb (CRMMappingStorage.mp_system_id m) system_id) eqn:E;
        [|discriminate Hf].
      apply String.eqb_eq. exact E.
    + rewrite Hf, String.eqb_refl. reflexivity.
  - unfold CRMMappingStorage.get_mapping_by_system_id. split.
    + rewrite find_none_forall; [reflexivity|]. intros x Hx.
      apply filter_In in Hx. destruct Hx as [_ Hx].
      destruct (String.eqb (CRMMappingStorage.mp_system_id x) system_id);
        [discriminate Hx|reflexivity].
    + intros other Ho. rewrite find_filter_keep; [reflexivity|].
      intros x Hx. apply String.eqb_eq in Hx. rewrite Hx.
      apply String.eqb_neq in Ho. rewrite Ho. reflexivity.
Qed.

(** X20: [CRMMappingStorage.add_mapping] keeps the system ids and the
    division ids of the table distinct, as the [UNIQUE] constraints of
    [_init_database] require. *)
Theorem crm_add_mapping_keeps_unique (sid acc lvl did dn st c : string) (g : option string)
    (seq : Z) (table : list CRMMappingStorage.mapping) :
  NoDup (map CRMMappingStorage.mp_system_id table) ->
  NoDup (map CRMMappingStorage.mp_division_id table) ->
  let table' := snd (snd (CRMMappingStorage.add_mapping sid acc lvl did dn st c g seq table)) in
  NoDup (map CRMMappingStorage.mp_system_id table') /\
  NoDup (map CRMMappingStorage.mp_division_id table').
Proof.
  intros Hs Hd. cbv zeta. unfold CRMMappingStorage.add_mapping.
  destruct (existsb (fun m => String.eqb (CRMMappingStorage.mp_system_id m) sid) table) eqn:E1;
    [split; assumption|].
  destruct (existsb (fun m => String.eqb (CRMMappingStorage.mp_division_id m) did) table) eqn:E2;
    [split; assumption|].
  cbn [snd]. rewrite !map_app. cbn [map CRMMappingStorage.mp_system_id
    CRMMappingStorage.mp_division_id].
  split; apply NoDup_app_single; auto; intros Hin; apply in_map_iff in Hin;
    destruct Hin as (m & Hm & Hin).
  - pose proof (existsb_false_forall _ _ E1 m Hin) as E. cbv beta in E.
    rewrite Hm, String.eqb_refl in E. discriminate E.
  - pose proof (existsb_false_forall _ _ E2 m Hin) as E. cbv beta in E.
    rewrite Hm, String.eqb_refl in E. discriminate E.
Qed.

Lemma crm_add_mapping_keeps_unique_witness :
  NoDup (map CRMMappingStorage.mp_system_id [CRMMappingStorage.mk 1 "X" "Acme" "" "d1" "" "" "" None]) /\
  NoDup (map CRMMappingStorage.mp_division_id [CRMMappingStorage.mk 1 "X" "Acme" "" "d1" "" "" "" None]) /\
  let table' := snd (snd (CRMMappingStorage.add_mapping "Y" "Beta" "" "d2" "" "" "" None 1
                   [CRMMappingStorage.mk 1 "X" "Acme" "" "d1" "" "" "" None])) in
  NoDup (map CRMMappingStorage.mp_system_id table') /\
  NoDup (map CRMMappingStorage.mp_division_id table').
Proof.
  assert (Hs : NoDup (map CRMMappingStorage.mp_system_id
                 [CRMMappingStorage.mk 1 "X" "Acme" "" "d1" "" "" "" None]))
    by (repeat constructor; simpl; tauto).
  assert (Hd : NoDup (map CRMMappingStorage.mp_division_id
                 [CRMMappingStorage.mk 1 "X" "Acme" "" "d1" "" "" "" None]))
    by (repeat constructor; simpl; tauto).
  split; [exact Hs|]. split; [exact Hd|].
  exact (crm_add_mapping_keeps_unique "Y" "Beta" "" "d2" "" "" "" None 1 _ Hs Hd).
Defined.

(** ** Query results: order, limits and membership *)

Lemma insert_string_perm (x : string) (l : list string) :
  Permutation (QueryEngine.insert_string x l) (x :: l).
Proof.
  induction l as [|y t IH]; simpl; [reflexivity|].
  destruct (String.leb y x); [|reflexivity].
  rewrite IH. apply perm_swap.
Qed.

Lemma insert_string_sorted (x : string) (l : list string) :
  Sorted (fun a b => String.leb a b = true) l ->
  Sorted (fun a b => String.leb a b = true) (QueryEngine.insert_string x l).
Proof.
  induction l as [|y t IH]; intros H; simpl; [repeat constructor|].
  destruct (String.leb y x) eqn:E.
  - inversion H as [|? ? Ht Hhd]; subst. constructor; [exact (IH Ht)|].
    destruct t as [|z t']; simpl; [constructor; exact E|].
    destruct (String.leb z x); constructor; [inversion Hhd; assumption | exact E].
  - constructor; [exact H|]. constructor.
    destruct (String.leb_total x y) as [Hxy|Hyx]; [exact Hxy|congruence].
Qed.

Lemma distinct_strings_spec (l : list string) :
  NoDup (QueryEngine.distinct_strings l) /\
  forall x, In x (QueryEngine.distinct_strings l) <-> In x l.
Proof.
  induction l as [|a t [Hnd Hin]]; simpl; [split; [constructor|tauto]|].
  destruct (existsb (String.eqb a) t) eqn:E.
  - split; [exact Hnd|]. intros x. rewrite Hin. split; [tauto|].
    intros [<-|Hx]; [|exact Hx]. apply existsb_exists in E.
    destruct E as (y & Hy & Eq). apply String.eqb_eq in Eq. subst y. exact Hy.
  - split.
    + constructor; [|exact Hnd]. rewrite Hin. intros Ha.
      pose proof (existsb_false_forall _ _ E a Ha) as Eq.
      rewrite String.eqb_refl in Eq. discriminate Eq.
    + intros x. simpl. rewrite Hin. reflexivity.
Qed.

(** What [SELECT DISTINCT ... ORDER BY] returns: sorted, no value twice,
    exactly the values of the column. *)
Lemma sorted_distinct_spec (l : list string) :
  NoDup (QueryEngine.sorted_distinct l) /\
  Sorted (fun a b => String.leb a b = true) (QueryEngine.sorted_distinct l) /\
  forall x, In x (QueryEngine.sorted_distinct l) <-> In x l.
Proof.
  destruct (distinct_strings_spec l) as [Hnd Hin].
  unfold QueryEngine.sorted_distinct.
  assert (Hp : forall m, Permutation (fold_right QueryEngine.insert_string [] m) m).
  { induction m as [|a t IH]; simpl; [reflexivity|].
    rewrite insert_string_perm. constructor. exact IH. }
  split; [|split].
  - apply (Permutation_NoDup (Permutation_sym (Hp _))). exact Hnd.
  - clear. induction (QueryEngine.distinct_strings l) as [|a t IH]; simpl; [constructor|].
    apply insert_string_sorted. exact IH.
  - intros x. rewrite (Permutation_In_iff _ _ x (Hp _)). exact (Hin x).
Qed.

Lemma somes_In (l : list (option string)) (x : string) :
  In x (QueryEngine.somes l) <-> In (Some x) l.
Proof.
  unfold QueryEngine.somes. rewrite in_flat_map. split.
  - intros ([y|] & Hy & Hx); [destruct Hx as [<-|[]]; exact Hy | destruct Hx].
  - intros H. exists (Some x). split; [exact H|left; reflexivity].
Qed.

Lemma opt_eqb_true (a : option string) (b : string) :
  QueryEngine.opt_eqb a b = true <-> a = Some b.
Proof.
  destruct a as [x|]; simpl; [rewrite String.eqb_eq; split; congruence|].
  split; discriminate.
Qed.

(** The bodies of [get_countries] and [get_subtypes] over readable data. *)
Lemma countries_and_subtypes_body (e : QueryEngine.engine) (fs : QueryEngine.files)
    (rows : list QueryEngine.division_record)
    (Hread : fs (QueryEngine.parquet_path e) = QueryEngine.Readable rows) (c : string) :
  let cs := fst (QueryEngine.get_countries e fs) in
  let ss := fst (QueryEngine.get_subtypes e fs c) in
  snd (QueryEngine.get_countries e fs) = [] /\ snd (QueryEngine.get_subtypes e fs c) = [] /\
  NoDup cs /\ Sorted (fun a b => String.leb a b = true) cs /\
  (forall x, In x cs <-> exists r, In r rows /\ QueryEngine.country r = Some x) /\
  NoDup ss /\ Sorted (fun a b => String.leb a b = true) ss /\
  (forall x, In x ss <-> exists r, In r rows /\ QueryEngine.country r = Some c /\
                                 QueryEngine.class r = Some "land" /\
                                 QueryEngine.subtype r = Some x).
Proof.
  unfold QueryEngine.get_countries, QueryEngine.get_subtypes, QueryEngine.run_query.
  rewrite Hread. cbv zeta. cbn [fst snd].
  destruct (sorted_distinct_spec (QueryEngine.somes (map QueryEngine.country rows)))
    as (Hnd1 & Hs1 & Hin1).
  destruct (sorted_distinct_spec (QueryEngine.somes (map QueryEngine.subtype
    (filter (fun r => QueryEngine.opt_eqb (QueryEngine.country r) c && QueryEngine.is_land r)
       rows)))) as (Hnd2 & Hs2 & Hin2).
  repeat split; auto.
  - intros Hx. apply Hin1, somes_In, in_map_iff in Hx. destruct Hx as (r & Hr & Hin).
    exists r. auto.
  - intros (r & Hr & Hc). apply Hin1, somes_In, in_map_iff. exists r. auto.
  - intros Hx. apply Hin2, somes_In, in_map_iff in Hx. destruct Hx as (r & Hr & Hin).
    apply filter_In in Hin. destruct Hin as [Hin Hp]. apply andb_true_iff in Hp.
    unfold QueryEngine.is_land in Hp. rewrite !opt_eqb_true in Hp.
    exists r. tauto.
  - intros (r & Hin & Hc & Hl & Hr). apply Hin2, somes_In, in_map_iff. exists r.
    split; [exact Hr|]. apply filter_In. split; [exact Hin|].
    unfold QueryEngine.is_land. rewrite Hc, Hl. simpl. rewrite !String.eqb_refl. reflexivity.
Qed.

(** X21: with a readable dataset, a call of the decorated
    [get_countries] that misses the cache (no entry stored less than an
    hour before) returns without error the distinct non-NULL countries in
    ascending order, and such a call of [get_subtypes c] the distinct
    non-NULL subtypes of the land divisions of [c], in ascending order.
    (A call that hits the cache returns the stored value, see C2.) *)
Theorem countries_and_subtypes_sorted (replayed : list string -> list string)
    (e : QueryEngine.engine) (fs : QueryEngine.files)
    (rows : list QueryEngine.division_record)
    (Hread : fs (QueryEngine.parquet_path e) = QueryEngine.Readable rows)
    (now : Z) (cs : QueryEngine.caches) (c : string)
    (Hm1 : QueryEngine.cache_lookup QueryEngine.unit_eqb now tt (QueryEngine.c_countries cs)
             = None)
    (Hm2 : QueryEngine.cache_lookup String.eqb now c (QueryEngine.c_subtypes cs) = None) :
  let oc := fst (QueryEngine.st_get_countries replayed e fs now cs) in
  let os := fst (QueryEngine.st_get_subtypes replayed e fs now c cs) in
  let cl := fst oc in
  let ss := fst os in
  snd oc = [] /\ snd os = [] /\
  NoDup cl /\ Sorted (fun a b => String.leb a b = true) cl /\
  (forall x, In x cl <-> exists r, In r rows /\ QueryEngine.country r = Some x) /\
  NoDup ss /\ Sorted (fun a b => String.leb a b = true) ss /\
  (forall x, In x ss <-> exists r, In r rows /\ QueryEngine.country r = Some c /\
                                 QueryEngine.class r = Some "land" /\
                                 QueryEngine.subtype r = Some x).
Proof.
  unfold QueryEngine.st_get_countries, QueryEngine.st_get_subtypes.
  rewrite (cache_data_miss _ _ _ _ _ _ _ _ Hm1), (cache_data_miss _ _ _ _ _ _ _ _ Hm2).
  cbn [fst]. exact (countries_and_subtypes_body e fs rows Hread c).
Qed.

Lemma countries_and_subtypes_sorted_witness :
  us_files (QueryEngine.parquet_path us_engine) = QueryEngine.Readable us_rows /\
  fst (fst (QueryEngine.st_get_countries (fun m => m) us_engine us_files 0
              QueryEngine.no_caches)) = ["US"] /\
  fst (fst (QueryEngine.st_get_subtypes (fun m => m) us_engine us_files 0 "US"
              QueryEngine.no_caches)) = ["country"; "county"; "region"] /\
  NoDup (fst (fst (QueryEngine.st_get_subtypes (fun m => m) us_engine us_files 0 "US"
                     QueryEngine.no_caches))).
Proof.
  assert (H : us_files (QueryEngine.parquet_path us_engine) = QueryEngine.Readable us_rows)
    by reflexivity.
  split; [exact H|]. split; [vm_compute; reflexivity|]. split; [vm_compute; reflexivity|].
  exact (proj1 (proj2 (proj2 (proj2 (proj2 (proj2
    (countries_and_subtypes_sorted (fun m => m) us_engine us_files us_rows H 0
       QueryEngine.no_caches "US" eq_refl eq_refl))))))).
Defined.

Definition name_order (a b : QueryEngine.df_row) : Prop :=
  QueryEngine.name_le (QueryEngine.name a) (QueryEngine.name b) = true.

Lemma name_le_total (a b : option string) :
  QueryEngine.name_le a b = false -> QueryEngine.name_le b a = true.
Proof.
  destruct a as [x|], b as [y|]; simpl; try discriminate; [|reflexivity].
  intros E. destruct (String.leb_total x y); congruence.
Qed.

Lemma insert_by_name_sorted (r : QueryEngine.df_row) (l : list QueryEngine.df_row) :
  Sorted name_order l -> Sorted name_order (QueryEngine.insert_by_name r l).
Proof.
  unfold name_order.
  induction l as [|y t IH]; intros H; simpl; [repeat constructor|].
  destruct (QueryEngine.name_le (QueryEngine.name y) (QueryEngine.name r)) eqn:E.
  - inversion H as [|? ? Ht Hhd]; subst. constructor; [exact (IH Ht)|].
    destruct t as [|z t']; simpl; [constructor; exact E|].
    destruct (QueryEngine.name_le (QueryEngine.name z) (QueryEngine.name r));
      constructor; [inversion Hhd; assumption | exact E].
  - constructor; [exact H|]. constructor. exact (name_le_total _ _ E).
Qed.

Lemma order_by_name_sorted (l : list QueryEngine.df_row) :
  Sorted name_order (QueryEngine.order_by_name l).
Proof.
  induction l as [|a t IH]; simpl; [constructor|]. apply insert_by_name_sorted. exact IH.
Qed.

Lemma Sorted_firstn {A} (R : A -> A -> Prop) (n : nat) (l : list A) :
  Sorted R l -> Sorted R (firstn n l).
Proof.
  revert n. induction l as [|a t IH]; intros n H; destruct n; simpl; try (constructor; fail).
  inversion H as [|? ? Ht Hhd]; subst. constructor; [exact (IH n Ht)|].
  destruct t as [|b t'], n; simpl; constructor. inversion Hhd. assumption.
Qed.

(** A query [ORDER BY name LIMIT n] over the records selected by [p]. *)
Lemma limited_query (n : nat) (p : QueryEngine.division_record -> bool)
    (rows : list QueryEngine.division_record) :
  let res := firstn n (QueryEngine.order_by_name (map QueryEngine.to_df (filter p rows))) in
  (List.length res <= n)%nat /\ Sorted name_order res /\
  (forall d, In d res -> exists r, In r rows /\ p r = true /\ d = QueryEngine.to_df r) /\
  ((List.length res < n)%nat -> forall r, In r rows -> p r = true -> In (QueryEngine.to_df r) res).
Proof.
  cbv zeta. set (l := QueryEngine.order_by_name (map QueryEngine.to_df (filter p rows))).
  assert (Hl : forall d, In d l <-> In d (map QueryEngine.to_df (filter p rows)))
    by (intros d; exact (Permutation_In_iff _ _ d (order_by_name_perm _))).
  split; [apply firstn_le_length|]. split; [apply Sorted_firstn, order_by_name_sorted|].
  split.
  - intros d Hd. assert (Hd' : In d l).
    { rewrite <- (firstn_skipn n l). apply in_or_app. left. exact Hd. }
    apply Hl, in_map_iff in Hd'. destruct Hd' as (r & <- & Hr).
    apply filter_In in Hr. exists r. tauto.
  - intros Hlt r Hr Hp. rewrite length_firstn in Hlt.
    rewrite firstn_all2 by lia. apply Hl, in_map_iff. exists r.
    split; [reflexivity|]. apply filter_In. auto.
Qed.

(** The bodies of [get_top_level_divisions] and [get_child_divisions]
    over readable data. *)
Lemma division_levels_body (e : QueryEngine.engine) (fs : QueryEngine.files)
    (rows : list QueryEngine.division_record)
    (Hread : fs (QueryEngine.parquet_path e) = QueryEngine.Readable rows) (c parent : string) :
  (let res := fst (QueryEngine.get_top_level_divisions e fs c) in
   snd (QueryEngine.get_top_level_divisions e fs c) = [] /\
   (List.length res <= 1000)%nat /\ Sorted name_order res /\
   (forall d, In d res -> exists r, In r rows /\ d = QueryEngine.to_df r /\
      QueryEngine.country r = Some c /\ QueryEngine.class r = Some "land" /\
      QueryEngine.parent_division_id r = None) /\
   (forall r, In r rows -> QueryEngine.country r = Some c -> QueryEngine.class r = Some "land" ->
      QueryEngine.parent_division_id r = None -> (List.length res < 1000)%nat ->
      In (QueryEngine.to_df r) res)) /\
  (let res := fst (QueryEngine.get_child_divisions e fs parent) in
   snd (QueryEngine.get_child_divisions e fs parent) = [] /\
   (List.length res <= 1000)%nat /\ Sorted name_order res /\
   (forall d, In d res -> exists r, In r rows /\ d = QueryEngine.to_df r /\
      QueryEngine.parent_division_id r = Some parent /\ QueryEngine.class r = Some "land") /\
   (forall r, In r rows -> QueryEngine.parent_division_id r = Some parent ->
      QueryEngine.class r = Some "land" -> (List.length res < 1000)%nat ->
      In (QueryEngine.to_df r) res)).
Proof.
  unfold QueryEngine.get_top_level_divisions, QueryEngine.get_child_divisions,
    QueryEngine.run_query.
  rewrite Hread. cbv zeta. cbn [fst snd]. split.
  - match goal with |- context [firstn 1000 (QueryEngine.order_by_name
        (map QueryEngine.to_df (filter ?p rows)))] =>
      destruct (limited_query 1000 p rows) as (Hlen & Hs & Hsub & Hall) end.
    split; [reflexivity|]. split; [exact Hlen|]. split; [exact Hs|]. split.
    + intros d Hd. destruct (Hsub d Hd) as (r & Hr & Hp & ->). exists r.
      unfold QueryEngine.is_land in Hp. rewrite !andb_true_iff, !opt_eqb_true in Hp.
      destruct (QueryEngine.parent_division_id r); [destruct Hp as [_ Hp]; discriminate Hp|].
      tauto.
    + intros r Hr Hc Hl Hpa Hlt. apply Hall; [exact Hlt|exact Hr|].
      unfold QueryEngine.is_land. rewrite Hc, Hl, Hpa. cbn. rewrite !String.eqb_refl.
      reflexivity.
  - match goal with |- context [firstn 1000 (QueryEngine.order_by_name
        (map QueryEngine.to_df (filter ?p rows)))] =>
      destruct (limited_query 1000 p rows) as (Hlen & Hs & Hsub & Hall) end.
    split; [reflexivity|]. split; [exact Hlen|]. split; [exact Hs|]. split.
    + intros d Hd. destruct (Hsub d Hd) as (r & Hr & Hp & ->). exists r.
      unfold QueryEngine.is_land in Hp. rewrite !andb_true_iff, !opt_eqb_true in Hp.
      tauto.
    + intros r Hr Hpa Hl Hlt. apply Hall; [exact Hlt|exact Hr|].
      unfold QueryEngine.is_land. rewrite Hpa, Hl. cbn. rewrite !String.eqb_refl.
      reflexivity.
Qed.

(** X22: with a readable dataset, calls of the decorated
    [get_top_level_divisions c] and [get_child_divisions parent] that
    miss the cache return without error at most 1000 rows, ordered by
    name, each the row of a land division of [c] with no parent (resp. a
    land division whose parent is [parent]); when fewer than 1000 rows
    come back, every such division is among them. *)
Theorem division_levels_rows (replayed : list string -> list string)
    (e : QueryEngine.engine) (fs : QueryEngine.files)
    (rows : list QueryEngine.division_record)
    (Hread : fs (QueryEngine.parquet_path e) = QueryEngine.Readable rows)
    (now : Z) (cs : QueryEngine.caches) (c parent : string)
    (Hm1 : QueryEngine.cache_lookup String.eqb now c (QueryEngine.c_top_level cs) = None)
    (Hm2 : QueryEngine.cache_lookup String.eqb now parent (QueryEngine.c_child cs) = None) :
  (let o := fst (QueryEngine.st_get_top_level_divisions replayed e fs now c cs) in
   let res := fst o in
   snd o = [] /\
   (List.length res <= 1000)%nat /\ Sorted name_order res /\
   (forall d, In d res -> exists r, In r rows /\ d = QueryEngine.to_df r /\
      QueryEngine.country r = Some c /\ QueryEngine.class r = Some "land" /\
      QueryEngine.parent_division_id r = None) /\
   (forall r, In r rows -> QueryEngine.country r = Some c -> QueryEngine.class r = Some "land" ->
      QueryEngine.parent_division_id r = None -> (List.length res < 1000)%nat ->
      In (QueryEngine.to_df r) res)) /\
  (let o := fst (QueryEngine.st_get_child_divisions replayed e fs now parent cs) in
   let res := fst o in
   snd o = [] /\
   (List.length res <= 1000)%nat /\ Sorted name_order res /\
   (forall d, In d res -> exists r, In r rows /\ d = QueryEngine.to_df r /\
      QueryEngine.parent_division_id r = Some parent /\ QueryEngine.class r = Some "land") /\
   (forall r, In r rows -> QueryEngine.parent_division_id r = Some parent ->
      QueryEngine.class r = Some "land" -> (List.length res < 1000)%nat ->
      In (QueryEngine.to_df r) res)).
Proof.
  unfold QueryEngine.st_get_top_level_divisions, QueryEngine.st_get_child_divisions.
  rewrite (cache_data_miss _ _ _ _ _ _ _ _ Hm1), (cache_data_miss _ _ _ _ _ _ _ _ Hm2).
  cbn [fst]. exact (division_levels_body e fs rows Hread c parent).
Qed.

Lemma division_levels_rows_witness :
  us_files (QueryEngine.parquet_path us_engine) = QueryEngine.Readable us_rows /\
  fst (fst (QueryEngine.st_get_child_divisions (fun m => m) us_engine us_files 0 "US"
              QueryEngine.no_caches)) =
    [QueryEngine.to_df (ov_record "US-CA" "California" "region" (Some "US"))] /\
  (List.length (fst (fst (QueryEngine.st_get_top_level_divisions (fun m => m) us_engine
                            us_files 0 "US" QueryEngine.no_caches))) <= 1000)%nat.
Proof.
  assert (H : us_files (QueryEngine.parquet_path us_engine) = QueryEngine.Readable us_rows)
    by reflexivity.
  split; [exact H|]. split; [vm_compute; reflexivity|].
  exact (proj1 (proj2 (proj1 (division_levels_rows (fun m => m) us_engine us_files us_rows H 0
                                QueryEngine.no_caches "US" "US" eq_refl eq_refl)))).
Defined.

Lemma like_percent (s : string) : QueryEngine.like "%" s = true.
Proof.
  induction s as [|a s IH]; [reflexivity|]. simpl in *. exact IH.
Qed.

Lemma like_percent_percent (s : string) : QueryEngine.like "%%" s = true.
Proof.
  destruct s as [|a s]; [reflexivity|]. simpl.
  pose proof (like_percent (String a s)) as H. simpl in H. rewrite H. reflexivity.
Qed.

(** The body of [search_boundaries] over readable data. *)
Lemma search_boundaries_body (lower : string -> string) (e : QueryEngine.engine)
    (fs : QueryEngine.files) (rows : list QueryEngine.division_record)
    (Hread : fs (QueryEngine.parquet_path e) = QueryEngine.Readable rows)
    (c search_term : string) :
  let res := fst (QueryEngine.search_boundaries lower e fs c search_term) in
  snd (QueryEngine.search_boundaries lower e fs c search_term) = [] /\
  (List.length res <= 100)%nat /\ Sorted name_order res /\
  (forall d, In d res -> exists r n, In r rows /\ d = QueryEngine.to_df r /\
     QueryEngine.country r = Some c /\ QueryEngine.class r = Some "land" /\
     QueryEngine.names_primary r = Some n) /\
  (lower "%%" = "%%" -> search_term = "" ->
   forall r n, In r rows -> QueryEngine.country r = Some c -> QueryEngine.class r = Some "land" ->
     QueryEngine.names_primary r = Some n -> (List.length res < 100)%nat ->
     In (QueryEngine.to_df r) res).
Proof.
  unfold QueryEngine.search_boundaries. rewrite Hread. cbv zeta. cbn [fst snd].
  match goal with |- context [firstn 100 (QueryEngine.order_by_name
      (map QueryEngine.to_df (filter ?p rows)))] =>
    destruct (limited_query 100 p rows) as (Hlen & Hs & Hsub & Hall) end.
  split; [reflexivity|]. split; [exact Hlen|]. split; [exact Hs|]. split.
  - intros d Hd. destruct (Hsub d Hd) as (r & Hr & Hp & ->).
    unfold QueryEngine.is_land in Hp. rewrite !andb_true_iff, !opt_eqb_true in Hp.
    destruct (QueryEngine.names_primary r) as [n|] eqn:En;
      [|destruct Hp as [_ Hp]; discriminate Hp].
    exists r, n. tauto.
  - intros Hlow -> r n Hr Hc Hl Hn Hlt. apply Hall; [exact Hlt|exact Hr|].
    unfold QueryEngine.is_land. rewrite Hc, Hl, Hn. cbn [QueryEngine.opt_eqb].
    rewrite !String.eqb_refl. cbn [andb].
    change (String.concat "" ["%"; ""; "%"]) with "%%". rewrite Hlow.
    apply like_percent_percent.
Qed.

(** X23: with a readable dataset, a call of the decorated
    [search_boundaries c search_term] that misses the cache returns
    without error at most 100 rows, ordered by name, each the row of a
    named land division of [c].  With an empty search term the pattern is
    ["%%"], which matches every name (given that [LOWER] leaves it
    unchanged): when fewer than 100 rows come back, every named land
    division of [c] is among them. *)
Theorem search_boundaries_results (replayed : list string -> list string)
    (lower : string -> string) (e : QueryEngine.engine)
    (fs : QueryEngine.files) (rows : list QueryEngine.division_record)
    (Hread : fs (QueryEngine.parquet_path e) = QueryEngine.Readable rows)
    (now : Z) (cs : QueryEngine.caches) (c search_term : string)
    (Hm : QueryEngine.cache_lookup QueryEngine.pair_eqb now (c, search_term)
            (QueryEngine.c_search cs) = None) :
  let o := fst (QueryEngine.st_search_boundaries replayed lower e fs now c search_term cs) in
  let res := fst o in
  snd o = [] /\
  (List.length res <= 100)%nat /\ Sorted name_order res /\
  (forall d, In d res -> exists r n, In r rows /\ d = QueryEngine.to_df r /\
     QueryEngine.country r = Some c /\ QueryEngine.class r = Some "land" /\
     QueryEngine.names_primary r = Some n) /\
  (lower "%%" = "%%" -> search_term = "" ->
   forall r n, In r rows -> QueryEngine.country r = Some c -> QueryEngine.class r = Some "land" ->
     QueryEngine.names_primary r = Some n -> (List.length res < 100)%nat ->
     In (QueryEngine.to_df r) res).
Proof.
  unfold QueryEngine.st_search_boundaries.
  rewrite (cache_data_miss _ _ _ _ _ _ _ _ Hm).
  cbn [fst]. exact (search_boundaries_body lower e fs rows Hread c search_term).
Qed.

Lemma search_boundaries_results_witness :
  us_files (QueryEngine.parquet_path us_engine) = QueryEngine.Readable us_rows /\
  fst (fst (QueryEngine.st_search_boundaries (fun m => m) (fun x => x) us_engine us_files 0
              "US" "Cal" QueryEngine.no_caches)) =
    [QueryEngine.to_df (ov_record "US-CA" "California" "region" (Some "US"))] /\
  (List.length (fst (fst (QueryEngine.st_search_boundaries (fun m => m) (fun x => x) us_engine
                            us_files 0 "US" "" QueryEngine.no_caches))) <= 100)%nat.
Proof.
  assert (H : us_files (QueryEngine.parquet_path us_engine) = QueryEngine.Readable us_rows)
    by reflexivity.
  split; [exact H|]. split; [vm_compute; reflexivity|].
  exact (proj1 (proj2 (search_boundaries_results (fun m => m) (fun x => x) us_engine us_files
                         us_rows H 0 QueryEngine.no_caches "US" "" eq_refl))).
Defined.

(** X24: how the selection state drives [query_at_current_level].
    Choosing a new country queries its top-level divisions (choosing the
    current one changes nothing); once a country is chosen, adding a
    division to the path queries that division's children; clearing the
    path goes back to the top level of the country; after [reset] the
    query returns nothing and leaves the caches as they are.  The queries
    are the calls of the decorated methods, with their cache. *)
Theorem selection_state_queries (replayed : list string -> list string)
    (e : QueryEngine.engine) (fs : QueryEngine.files) (now : Z) (cs : QueryEngine.caches)
    (c : string) (d : QueryEngine.df_row) :
  QueryEngine.query_at_current_level replayed (QueryEngine.set_country e c) fs now cs =
    (if QueryEngine.opt_eqb (QueryEngine.eng_country e) c
     then QueryEngine.query_at_current_level replayed e fs now cs
     else QueryEngine.st_get_top_level_divisions replayed e fs now c cs) /\
  (QueryEngine.eng_country e <> None ->
   QueryEngine.query_at_current_level replayed (QueryEngine.add_to_path e d) fs now cs =
     QueryEngine.st_get_child_divisions replayed e fs now (QueryEngine.division_id d) cs) /\
  QueryEngine.query_at_current_level replayed (QueryEngine.clear_path e) fs now cs =
    match QueryEngine.eng_country e with
    | Some c' => QueryEngine.st_get_top_level_divisions replayed e fs now c' cs
    | None => (([], []), cs)
    end /\
  QueryEngine.query_at_current_level replayed (QueryEngine.reset e) fs now cs = (([], []), cs).
Proof.
  split; [|split; [|split]].
  - unfold QueryEngine.set_country.
    destruct (QueryEngine.opt_eqb (QueryEngine.eng_country e) c); reflexivity.
  - intros Hc. unfold QueryEngine.query_at_current_level, QueryEngine.add_to_path.
    cbn [QueryEngine.eng_country QueryEngine.selection_path].
    destruct (QueryEngine.eng_country e) as [c'|]; [|congruence].
    rewrite last_last. destruct (QueryEngine.selection_path e); reflexivity.
  - unfold QueryEngine.query_at_current_level, QueryEngine.clear_path.
    cbn [QueryEngine.eng_country QueryEngine.selection_path].
    destruct (QueryEngine.eng_country e); reflexivity.
  - reflexivity.
Qed.

(** ** Store invariants of the list operations *)

Lemma NoDup_map_filter {A B} (key : A -> B) (keep : A -> bool) (rows : list A) :
  NoDup (map key rows) -> NoDup (map key (filter keep rows)).
Proof.
  induction rows as [|r rs IH]; simpl; intros H; [constructor|].
  inversion H as [|? ? Hna Hnd]; subst.
  destruct (keep r); simpl; [|exact (IH Hnd)].
  constructor; [|exact (IH Hnd)].
  intros Hin. apply Hna. apply in_map_iff in Hin. destruct Hin as (x & Hx & Hin).
  apply filter_In in Hin. apply in_map_iff. exists x. tauto.
Qed.

Lemma Forall_filter_keep {A} (P : A -> Prop) (p : A -> bool) (l : list A) :
  Forall P l -> Forall P (filter p l).
Proof.
  rewrite !Forall_forall. intros H x Hx. apply filter_In in Hx. exact (H x (proj1 Hx)).
Qed.

Lemma Forall_fk_new (nid : Z) (items : list item) (ids : list Z) :
  In nid ids -> Forall (fun p => In (fst p) ids) (map (fun i => (nid, i)) items).
Proof.
  intros H. apply Forall_forall. intros p Hp. apply in_map_iff in Hp.
  destruct Hp as (i & <- & _). exact H.
Qed.

Lemma Forall_fk_incl (L : list (Z * item)) (ids ids' : list Z) :
  Forall (fun p => In (fst p) ids) L -> incl ids ids' -> Forall (fun p => In (fst p) ids') L.
Proof. intros H Hi. apply (Forall_impl _ (fun p Hp => Hi _ Hp) H). Qed.

(** X26: the list operations keep the store's invariants: [lists_ok]
    (distinct positive ids, distinct hashes, each the hash of the list's
    name and type) and [items_ok] (every item row belongs to a stored
    list), whether the call succeeds or fails.  [delete_list] keeps
    [items_ok] by removing the list's item rows with it. *)
Theorem list_operations_keep_invariants (md5 : string -> string) (s : store) :
  lists_ok md5 (lists s) -> items_ok s ->
  (forall name list_type item_ids notes,
     let s' := snd (create_list md5 name list_type item_ids notes s) in
     lists_ok md5 (lists s') /\ items_ok s') /\
  (forall list_id name notes,
     let s' := snd (update_list md5 list_id name notes s) in
     lists_ok md5 (lists s') /\ items_ok s') /\
  (forall list_id item_ids,
     let s' := snd (update_list_items list_id item_ids s) in
     lists_ok md5 (lists s') /\ items_ok s') /\
  (forall list_id,
     let s' := snd (delete_list list_id s) in
     lists_ok md5 (lists s') /\ items_ok s').
Proof.
  intros Hok [Hd Hc]. split; [|split; [|split]].
  - intros name list_type item_ids notes. cbv zeta.
    split; [apply create_list_keeps_lists_ok; exact Hok|].
    destruct item_ids as [|i l]; [split; assumption|].
    cbv beta iota zeta delta [create_list bind get ret raise check_duplicate_list put].
    destruct (negb (String.eqb list_type "division" || String.eqb list_type "client"));
      [split; assumption|].
    match goal with |- context [truthy_id ?x] => destruct (truthy_id x) end;
      [split; assumption|].
    set (nid := next_rowid (map l_id (lists s))).
    assert (Hin : In nid (map l_id (lists s ++ [mk_list nid name list_type notes
                     (_compute_hash md5 name list_type)])))
      by (rewrite map_app; apply in_or_app; right; left; reflexivity).
    assert (Hi : incl (map l_id (lists s)) (map l_id (lists s ++ [mk_list nid name list_type notes
                     (_compute_hash md5 name list_type)])))
      by (rewrite map_app; intros x Hx; apply in_or_app; left; exact Hx).
    rewrite executemany_insert_items_spec.
    match goal with |- context [ok_prefix ?f ?x] => generalize (ok_prefix f x); intros P end.
    match goal with |- context [if ?b then Ok tt else Err fk_error] => destruct b end;
      cbn [snd]; unfold add_items;
    destruct (String.eqb list_type "division"); unfold items_ok;
      cbn [snd lists list_divisions list_clients set_lists set_list_divisions set_list_clients];
      split; try (apply Forall_app; split); eauto using Forall_fk_incl, Forall_fk_new.
  - intros list_id name notes. cbv zeta.
    split; [apply update_list_keeps_lists_ok; exact Hok|].
    destruct (update_list md5 list_id name notes s) as [r s'] eqn:E. cbn [snd].
    destruct r as [[]|e].
    + destruct (update_list_ok_inv md5 s s' list_id name notes E) as (l & ren & _ & -> & _).
      assert (Hids : map l_id (map (update_list_row list_id (option_map fst ren)
                                     (option_map snd ren) notes) (lists s)) = map l_id (lists s)).
      { rewrite map_map. apply map_ext. intros r. apply update_list_row_id. }
      unfold items_ok. cbn [lists list_divisions list_clients set_lists]. rewrite Hids.
      split; assumption.
    + assert (s' = s)
        by (cbv beta iota zeta delta [update_list bind get ret raise check_duplicate_list
                                      put get_list] in E; err_unchanged E).
      subst s'. split; assumption.
  - intros list_id item_ids. cbv zeta.
    destruct item_ids as [|i l]; [split; [exact Hok|split; assumption]|].
    cbv beta iota zeta delta [update_list_items bind get ret raise put get_list].
    destruct (find (fun l0 => l_id l0 =? list_id) (lists s)) as [l0|] eqn:Hf;
      [|split; [exact Hok|split; assumption]].
    apply find_some in Hf. destruct Hf as [Hl Hid]. apply Z.eqb_eq in Hid.
    assert (Hin : In list_id (map l_id (lists s))) by (rewrite <- Hid; apply in_map; exact Hl).
    rewrite executemany_insert_items_spec.
    match goal with |- context [ok_prefix ?f ?x] => generalize (ok_prefix f x); intros P end.
    match goal with |- context [if ?b then Ok tt else Err fk_error] => destruct b end;
      cbn [snd]; unfold add_items;
    destruct (String.eqb (l_type l0) "division"); unfold items_ok;
      cbn [snd lists list_divisions list_clients set_list_divisions set_list_clients];
      (split; [exact Hok|]); split; try (apply Forall_app; split);
      auto using Forall_filter_keep, Forall_fk_new.
  - intros list_id. cbv zeta.
    cbv beta iota zeta delta [delete_list bind get put].
    cbn [snd lists list_divisions list_clients].
    destruct Hok as (Hid & Hh & Hrows). split; [split; [|split]|].
    + apply NoDup_map_filter. exact Hid.
    + apply NoDup_map_filter. exact Hh.
    + apply Forall_filter_keep. exact Hrows.
    + unfold items_ok. cbn [lists list_divisions list_clients].
      assert (Hkeep : forall L : list (Z * item), Forall (fun p => In (fst p) (map l_id (lists s))) L ->
                Forall (fun p => In (fst p) (map l_id (filter (fun l => negb (l_id l =? list_id))
                                                        (lists s))))
                  (filter (fun p => negb (fst p =? list_id)) L)).
      { intros L HL. rewrite Forall_forall in HL |- *. intros p Hp.
        apply filter_In in Hp. destruct Hp as [Hp Hne].
        pose proof (HL p Hp) as Hx. apply in_map_iff in Hx. destruct Hx as (l & Hl & Hin).
        apply in_map_iff. exists l. split; [exact Hl|]. apply filter_In.
        split; [exact Hin|]. rewrite Hl. exact Hne. }
      split; apply Hkeep; assumption.
Qed.

Lemma list_operations_keep_invariants_witness :
  lists_ok md5_id (lists store_two) /\ items_ok store_two /\
  (let s' := snd (delete_list 1 store_two) in lists_ok md5_id (lists s') /\ items_ok s').
Proof.
  assert (Hok : lists_ok md5_id (lists store_two)).
  { split; [|split]; [repeat constructor; simpl; intuition discriminate
                     | repeat constructor; simpl; intuition discriminate
                     | repeat constructor; lia]. }
  assert (Hit : items_ok store_two) by (split; repeat constructor; simpl; tauto).
  split; [exact Hok|]. split; [exact Hit|].
  exact (proj2 (proj2 (proj2 (list_operations_keep_invariants md5_id store_two Hok Hit))) 1).
Defined.

Lemma get_all_lists_members_witness :
  (forall A (l : list A), Permutation ((fun _ l => l) A l) l) /\
  exists res, get_all_lists (fun _ l => l) (Some "") store_two = (Ok res, store_two) /\
    forall r, In r res <->
      In r (lists store_two) /\
      (Some "" = None \/ Some "" = Some "" \/ Some "" = Some (l_type r)).
Proof.
  assert (Hs : forall A (l : list A), Permutation ((fun _ l => l) A l) l)
    by (intros; apply Permutation_refl).
  split; [exact Hs|].
  exact (get_all_lists_members (fun _ l => l) Hs store_two (Some "")).
Defined.

Lemma get_relationships_members_witness :
  (forall A (l : list A), Permutation ((fun _ l => l) A l) l) /\
  exists res, get_relationships (fun _ l => l) (Some 0) store_chain = (Ok res, store_chain) /\
    forall r, In r res <->
      In r (relationships store_chain) /\
      (Some 0 = None \/ Some 0 = Some 0 \/
       exists d, Some 0 = Some d /\
                 (r_parent_division_id r = d \/ r_child_division_id r = d)).
Proof.
  assert (Hs : forall A (l : list A), Permutation ((fun _ l => l) A l) l)
    by (intros; apply Permutation_refl).
  split; [exact Hs|].
  exact (get_relationships_members (fun _ l => l) Hs store_chain (Some 0)).
Defined.
